(** * PostureCV: the posture-monitoring state machine

    A shallow embedding of [src/src/posture_monitor.py] (class
    [PostureMonitor]) and of the ratio computation it shares with
    [src/camera_preview.py], followed by the parts of the user interfaces
    that read the monitor: the status handlers of [src/menu_bar_app.py]
    and [src/src/gui_app.py], the stand-alone preview of
    [src/camera_preview.py] and the preview thread of [src/src/gui_app.py].

    Modelling conventions.
    - In the state machine Python floats are read as real numbers ([R]),
      and comparisons [a < b] become [Rlt_dec a b].  The ratio lines are
      embedded a second time over IEEE binary64 (module [Float64]), for
      the properties that rounding, overflow or NaN decide.
    - The object [self] is the record [PostureMonitor]; a method is a
      function in the state-and-exception monad [Py].
    - The two user callbacks are fields of the object.  A callback either
      returns or raises; which one may depend on the calls made so far, so
      it is a function of the call log.
    - The camera is an oracle: [camera n] is the handle that the [n]-th
      call of [cv2.VideoCapture(0)] returns, and the frames read inside the
      [while] loop are a list of [reading]s.  The list ends where [stop()]
      clears [self.running]. *)

From Stdlib Require Ascii String DecimalString Floats.
From Stdlib Require Import Reals Lra Lia List Bool Arith ZArith.
Import ListNotations.
Import String.StringSyntax Ascii.AsciiSyntax.
Delimit Scope string_scope with string.
Delimit Scope char_scope with char.

Local Open Scope R_scope.

(** ** Data model *)

(** The strings passed to [_update_status]. *)
Inductive status : Type :=
| Idle                          (* "Idle" *)
| ErrorCameraAccessDenied       (* "Error: Camera access denied" *)
| CalibratingStart              (* "Calibrating..." *)
| Calibrating (progress : Z)    (* f"Calibrating: {progress}%" *)
| Monitoring                    (* "Monitoring" *)
| SLOUCHING                     (* "SLOUCHING!" *)
| GoodPosture                   (* "Good posture" *)
| ErrorCameraReadFailed         (* "Error: Camera read failed" *)
| Stopped.                      (* "Stopped" *)

(** One invocation of a user callback. *)
Inductive event : Type :=
| EvStatus (s : status)         (* status_callback(status) *)
| EvWarning.                    (* warning_callback() *)

Inductive call_outcome : Type := Returns | Raises.

(** What [cv2.VideoCapture(0)] hands back: the answer of [isOpened()] and
    the [ret] flag of the first [read()]. *)
Record capture : Type := mkCapture {
  isOpened : bool;
  test_read : bool
}.

(** A normalised MediaPipe landmark. *)
Record landmark : Type := mkLandmark { lm_x : R; lm_y : R }.

(** One [self.cap.read()] of the main loop followed by [self.pose.process]:
    [ret] false, or a frame of shape [(h, w, _)] with the detected
    landmarks (indexed as MediaPipe does) or none. *)
Inductive reading : Type :=
| ReadFailure
| Image (h w : nat) (pose_landmarks : option (nat -> landmark)).

(** The fields of [self] set by [__init__], and a ghost [log] of the
    callback invocations, most recent first.  The lazily created MediaPipe
    objects and the thread handle carry no data of the state machine and
    are left out. *)
Record PostureMonitor : Type := mkMonitor {
  warning_callback : option (list event -> call_outcome);
  status_callback : option (list event -> status -> call_outcome);
  running : bool;
  calibration_frames : nat;
  avg_ratio : R;
  is_calibrated : bool;
  calibration_limit : nat;
  baseline_ratio : R;
  SENSITIVITY : R;
  slouch_timer : nat;
  slouch_trigger_time : nat;
  cap : option capture;
  current_status : status;
  log : list event
}.

(** [PostureMonitor.__init__] *)
Definition __init__
  (warning_callback : option (list event -> call_outcome))
  (status_callback : option (list event -> status -> call_outcome))
  : PostureMonitor :=
  {| warning_callback := warning_callback;
     status_callback := status_callback;
     running := false;
     calibration_frames := 0;
     avg_ratio := 0;
     is_calibrated := false;
     calibration_limit := 90;
     baseline_ratio := 0;
     SENSITIVITY := 85 / 100;
     slouch_timer := 0;
     slouch_trigger_time := 3;
     cap := None;
     current_status := Idle;
     log := [] |}.

(** Field assignments [self.f = v]. *)
Definition set_running (v : bool) (m : PostureMonitor) : PostureMonitor :=
  mkMonitor (warning_callback m) (status_callback m) v
    (calibration_frames m) (avg_ratio m) (is_calibrated m)
    (calibration_limit m) (baseline_ratio m) (SENSITIVITY m)
    (slouch_timer m) (slouch_trigger_time m) (cap m) (current_status m)
    (log m).

Definition set_calibration_frames (v : nat) (m : PostureMonitor)
  : PostureMonitor :=
  mkMonitor (warning_callback m) (status_callback m) (running m)
    v (avg_ratio m) (is_calibrated m)
    (calibration_limit m) (baseline_ratio m) (SENSITIVITY m)
    (slouch_timer m) (slouch_trigger_time m) (cap m) (current_status m)
    (log m).

Definition set_avg_ratio (v : R) (m : PostureMonitor) : PostureMonitor :=
  mkMonitor (warning_callback m) (status_callback m) (running m)
    (calibration_frames m) v (is_calibrated m)
    (calibration_limit m) (baseline_ratio m) (SENSITIVITY m)
    (slouch_timer m) (slouch_trigger_time m) (cap m) (current_status m)
    (log m).

Definition set_is_calibrated (v : bool) (m : PostureMonitor)
  : PostureMonitor :=
  mkMonitor (warning_callback m) (status_callback m) (running m)
    (calibration_frames m) (avg_ratio m) v
    (calibration_limit m) (baseline_ratio m) (SENSITIVITY m)
    (slouch_timer m) (slouch_trigger_time m) (cap m) (current_status m)
    (log m).

Definition set_baseline_ratio (v : R) (m : PostureMonitor)
  : PostureMonitor :=
  mkMonitor (warning_callback m) (status_callback m) (running m)
    (calibration_frames m) (avg_ratio m) (is_calibrated m)
    (calibration_limit m) v (SENSITIVITY m)
    (slouch_timer m) (slouch_trigger_time m) (cap m) (current_status m)
    (log m).

Definition set_slouch_timer (v : nat) (m : PostureMonitor)
  : PostureMonitor :=
  mkMonitor (warning_callback m) (status_callback m) (running m)
    (calibration_frames m) (avg_ratio m) (is_calibrated m)
    (calibration_limit m) (baseline_ratio m) (SENSITIVITY m)
    v (slouch_trigger_time m) (cap m) (current_status m)
    (log m).

Definition set_cap (v : option capture) (m : PostureMonitor)
  : PostureMonitor :=
  mkMonitor (warning_callback m) (status_callback m) (running m)
    (calibration_frames m) (avg_ratio m) (is_calibrated m)
    (calibration_limit m) (baseline_ratio m) (SENSITIVITY m)
    (slouch_timer m) (slouch_trigger_time m) v (current_status m)
    (log m).

Definition set_current_status (v : status) (m : PostureMonitor)
  : PostureMonitor :=
  mkMonitor (warning_callback m) (status_callback m) (running m)
    (calibration_frames m) (avg_ratio m) (is_calibrated m)
    (calibration_limit m) (baseline_ratio m) (SENSITIVITY m)
    (slouch_timer m) (slouch_trigger_time m) (cap m) v
    (log m).

Definition record_call (e : event) (m : PostureMonitor) : PostureMonitor :=
  mkMonitor (warning_callback m) (status_callback m) (running m)
    (calibration_frames m) (avg_ratio m) (is_calibrated m)
    (calibration_limit m) (baseline_ratio m) (SENSITIVITY m)
    (slouch_timer m) (slouch_trigger_time m) (cap m) (current_status m)
    (e :: log m).

(** ** State and exceptions *)

(** A method call ends normally with a value, or an exception leaves it;
    either way the object has been mutated up to that point. *)
Inductive result (A : Type) : Type :=
| Done (a : A) (m : PostureMonitor)
| Raised (m : PostureMonitor).
Arguments Done {A} a m.
Arguments Raised {A} m.

Definition Py (A : Type) : Type := PostureMonitor -> result A.

Definition ret {A : Type} (a : A) : Py A := fun m => Done a m.

Definition bind {A B : Type} (c : Py A) (k : A -> Py B) : Py B :=
  fun m =>
    match c m with
    | Done a m' => k a m'
    | Raised m' => Raised m'
    end.

Definition modify (f : PostureMonitor -> PostureMonitor) : Py unit :=
  fun m => Done tt (f m).

Definition get {A : Type} (f : PostureMonitor -> A) : Py A :=
  fun m => Done (f m) m.

Notation "x <- c ;; k" := (bind c (fun x => k))
  (at level 61, c at next level, right associativity).
Notation "c ;;; k" := (bind c (fun _ => k))
  (at level 61, right associativity).

(** The object after the call, however the call ended. *)
Definition final {A : Type} (r : result A) : PostureMonitor :=
  match r with
  | Done _ m => m
  | Raised m => m
  end.

(** ** Ratio calculator (lines 161-170; the same lines in camera_preview.py) *)

(** [np.array(a) - np.array(b)] on two-element lists. *)
Definition np_sub (a b : R * R) : R * R := (fst a - fst b, snd a - snd b).

(** [np.linalg.norm] of a two-element vector. *)
Definition np_linalg_norm (v : R * R) : R :=
  sqrt (fst v * fst v + snd v * snd v).

(** From the three pixel points to [current_ratio]; [None] when the guard
    [shldr_width > 0] fails and the tick does nothing. *)
Definition compute_ratio (nose l_shldr r_shldr : R * R) : option R :=
  let shldr_mid_y := (snd l_shldr + snd r_shldr) / 2 in
  let neck_height := Rabs (shldr_mid_y - snd nose) in
  let shldr_width := np_linalg_norm (np_sub l_shldr r_shldr) in
  if Rlt_dec 0 shldr_width then Some (neck_height / shldr_width) else None.

(** [[lm[i].x * w, lm[i].y * h]] *)
Definition to_pixels (p : landmark) (h w : nat) : R * R :=
  (lm_x p * INR w, lm_y p * INR h).

(** *** The same lines in binary64

    Lines 161-170 as CPython and NumPy evaluate them: every operation
    rounds to the nearest double, and overflow yields an infinity, not an
    exception.  [np.linalg.norm] of a real vector is the square root of
    its dot product with itself; the properties proved of the ratio use
    the guard [shldr_width > 0] and the final division only, not the way
    the dot product is rounded. *)
Module Float64.
Import Floats.
Local Open Scope float_scope.

Definition shldr_mid_y (l_shldr r_shldr : float * float) : float :=
  (snd l_shldr + snd r_shldr) / 2.

Definition neck_height (nose l_shldr r_shldr : float * float) : float :=
  abs (shldr_mid_y l_shldr r_shldr - snd nose).

Definition np_sub (a b : float * float) : float * float :=
  (fst a - fst b, snd a - snd b).

Definition np_linalg_norm (v : float * float) : float :=
  sqrt (fst v * fst v + snd v * snd v).

Definition shldr_width (l_shldr r_shldr : float * float) : float :=
  np_linalg_norm (np_sub l_shldr r_shldr).

Definition compute_ratio (nose l_shldr r_shldr : float * float) : option float :=
  if 0 <? shldr_width l_shldr r_shldr
  then Some (neck_height nose l_shldr r_shldr / shldr_width l_shldr r_shldr)
  else None.




End Float64.

(** ** Methods of [PostureMonitor] *)

(** Python's [int(x)] on a float: truncation towards zero. *)
Definition py_int (x : R) : Z :=
  if Rle_dec 0 x then Int_part x else (- Int_part (- x))%Z.

(** [_update_status] (lines 61-65).  The call is not guarded: when the
    callback raises, the exception leaves [_update_status]. *)
Definition _update_status (s : status) : Py unit :=
  fun m =>
    let m := set_current_status s m in
    match status_callback m with
    | None => Done tt m
    | Some cb =>
        match cb (log m) s with
        | Returns => Done tt (record_call (EvStatus s) m)
        | Raises => Raised (record_call (EvStatus s) m)
        end
    end.

(** Lines 199-200: [if self.warning_callback: self.warning_callback()]. *)
Definition call_warning_callback : Py unit :=
  fun m =>
    match warning_callback m with
    | None => Done tt m
    | Some cb =>
        match cb (log m) with
        | Returns => Done tt (record_call EvWarning m)
        | Raises => Raised (record_call EvWarning m)
        end
    end.

(** Lines 173-184, the calibration phase.  The float division by
    [self.calibration_limit] raises [ZeroDivisionError] on 0. *)
Definition calibration_phase (current_ratio : R) : Py unit :=
  fun m =>
    let m := set_calibration_frames (calibration_frames m + 1) m in
    let m := set_avg_ratio (avg_ratio m + current_ratio) m in
    if Nat.eqb (calibration_limit m) 0 then Raised m
    else
      let progress :=
        py_int (INR (calibration_frames m) / INR (calibration_limit m) * 100) in
      (_update_status (Calibrating progress) ;;;
       frames <- get calibration_frames ;;
       limit <- get calibration_limit ;;
       if limit <=? frames then
         modify (fun m =>
                   set_baseline_ratio (avg_ratio m / INR (calibration_limit m)) m) ;;;
         modify (set_is_calibrated true) ;;;
         _update_status Monitoring
       else ret tt) m.

(** Lines 188-195: the comparison with the threshold. *)
Definition check_slouch (current_ratio : R) : Py unit :=
  fun m =>
    if Rlt_dec current_ratio (baseline_ratio m * SENSITIVITY m) then
      (modify (fun m => set_slouch_timer (slouch_timer m + 1) m) ;;;
       t <- get slouch_timer ;;
       if 15 <? t then _update_status SLOUCHING else ret tt) m
    else
      (modify (set_slouch_timer 0) ;;;
       _update_status GoodPosture) m.

(** Lines 197-201: the warning after sustained slouching.  The reset of
    the timer follows the callback and is skipped when the callback
    raises. *)
Definition trigger_warning : Py unit :=
  t <- get slouch_timer ;;
  trigger <- get slouch_trigger_time ;;
  if 30 * trigger <? t then
    call_warning_callback ;;;
    modify (set_slouch_timer 0)
  else ret tt.

(** Lines 187-201, the monitoring phase. *)
Definition monitoring_phase (current_ratio : R) : Py unit :=
  check_slouch current_ratio ;;;
  trigger_warning.

(** Lines 172-201: what is done with a computed [current_ratio]. *)
Definition on_ratio (current_ratio : R) : Py unit :=
  calibrated <- get is_calibrated ;;
  if negb calibrated then calibration_phase current_ratio
  else monitoring_phase current_ratio.

(** Lines 149-201: one successfully read frame. *)
Definition on_frame (h w : nat) (pose_landmarks : option (nat -> landmark))
  : Py unit :=
  match pose_landmarks with
  | Some lm =>
      let nose := to_pixels (lm 0%nat) h w in
      let l_shldr := to_pixels (lm 11%nat) h w in
      let r_shldr := to_pixels (lm 12%nat) h w in
      match compute_ratio nose l_shldr r_shldr with
      | Some current_ratio => on_ratio current_ratio
      | None => ret tt
      end
  | None => ret tt
  end.

Definition max_consecutive_failures : nat := 30.

(** Lines 133-208, the [while] loop, with the local variable
    [consecutive_failures].  The list is exhausted where the loop sees
    [self.running] cleared. *)
Fixpoint while_loop (frames : list reading) (consecutive_failures : nat)
  : Py unit :=
  match frames with
  | [] => ret tt
  | ReadFailure :: rest =>
      let consecutive_failures := (consecutive_failures + 1)%nat in
      if max_consecutive_failures <=? consecutive_failures then
        _update_status ErrorCameraReadFailed
      else while_loop rest consecutive_failures
  | Image h w pose_landmarks :: rest =>
      on_frame h w pose_landmarks ;;;
      while_loop rest 0
  end.

(** Lines 104-115, the [for attempt in range(3)] loop: the value of
    [self.cap] when the loop is left, and the number of
    [cv2.VideoCapture(0)] calls made. *)
Fixpoint open_camera (camera : nat -> capture) (attempts : list nat)
  (cap : option capture) (calls : nat) : option capture * nat :=
  match attempts with
  | [] => (cap, calls)
  | attempt :: rest =>
      let c := camera attempt in
      if isOpened c then
        if test_read c then (Some c, S calls)
        else open_camera camera rest (Some c) (S calls)
      else open_camera camera rest None (S calls)
  end.

(** [not self.cap or not self.cap.isOpened()] *)
Definition cap_unusable (c : option capture) : bool :=
  match c with
  | None => true
  | Some c => negb (isOpened c)
  end.

(** Lines 104-131: everything before the [while] loop; the result tells
    whether the loop is entered. *)
Definition session_setup (camera : nat -> capture) : Py bool :=
  modify (set_cap None) ;;;
  modify (set_cap (fst (open_camera camera (seq 0 3) None 0))) ;;;
  c <- get cap ;;
  if cap_unusable c then
    _update_status ErrorCameraAccessDenied ;;;
    modify (set_running false) ;;;
    ret false
  else
    _update_status CalibratingStart ;;;
    modify (set_calibration_frames 0) ;;;
    modify (set_avg_ratio 0) ;;;
    modify (set_is_calibrated false) ;;;
    ret true.

(** Lines 210-223. *)
Definition cleanup : Py unit :=
  modify (set_cap None) ;;;
  modify (set_running false) ;;;
  _update_status Stopped.

(** [_monitor_loop] (lines 101-223). *)
Definition _monitor_loop (camera : nat -> capture) (frames : list reading)
  : Py unit :=
  entered <- session_setup camera ;;
  if entered then while_loop frames 0 ;;; cleanup else ret tt.

(** The body of a [threading.Thread]: an exception that leaves it ends the
    thread and does not reach the caller of [start]. *)
Definition thread_run (body : Py unit) : Py unit :=
  fun m => Done tt (final (body m)).

(** [start] (lines 67-75); the thread is run to the point where it stops. *)
Definition start (camera : nat -> capture) (frames : list reading) : Py unit :=
  r <- get running ;;
  if r then ret tt
  else
    modify (set_running true) ;;;
    thread_run (_monitor_loop camera frames).

(** [stop] (lines 77-99). *)
Definition stop : Py unit :=
  modify (set_running false) ;;;
  modify (set_cap None) ;;;
  _update_status Stopped.

(** One monitoring session: [start()], the frames read until [stop()]. *)
Definition session (camera : nat -> capture) (frames : list reading) : Py unit :=
  start camera frames ;;; stop.

(** ** Vocabulary of the properties *)

(** The Euclidean distance of two points, as the specification words it. *)
Definition euclidean_distance (p q : R * R) : R :=
  sqrt (Rsqr (fst p - fst q) + Rsqr (snd p - snd q)).

(** The ratio the loop computes from a reading, if it computes one. *)
Definition frame_ratio (f : reading) : option R :=
  match f with
  | Image h w (Some lm) =>
      compute_ratio (to_pixels (lm 0%nat) h w) (to_pixels (lm 11%nat) h w)
        (to_pixels (lm 12%nat) h w)
  | _ => None
  end.

(** [self.baseline_ratio * self.SENSITIVITY] *)
Definition threshold (m : PostureMonitor) : R :=
  baseline_ratio m * SENSITIVITY m.

(** [30 * self.slouch_trigger_time] *)
Definition trigger_frames (m : PostureMonitor) : nat :=
  (30 * slouch_trigger_time m)%nat.

(** A reading whose ratio is below, or at or above, the threshold. *)
Definition slouched (m : PostureMonitor) (f : reading) : Prop :=
  exists q, frame_ratio f = Some q /\ q < threshold m.

Definition upright (m : PostureMonitor) (f : reading) : Prop :=
  exists q, frame_ratio f = Some q /\ threshold m <= q.

(** The readings of [frames] yield exactly the ratios [qs]. *)
Definition ratios_of (frames : list reading) (qs : list R) : Prop :=
  Forall2 (fun f q => frame_ratio f = Some q) frames qs.

Definition Rsum (qs : list R) : R := fold_right Rplus 0 qs.

(** Number of [warning_callback()] invocations in a call log. *)
Fixpoint warnings_in (l : list event) : nat :=
  match l with
  | [] => 0
  | EvWarning :: l => S (warnings_in l)
  | EvStatus _ :: l => warnings_in l
  end.

Definition alerts (m : PostureMonitor) : nat := warnings_in (log m).

(** Both callbacks, where registered, return normally whenever called. *)
Definition quiet (m : PostureMonitor) : Prop :=
  (forall cb, warning_callback m = Some cb -> forall l, cb l = Returns) /\
  (forall cb, status_callback m = Some cb -> forall l s, cb l s = Returns).

(** The fields that are assigned in [__init__] only. *)
Definition steady (m m' : PostureMonitor) : Prop :=
  warning_callback m' = warning_callback m /\
  status_callback m' = status_callback m /\
  calibration_limit m' = calibration_limit m /\
  SENSITIVITY m' = SENSITIVITY m /\
  slouch_trigger_time m' = slouch_trigger_time m.

(** What a returning [_update_status] leaves behind. *)
Definition published (s : status) (m : PostureMonitor) : PostureMonitor :=
  match status_callback m with
  | None => set_current_status s m
  | Some _ => record_call (EvStatus s) (set_current_status s m)
  end.

(** [start()] up to the first test of the [while] condition. *)
Definition begin_session (camera : nat -> capture) : Py bool :=
  modify (set_running true) ;;; session_setup camera.

(** The fields that the monitoring phase leaves alone. *)
Definition kept (m m' : PostureMonitor) : Prop :=
  steady m m' /\
  calibration_frames m' = calibration_frames m /\
  avg_ratio m' = avg_ratio m /\
  is_calibrated m' = is_calibrated m /\
  baseline_ratio m' = baseline_ratio m.

(** [k] invocations of the warning callback, if one is registered. *)
Definition warning_calls (m : PostureMonitor) (k : nat) : nat :=
  match warning_callback m with
  | Some _ => k
  | None => 0%nat
  end.

(** The same object with another warning callback registered. *)
Definition rewire (w : option (list event -> call_outcome))
  (m : PostureMonitor) : PostureMonitor :=
  mkMonitor w (status_callback m) (running m)
    (calibration_frames m) (avg_ratio m) (is_calibrated m)
    (calibration_limit m) (baseline_ratio m) (SENSITIVITY m)
    (slouch_timer m) (slouch_trigger_time m) (cap m) (current_status m)
    (log m).

Definition map_result {A : Type} (f : PostureMonitor -> PostureMonitor)
  (r : result A) : result A :=
  match r with
  | Done a m => Done a (f m)
  | Raised m => Raised (f m)
  end.

(** *** Concrete inputs *)

(** A 640x480 frame with level shoulders 128 pixels apart and the nose
    [128 * q] pixels above them: its ratio is [q]. *)
Definition pose_with_ratio (q : R) (i : nat) : landmark :=
  match i with
  | 11%nat => mkLandmark (4 / 10) (8 / 10)
  | 12%nat => mkLandmark (6 / 10) (8 / 10)
  | _ => mkLandmark (5 / 10) (8 / 10 - 4 * q / 15)
  end.

Definition frame_with_ratio (q : R) : reading :=
  Image 480 640 (Some (pose_with_ratio q)).

(** A camera that opens and delivers at the first attempt. *)
Definition camera_ready (attempt : nat) : capture := mkCapture true true.

(** A camera that opens at every attempt and never delivers the test frame. *)
Definition camera_mute (attempt : nat) : capture := mkCapture true false.

(** Callbacks of a user interface: they return, or they always raise. *)
Definition warn_ok (l : list event) : call_outcome := Returns.
Definition status_ok (l : list event) (s : status) : call_outcome := Returns.
Definition status_broken (l : list event) (s : status) : call_outcome := Raises.

(** The monitor as the user interfaces build it, with callbacks that
    return. *)
Definition ui_monitor : PostureMonitor :=
  __init__ (Some warn_ok) (Some status_ok).

(** The same with a status callback that raises. *)
Definition broken_ui_monitor : PostureMonitor :=
  __init__ (Some warn_ok) (Some status_broken).

(** A warning callback that raises whenever it is called, and a status
    callback that raises on the progress reports of the calibration. *)
Definition warn_broken (l : list event) : call_outcome := Raises.
Definition status_flaky (l : list event) (s : status) : call_outcome :=
  match s with
  | Calibrating _ => Raises
  | _ => Returns
  end.

(** Monitors with one of them registered. *)
Definition broken_alert_monitor : PostureMonitor :=
  __init__ (Some warn_broken) (Some status_ok).

Definition flaky_ui_monitor : PostureMonitor :=
  __init__ (Some warn_ok) (Some status_flaky).

(** A running monitor whose calibration measured a baseline of 1. *)
Definition calibrated_monitor : PostureMonitor :=
  set_current_status Monitoring
    (set_is_calibrated true
       (set_baseline_ratio 1
          (set_avg_ratio 90
             (set_calibration_frames 90
                (set_cap (Some (camera_ready 0))
                   (set_running true ui_monitor)))))).

(** ** Further vocabulary: the loop, the camera and the user interfaces *)

(** Bursts of failed reads, each followed by one successful read. *)
Definition with_failures (bursts : list (nat * reading)) : list reading :=
  flat_map (fun b => repeat ReadFailure (fst b) ++ [snd b]) bursts.

(** A reading from which the loop computes a ratio. *)
Definition has_ratio (f : reading) : bool :=
  match frame_ratio f with
  | Some _ => true
  | None => false
  end.

(** The bookkeeping of the calibration: the frame count never passes the
    limit, the flag is set exactly at the limit, and the baseline is then
    the mean of the sum. *)
Definition calibration_consistent (m : PostureMonitor) : Prop :=
  (calibration_frames m <= calibration_limit m)%nat /\
  (is_calibrated m = true ->
   calibration_frames m = calibration_limit m /\
   baseline_ratio m = avg_ratio m / INR (calibration_limit m)) /\
  (is_calibrated m = false ->
   (calibration_frames m < calibration_limit m)%nat).

(** An attempt that passes both checks of the retry loop. *)
Definition passes (c : capture) : bool := isOpened c && test_read c.

(** *** Status strings and the user interfaces *)

(** The string that [_update_status] receives for a status. *)
Definition status_text (s : status) : String.string :=
  match s with
  | Idle => "Idle"
  | ErrorCameraAccessDenied => "Error: Camera access denied"
  | CalibratingStart => "Calibrating..."
  | Calibrating progress =>
      String.append "Calibrating: "
        (String.append
           (DecimalString.NilZero.string_of_int (Z.to_int progress)) "%")
  | Monitoring => "Monitoring"
  | SLOUCHING => "SLOUCHING!"
  | GoodPosture => "Good posture"
  | ErrorCameraReadFailed => "Error: Camera read failed"
  | Stopped => "Stopped"
  end%string.

(** Python's [needle in hay] on strings. *)
Fixpoint py_in (needle hay : String.string) : bool :=
  String.prefix needle hay ||
  match hay with
  | String.EmptyString => false
  | String.String _ rest => py_in needle rest
  end.

Arguments py_in (needle hay)%_string.

(** A character occurs in a string. *)
Fixpoint occurs (c : Ascii.ascii) (s : String.string) : bool :=
  match s with
  | String.EmptyString => false
  | String.String a rest => Ascii.eqb c a || occurs c rest
  end.

Arguments occurs c%_char s%_string.

Module MenuBar.

(** [PostureCorrectorApp.update_status] (menu_bar_app.py, lines 34-45):
    the new [self.title]. *)
Definition update_status (status : String.string) : String.string :=
  (if py_in "SLOUCHING" status then "P!"
   else if py_in "Calibrating" status then "P~"
   else if py_in "Good" status then "P"
   else if py_in "Error" status then "P?"
   else "P")%string.

End MenuBar.

Module Gui.

(** The five looks of [self.status_label]: each branch of
    [on_status_update] sets the text and the style sheet together. *)
Inductive label : Type :=
| LabelSlouching      (* "SLOUCHING", red on pink *)
| LabelCalibrating    (* "Calibrating...", orange *)
| LabelGood           (* "Good Posture", green *)
| LabelError          (* "Error", red on pink *)
| LabelIdle.          (* "Idle", grey *)

(** The widgets that [on_status_update] writes. *)
Record window : Type := mkWindow {
  start_button_enabled : bool;
  stop_button_enabled : bool;
  status_label : label;
  details_text : list String.string
}.

(** [PostureCorrectorWindow.on_status_update] (gui_app.py, lines 633-662);
    [monitor_running] is [self.monitor.running] at the time of the call. *)
Definition on_status_update (monitor_running : bool) (status : String.string)
  (w : window) : window :=
  let w :=
    if (py_in "Stopped" status || py_in "Error" status)%string then
      if negb monitor_running then
        mkWindow true false (status_label w)
          (if py_in "Error" status
           then details_text w
                ++ [String.append "Monitoring stopped due to error: "%string
                      status]
           else details_text w)
      else w
    else w in
  let l :=
    (if py_in "SLOUCHING" status then LabelSlouching
     else if py_in "Calibrating" status then LabelCalibrating
     else if py_in "Good" status then LabelGood
     else if py_in "Error" status then LabelError
     else if py_in "Stopped" status then LabelIdle
     else LabelIdle)%string in
  mkWindow (start_button_enabled w) (stop_button_enabled w) l (details_text w).

End Gui.

(** Python's truth value of [baseline_ratio]: neither [None] nor 0. *)
Definition truthy (baseline_ratio : option R) : bool :=
  match baseline_ratio with
  | Some b => if Req_EM_T b 0 then false else true
  | None => false
  end.

(** An OpenCV colour, blue-green-red. *)
Definition bgr : Type := (nat * nat * nat)%type.

Module Preview.

Definition SENSITIVITY : R := 85 / 100.
Definition window_width : nat := 320.
Definition window_height : nat := 240.

(** What one iteration of the preview loop writes on the image, apart
    from the "Press Q to close" line. *)
Inductive overlay : Type :=
| Hint
| Ratio (current_ratio : R)
| Status (status : String.string) (color : bgr)
    (current_ratio baseline_ratio : R).

Arguments Status status%_string color current_ratio baseline_ratio.

(** Lines 76-161 of camera_preview.py: the frame is resized to 320x240
    before the pose is detected, so [h, w] are those of the window. *)
Definition draw (baseline_ratio : option R)
  (pose_landmarks : option (nat -> landmark)) : overlay :=
  match pose_landmarks with
  | Some lm =>
      let h := window_height in
      let w := window_width in
      let nose := to_pixels (lm 0%nat) h w in
      let l_shldr := to_pixels (lm 11%nat) h w in
      let r_shldr := to_pixels (lm 12%nat) h w in
      match compute_ratio nose l_shldr r_shldr with
      | Some current_ratio =>
          match baseline_ratio with
          | Some b =>
              if truthy baseline_ratio then
                if Rlt_dec current_ratio (b * SENSITIVITY)
                then Status "SLOUCHING"%string (0, 0, 255)%nat current_ratio b
                else Status "GOOD POSTURE"%string (0, 255, 0)%nat current_ratio b
              else Ratio current_ratio
          | None => Ratio current_ratio
          end
      | None => Hint
      end
  | None => Hint
  end.

(** Lines 71-170, the [while] loop: every event is a read and whether
    'q' is pressed after the frame is shown; the result lists what was
    shown. *)
Fixpoint preview_loop (baseline_ratio : option R)
  (events : list (reading * bool)) : list overlay :=
  match events with
  | [] => []
  | (ReadFailure, _) :: _ => []
  | (Image _ _ pose_landmarks, q_pressed) :: rest =>
      draw baseline_ratio pose_landmarks
      :: (if q_pressed then [] else preview_loop baseline_ratio rest)
  end.

(** [show_camera_preview] (lines 12-188), MediaPipe being installed: [c]
    is the handle of the one [cv2.VideoCapture(0)] call. *)
Definition show_camera_preview (baseline_ratio : option R) (c : capture)
  (events : list (reading * bool)) : list overlay :=
  if negb (isOpened c) then [] else preview_loop baseline_ratio events.

End Preview.

Module CameraThread.

Definition SENSITIVITY : R := 85 / 100.

(** Lines 79-112 of gui_app.py, the [for attempt in range(5)] loop;
    [camera n = None] when the [n]-th attempt raises inside the [try]. *)
Fixpoint open_camera (camera : nat -> option capture) (attempts : list nat)
  (cap : option capture) : option capture :=
  match attempts with
  | [] => cap
  | attempt :: rest =>
      match camera attempt with
      | Some c =>
          if isOpened c then
            if test_read c then Some c
            else open_camera camera rest None
          else open_camera camera rest None
      | None => open_camera camera rest None
      end
  end.

(** Lines 176-203: the status text and its colour. *)
Definition status_overlay (monitor : option PostureMonitor)
  (baseline_ratio : option R) (current_ratio : R)
  : option (String.string * bgr) :=
  let status :=
    match monitor with
    | Some mon =>
        if running mon then
          let monitor_status := status_text (current_status mon) in
          if py_in "SLOUCHING" monitor_status || py_in "SLOUCH" monitor_status
          then Some ("SLOUCHING"%string, (0, 0, 255)%nat)
          else if py_in "Calibrating" monitor_status
          then Some ("CALIBRATING..."%string, (0, 165, 255)%nat)
          else if py_in "Good" monitor_status
          then Some ("GOOD POSTURE"%string, (0, 255, 0)%nat)
          else if py_in "Error" monitor_status
          then Some ("ERROR"%string, (0, 0, 255)%nat)
          else None
        else None
    | None => None
    end in
  match status with
  | Some s => Some s
  | None =>
      match baseline_ratio with
      | Some b =>
          if truthy baseline_ratio then
            if Rlt_dec current_ratio (b * SENSITIVITY)
            then Some ("SLOUCHING"%string, (0, 0, 255)%nat)
            else Some ("GOOD POSTURE"%string, (0, 255, 0)%nat)
          else None
      | None => None
      end
  end.

End CameraThread.

(** Reduction of field accesses after assignments. *)
Ltac fields :=
  cbn [warning_callback status_callback running calibration_frames avg_ratio
       is_calibrated calibration_limit baseline_ratio SENSITIVITY slouch_timer
       slouch_trigger_time cap current_status log
       set_running set_calibration_frames set_avg_ratio set_is_calibrated
       set_baseline_ratio set_slouch_timer set_cap set_current_status
       record_call rewire] in *.

(** ** Ratio calculator: properties *)

Section RatioFacts.

Lemma norm_is_distance (p q : R * R) :
  np_linalg_norm (np_sub p q) = euclidean_distance p q.
Proof. reflexivity. Qed.

Lemma distance_nonneg (p q : R * R) : 0 <= euclidean_distance p q.
Proof. apply sqrt_pos. Qed.

Lemma compute_ratio_some (nose l r : R * R) :
  0 < euclidean_distance l r ->
  compute_ratio nose l r =
    Some (Rabs ((snd l + snd r) / 2 - snd nose) / euclidean_distance l r).
Proof.
  intros Hd. unfold compute_ratio. rewrite norm_is_distance.
  destruct (Rlt_dec 0 (euclidean_distance l r)) as [_ | Hn]; [reflexivity | ].
  contradiction.
Qed.

Lemma compute_ratio_none (nose l r : R * R) :
  euclidean_distance l r <= 0 -> compute_ratio nose l r = None.
Proof.
  intros Hd. unfold compute_ratio. rewrite norm_is_distance.
  destruct (Rlt_dec 0 (euclidean_distance l r)) as [Hp | _]; [lra | reflexivity].
Qed.

(** A level shoulder line: the distance is the difference of the abscissae. *)
Lemma distance_level (x1 x2 y : R) :
  x1 <= x2 -> euclidean_distance (x1, y) (x2, y) = x2 - x1.
Proof.
  intros Hx. unfold euclidean_distance. cbn [fst snd].
  replace (Rsqr (x1 - x2) + Rsqr (y - y)) with (Rsqr (x2 - x1))
    by (unfold Rsqr; ring).
  apply sqrt_Rsqr. lra.
Qed.

End RatioFacts.

(** C9. For a pose triple in pixel coordinates: when the Euclidean
    distance between the two shoulder points is at most 0, no ratio is
    computed and the tick changes nothing (the loop goes on to the next
    frame with the monitor as it was); otherwise the ratio is
    [|((left.y + right.y) / 2) - nose.y|] divided by that distance. *)
Theorem ratio_formula_or_skip :
  forall nose l_shldr r_shldr : R * R,
    (euclidean_distance l_shldr r_shldr <= 0 ->
     compute_ratio nose l_shldr r_shldr = None) /\
    (0 < euclidean_distance l_shldr r_shldr ->
     compute_ratio nose l_shldr r_shldr =
       Some (Rabs ((snd l_shldr + snd r_shldr) / 2 - snd nose)
             / euclidean_distance l_shldr r_shldr)) /\
    (forall h w lm rest cf m,
        nose = to_pixels (lm 0%nat) h w ->
        l_shldr = to_pixels (lm 11%nat) h w ->
        r_shldr = to_pixels (lm 12%nat) h w ->
        euclidean_distance l_shldr r_shldr <= 0 ->
        on_frame h w (Some lm) m = Done tt m /\
        while_loop (Image h w (Some lm) :: rest) cf m = while_loop rest 0 m).
Proof.
  intros nose l r. split; [ | split].
  - apply compute_ratio_none.
  - apply compute_ratio_some.
  - intros h w lm rest cf m -> -> -> Hd.
    assert (Hf : on_frame h w (Some lm) m = Done tt m).
    { unfold on_frame. now rewrite compute_ratio_none. }
    split; [exact Hf | ].
    cbn [while_loop]. unfold bind. now rewrite Hf.
Qed.

Lemma ratio_formula_or_skip_witness :
  compute_ratio (2, 0) (0, 3) (4, 3) = Some (3 / 4) /\
  compute_ratio (2, 0) (1, 3) (1, 3) = None.
Proof.
  split.
  - destruct (ratio_formula_or_skip (2, 0) (0, 3) (4, 3)) as (_ & Hsome & _).
    rewrite Hsome; rewrite distance_level by lra; cbn [fst snd].
    + f_equal. replace ((3 + 3) / 2 - 0) with 3 by field.
      rewrite Rabs_pos_eq by lra. field.
    + lra.
  - destruct (ratio_formula_or_skip (2, 0) (1, 3) (1, 3)) as (Hnone & _).
    apply Hnone. rewrite distance_level by lra. lra.
Defined.

(** ** The ratio in binary64 *)

Section Float64Facts.

Import Floats.
Local Open Scope float_scope.


















End Float64Facts.

(** ** The monitor: basic facts *)

Section MonitorBasics.

Lemma bind_done {A B : Type} (c : Py A) (k : A -> Py B) m a m1 :
  c m = Done a m1 -> bind c k m = k a m1.
Proof. intros H. unfold bind. now rewrite H. Qed.

Lemma bind_raised {A B : Type} (c : Py A) (k : A -> Py B) m m1 :
  c m = Raised m1 -> bind c k m = Raised m1.
Proof. intros H. unfold bind. now rewrite H. Qed.

Lemma steady_refl m : steady m m.
Proof. unfold steady. tauto. Qed.

Lemma steady_trans m1 m2 m3 : steady m1 m2 -> steady m2 m3 -> steady m1 m3.
Proof. unfold steady. intuition congruence. Qed.

Lemma steady_quiet m m' : steady m m' -> quiet m -> quiet m'.
Proof.
  intros (Hw & Hs & _) (Qw & Qs). split.
  - intros cb Hcb. apply Qw. congruence.
  - intros cb Hcb. apply Qs. congruence.
Qed.

Lemma steady_trigger m m' : steady m m' -> trigger_frames m' = trigger_frames m.
Proof. intros (_ & _ & _ & _ & Ht). unfold trigger_frames. now rewrite Ht. Qed.

Lemma published_steady s m : steady m (published s m).
Proof. unfold published. destruct (status_callback m) eqn:E; unfold steady; cbn; tauto. Qed.

Lemma published_status s m : current_status (published s m) = s.
Proof. unfold published. now destruct (status_callback m). Qed.

Lemma published_alerts s m : alerts (published s m) = alerts m.
Proof. unfold published, alerts. now destruct (status_callback m). Qed.

Lemma published_log s m :
  log (published s m) =
    match status_callback m with
    | Some _ => EvStatus s :: log m
    | None => log m
    end.
Proof. unfold published. now destruct (status_callback m). Qed.

Lemma published_calibration s m :
  calibration_frames (published s m) = calibration_frames m /\
  avg_ratio (published s m) = avg_ratio m /\
  is_calibrated (published s m) = is_calibrated m /\
  baseline_ratio (published s m) = baseline_ratio m /\
  slouch_timer (published s m) = slouch_timer m.
Proof. unfold published. now destruct (status_callback m). Qed.

(** With callbacks that return, [_update_status] returns. *)
Lemma update_status_quiet s m :
  quiet m -> _update_status s m = Done tt (published s m).
Proof.
  intros (_ & Qs). unfold _update_status, published. cbn.
  destruct (status_callback m) as [cb | ] eqn:E; [ | reflexivity].
  now rewrite (Qs cb eq_refl).
Qed.

Lemma call_warning_quiet m :
  quiet m ->
  exists m', call_warning_callback m = Done tt m' /\
             steady m m' /\
             slouch_timer m' = slouch_timer m /\
             current_status m' = current_status m /\
             calibration_frames m' = calibration_frames m /\
             avg_ratio m' = avg_ratio m /\
             is_calibrated m' = is_calibrated m /\
             baseline_ratio m' = baseline_ratio m /\
             alerts m' =
               match warning_callback m with
               | Some _ => S (alerts m)
               | None => alerts m
               end.
Proof.
  intros (Qw & _). unfold call_warning_callback.
  destruct (warning_callback m) as [cb | ] eqn:E.
  - rewrite (Qw cb eq_refl). eexists. split; [reflexivity | ].
    unfold steady, alerts. cbn. tauto.
  - exists m. unfold steady. tauto.
Qed.

End MonitorBasics.

(** ** The monitoring phase *)

Section MonitoringPhase.

Lemma kept_refl m : kept m m.
Proof. unfold kept. pose proof (steady_refl m). tauto. Qed.

Lemma kept_trans m1 m2 m3 : kept m1 m2 -> kept m2 m3 -> kept m1 m3.
Proof.
  intros (S1 & H1) (S2 & H2). split; [eapply steady_trans; eauto | ].
  intuition congruence.
Qed.

Lemma kept_published s m : kept m (published s m).
Proof.
  split; [apply published_steady | ].
  pose proof (published_calibration s m). tauto.
Qed.

Lemma kept_set_slouch_timer v m : kept m (set_slouch_timer v m).
Proof. unfold kept, steady. fields. tauto. Qed.

Lemma trigger_warning_quiet m :
  quiet m ->
  exists m',
    trigger_warning m = Done tt m' /\ kept m m' /\
    current_status m' = current_status m /\
    (slouch_timer m <= trigger_frames m ->
       m' = m)%nat /\
    (trigger_frames m < slouch_timer m ->
       slouch_timer m' = 0 /\
       alerts m' = match warning_callback m with
                   | Some _ => S (alerts m)
                   | None => alerts m
                   end)%nat.
Proof.
  intros Q. unfold trigger_warning, bind, get. fold (trigger_frames m).
  destruct (trigger_frames m <? slouch_timer m)%nat eqn:E.
  - apply Nat.ltb_lt in E.
    destruct (call_warning_quiet m Q)
      as (m1 & -> & St & Ht & Hs & Hcf & Hav & Hic & Hb & Ha).
    eexists. split; [reflexivity | ].
    split; [ | split; [ | split]].
    + unfold kept, steady in *. fields. tauto.
    + fields. exact Hs.
    + lia.
    + intros _. unfold alerts in *. fields. tauto.
  - apply Nat.ltb_ge in E. exists m. unfold ret.
    split; [reflexivity | ]. split; [apply kept_refl | ].
    split; [reflexivity | ]. split; [reflexivity | lia].
Qed.

Lemma check_slouch_slouched m q :
  quiet m -> q < threshold m ->
  exists m',
    check_slouch q m = Done tt m' /\ kept m m' /\
    slouch_timer m' = (slouch_timer m + 1)%nat /\
    alerts m' = alerts m /\
    (slouch_timer m + 1 <= 15 -> m' = set_slouch_timer (slouch_timer m + 1) m)%nat /\
    (15 < slouch_timer m + 1 -> current_status m' = SLOUCHING)%nat.
Proof.
  intros Q Hq. unfold check_slouch.
  destruct (Rlt_dec q (baseline_ratio m * SENSITIVITY m)) as [_ | Hn];
    [ | now elim Hn].
  unfold bind, modify, get. cbn [slouch_timer set_slouch_timer].
  destruct (15 <? slouch_timer m + 1)%nat eqn:E.
  - apply Nat.ltb_lt in E.
    rewrite update_status_quiet
      by (eapply steady_quiet; [apply kept_set_slouch_timer | exact Q]).
    eexists. split; [reflexivity | ].
    split; [ | split; [ | split; [ | split]]].
    + eapply kept_trans; [apply kept_set_slouch_timer | apply kept_published].
    + now destruct (published_calibration SLOUCHING
                      (set_slouch_timer (slouch_timer m + 1) m)) as (_ & _ & _ & _ & ->).
    + now rewrite published_alerts.
    + lia.
    + intros _. apply published_status.
  - apply Nat.ltb_ge in E. eexists. split; [reflexivity | ].
    split; [apply kept_set_slouch_timer | ].
    split; [reflexivity | ]. split; [reflexivity | ].
    split; [reflexivity | lia].
Qed.

Lemma kept_quiet m m' : kept m m' -> quiet m -> quiet m'.
Proof. intros (S & _). now apply steady_quiet. Qed.

Lemma kept_threshold m m' : kept m m' -> threshold m' = threshold m.
Proof.
  intros ((_ & _ & _ & Hs & _) & _ & _ & _ & Hb). unfold threshold.
  now rewrite Hs, Hb.
Qed.

Lemma kept_trigger m m' : kept m m' -> trigger_frames m' = trigger_frames m.
Proof. intros (S & _). now apply steady_trigger. Qed.

Lemma kept_warning_calls m m' k :
  kept m m' -> warning_calls m' k = warning_calls m k.
Proof. intros ((Hw & _) & _). unfold warning_calls. now rewrite Hw. Qed.

Lemma kept_slouched m m' f : kept m m' -> slouched m f -> slouched m' f.
Proof.
  intros K (q & Hf & Hq). exists q. now rewrite (kept_threshold _ _ K).
Qed.

Lemma check_slouch_upright m q :
  quiet m -> threshold m <= q ->
  check_slouch q m = Done tt (published GoodPosture (set_slouch_timer 0 m)).
Proof.
  intros Q Hq. unfold check_slouch.
  destruct (Rlt_dec q (baseline_ratio m * SENSITIVITY m)) as [Hn | _].
  - unfold threshold in Hq. lra.
  - unfold bind, modify. apply update_status_quiet.
    eapply kept_quiet; [apply kept_set_slouch_timer | exact Q].
Qed.

Lemma monitoring_upright m q :
  quiet m -> threshold m <= q ->
  monitoring_phase q m = Done tt (published GoodPosture (set_slouch_timer 0 m)).
Proof.
  intros Q Hq. unfold monitoring_phase.
  rewrite (bind_done _ _ _ _ _ (check_slouch_upright m q Q Hq)).
  unfold trigger_warning, bind, get.
  destruct (published_calibration GoodPosture (set_slouch_timer 0 m))
    as (_ & _ & _ & _ & ->).
  fields. now rewrite Nat.ltb_irrefl || reflexivity.
Qed.

Lemma monitoring_slouched m q :
  quiet m -> q < threshold m ->
  exists m',
    monitoring_phase q m = Done tt m' /\ kept m m' /\
    (slouch_timer m + 1 <= trigger_frames m ->
       slouch_timer m' = slouch_timer m + 1 /\ alerts m' = alerts m)%nat /\
    (trigger_frames m < slouch_timer m + 1 ->
       slouch_timer m' = 0 /\
       alerts m' = alerts m + warning_calls m 1)%nat /\
    (slouch_timer m + 1 <= 15 ->
       current_status m' = current_status m /\
       (slouch_timer m + 1 <= trigger_frames m -> log m' = log m))%nat /\
    (15 < slouch_timer m + 1 -> current_status m' = SLOUCHING)%nat.
Proof.
  intros Q Hq. unfold monitoring_phase.
  destruct (check_slouch_slouched m q Q Hq)
    as (m1 & E1 & K1 & T1 & A1 & Lo & Hi).
  rewrite (bind_done _ _ _ _ _ E1).
  destruct (trigger_warning_quiet m1 (kept_quiet _ _ K1 Q))
    as (m2 & E2 & K2 & S2 & Below & Above).
  exists m2. split; [exact E2 | ]. split; [eapply kept_trans; eauto | ].
  rewrite (kept_trigger _ _ K1), T1 in Below, Above.
  split; [ | split; [ | split]].
  - intros H. rewrite (Below H). lia.
  - intros H. destruct (Above H) as (-> & ->). split; [reflexivity | ].
    rewrite A1. unfold warning_calls.
    destruct K1 as ((-> & _) & _). destruct (warning_callback m); lia.
  - intros H. rewrite S2. rewrite (Lo H). fields. split; [reflexivity | ].
    intros H'. rewrite (Below H'). rewrite (Lo H). reflexivity.
  - intros H. rewrite S2. now apply Hi.
Qed.

Lemma while_loop_ratio f q rest cf m :
  frame_ratio f = Some q ->
  while_loop (f :: rest) cf m = (on_ratio q ;;; while_loop rest 0) m.
Proof.
  destruct f as [ | h w [lm | ]]; cbn [frame_ratio]; try discriminate.
  intros H. cbn [while_loop]. unfold on_frame. now rewrite H.
Qed.

Lemma on_ratio_calibrated q m :
  is_calibrated m = true -> on_ratio q m = monitoring_phase q m.
Proof. intros H. unfold on_ratio, bind, get. now rewrite H. Qed.

Lemma on_ratio_calibrating q m :
  is_calibrated m = false -> on_ratio q m = calibration_phase q m.
Proof. intros H. unfold on_ratio, bind, get. now rewrite H. Qed.

Lemma kept_calibrated m m' :
  kept m m' -> is_calibrated m = true -> is_calibrated m' = true.
Proof. intros (_ & _ & _ & H & _). congruence. Qed.

(** A run of sub-threshold frames in the monitoring phase. *)
Lemma slouched_run frames :
  forall m cf,
    quiet m -> is_calibrated m = true ->
    Forall (slouched m) frames ->
    (slouch_timer m <= trigger_frames m)%nat ->
    exists m',
      while_loop frames cf m = Done tt m' /\ kept m m' /\
      slouch_timer m' =
        ((slouch_timer m + length frames) mod (trigger_frames m + 1))%nat /\
      alerts m' =
        (alerts m
         + warning_calls m ((slouch_timer m + length frames)
                            / (trigger_frames m + 1)))%nat /\
      ((slouch_timer m + length frames <= 15)%nat ->
       (slouch_timer m + length frames <= trigger_frames m)%nat ->
       current_status m' = current_status m /\ log m' = log m) /\
      ((15 <= trigger_frames m)%nat -> frames <> [] ->
       (15 < slouch_timer m + length frames)%nat ->
       current_status m' = SLOUCHING).
Proof.
  induction frames as [ | f frames IH]; intros m cf Q C Hall Hc.
  - exists m. cbn [while_loop length]. rewrite Nat.add_0_r.
    split; [reflexivity | ]. split; [apply kept_refl | ].
    rewrite Nat.mod_small, Nat.div_small by lia.
    unfold warning_calls. split; [reflexivity | ].
    split; [destruct (warning_callback m); lia | ].
    split; [tauto | congruence].
  - inversion Hall as [ | f' fs' (q & Hf & Hq) Hrest]; subst.
    rewrite (while_loop_ratio _ _ _ _ _ Hf).
    destruct (monitoring_slouched m q Q Hq)
      as (m1 & E1 & K1 & Below & Above & Lo & Hi).
    rewrite <- (on_ratio_calibrated q m C) in E1.
    rewrite (bind_done _ _ _ _ _ E1).
    assert (Hall1 : Forall (slouched m1) frames).
    { eapply Forall_impl; [ | exact Hrest]. intros a. now apply kept_slouched. }
    assert (Hc1 : (slouch_timer m1 <= trigger_frames m1)%nat).
    { rewrite (kept_trigger _ _ K1).
      destruct (Nat.le_gt_cases (slouch_timer m + 1) (trigger_frames m)) as [H | H].
      - destruct (Below H) as (-> & _). exact H.
      - destruct (Above H) as (-> & _). lia. }
    destruct (IH m1 0%nat (kept_quiet _ _ K1 Q) (kept_calibrated _ _ K1 C)
                Hall1 Hc1)
      as (m' & E' & K' & T' & A' & Lo' & Hi').
    exists m'. split; [exact E' | ]. split; [eapply kept_trans; eauto | ].
    rewrite (kept_trigger _ _ K1) in T', A', Lo', Hi'.
    rewrite (kept_warning_calls _ _ _ K1) in A'.
    cbn [length].
    destruct (Nat.le_gt_cases (slouch_timer m + 1) (trigger_frames m)) as [H | H].
    + destruct (Below H) as (T1 & A1). rewrite T1 in T', A', Lo', Hi'.
      rewrite A1 in A'.
      replace (slouch_timer m + S (length frames))%nat
        with (slouch_timer m + 1 + length frames)%nat by lia.
      split; [exact T' | ]. split; [exact A' | ]. split.
      * intros H15 HT. destruct (Lo' H15 HT) as (-> & ->).
        assert (H15' : (slouch_timer m + 1 <= 15)%nat) by lia.
        destruct (Lo H15') as (S1 & L1). split; [exact S1 | exact (L1 H)].
      * intros HT _ H15. destruct frames as [ | f2 frames].
        -- cbn [length] in *. cbn [while_loop] in E'. inversion E'; subst m'.
           apply Hi. lia.
        -- apply Hi'; [exact HT | discriminate | exact H15].
    + destruct (Above H) as (T1 & A1). rewrite T1 in T', A', Lo', Hi'.
      rewrite A1 in A'.
      assert (Heq : slouch_timer m = trigger_frames m) by lia.
      replace (slouch_timer m + S (length frames))%nat
        with (length frames + 1 * (trigger_frames m + 1))%nat by lia.
      rewrite Nat.Div0.mod_add, Nat.div_add by lia.
      cbn [Nat.add] in T', A', Lo', Hi'.
      split; [exact T' | ]. split.
      * rewrite A'. unfold warning_calls. destruct (warning_callback m); lia.
      * split; [intros; lia | ].
        intros HT _ _.
        assert (S1 : current_status m1 = SLOUCHING) by (apply Hi; lia).
        destruct (Nat.le_gt_cases (length frames) 15) as [Hs | Hs].
        -- assert (HsT : (length frames <= trigger_frames m)%nat) by lia.
           destruct (Lo' Hs HsT) as (S' & _). now rewrite S'.
        -- apply Hi'; [exact HT | | exact Hs].
           destruct frames; [cbn in Hs; lia | discriminate].
Qed.

End MonitoringPhase.

(** ** The calibration phase *)

Section CalibrationPhase.

Lemma calibration_step m q :
  quiet m ->
  (calibration_frames m + 1 < calibration_limit m)%nat ->
  exists m',
    calibration_phase q m = Done tt m' /\ steady m m' /\
    calibration_frames m' = (calibration_frames m + 1)%nat /\
    avg_ratio m' = avg_ratio m + q /\
    is_calibrated m' = is_calibrated m /\
    baseline_ratio m' = baseline_ratio m /\
    slouch_timer m' = slouch_timer m /\
    alerts m' = alerts m.
Proof.
  intros Q Hlt. unfold calibration_phase. fields.
  destruct (calibration_limit m =? 0)%nat eqn:E0;
    [apply Nat.eqb_eq in E0; lia | ].
  set (m1 := set_avg_ratio _ _).
  assert (S1 : steady m m1) by (unfold steady; subst m1; fields; tauto).
  rewrite (bind_done _ _ _ _ _ (update_status_quiet _ m1 (steady_quiet _ _ S1 Q))).
  unfold bind, get.
  set (m2 := published _ m1).
  destruct (published_calibration (Calibrating (py_int (INR (calibration_frames m + 1) / INR (calibration_limit m) * 100))) m1)
    as (Hcf & Hav & Hic & Hb & Ht).
  fold m2 in Hcf, Hav, Hic, Hb, Ht.
  assert (S2 : steady m m2)
    by (eapply steady_trans; [exact S1 | apply published_steady]).
  destruct S2 as (Hw & Hs & Hl & Hrest).
  rewrite Hl, Hcf. subst m1. fields.
  destruct (calibration_limit m <=? calibration_frames m + 1)%nat eqn:E1;
    [apply Nat.leb_le in E1; lia | ].
  exists m2. unfold ret. split; [reflexivity | ].
  split; [unfold steady; tauto | ].
  unfold m2 at 6. rewrite published_alerts. tauto.
Qed.

Lemma calibration_last_step m q :
  quiet m ->
  (calibration_limit m <= calibration_frames m + 1)%nat ->
  calibration_limit m <> 0%nat ->
  exists m',
    calibration_phase q m = Done tt m' /\ steady m m' /\
    calibration_frames m' = (calibration_frames m + 1)%nat /\
    avg_ratio m' = avg_ratio m + q /\
    is_calibrated m' = true /\
    baseline_ratio m' = (avg_ratio m + q) / INR (calibration_limit m) /\
    slouch_timer m' = slouch_timer m /\
    alerts m' = alerts m /\
    current_status m' = Monitoring.
Proof.
  intros Q Hle Hnz. unfold calibration_phase. fields.
  destruct (calibration_limit m =? 0)%nat eqn:E0;
    [apply Nat.eqb_eq in E0; lia | ].
  set (m1 := set_avg_ratio _ _).
  assert (S1 : steady m m1) by (unfold steady; subst m1; fields; tauto).
  rewrite (bind_done _ _ _ _ _ (update_status_quiet _ m1 (steady_quiet _ _ S1 Q))).
  unfold bind, get.
  set (m2 := published _ m1).
  destruct (published_calibration (Calibrating (py_int (INR (calibration_frames m + 1) / INR (calibration_limit m) * 100))) m1)
    as (Hcf & Hav & Hic & Hb & Ht).
  fold m2 in Hcf, Hav, Hic, Hb, Ht.
  assert (S2 : steady m m2)
    by (eapply steady_trans; [exact S1 | apply published_steady]).
  assert (A2 : alerts m2 = alerts m) by (unfold m2; now rewrite published_alerts).
  pose proof S2 as (Hw & Hs & Hl & Hrest).
  rewrite Hl, Hcf. subst m1. fields.
  destruct (calibration_limit m <=? calibration_frames m + 1)%nat eqn:E1;
    [ | apply Nat.leb_gt in E1; lia].
  unfold modify.
  set (m3 := set_is_calibrated true _).
  assert (S3 : steady m m3) by (unfold steady in *; subst m3; fields; tauto).
  rewrite (update_status_quiet _ m3 (steady_quiet _ _ S3 Q)).
  eexists. split; [reflexivity | ].
  split; [eapply steady_trans; [exact S3 | apply published_steady] | ].
  destruct (published_calibration Monitoring m3) as (-> & -> & -> & -> & ->).
  rewrite published_alerts, published_status.
  subst m3. unfold alerts in *. fields. rewrite Hl, Hav.
  tauto.
Qed.

(** Frames read while the calibration stays short of the limit. *)
Lemma calibration_run frames :
  forall m qs cf,
    quiet m -> is_calibrated m = false ->
    ratios_of frames qs ->
    (calibration_frames m + length frames < calibration_limit m)%nat ->
    exists m',
      while_loop frames cf m = Done tt m' /\ steady m m' /\
      calibration_frames m' = (calibration_frames m + length frames)%nat /\
      avg_ratio m' = avg_ratio m + Rsum qs /\
      is_calibrated m' = false /\
      baseline_ratio m' = baseline_ratio m /\
      slouch_timer m' = slouch_timer m /\
      alerts m' = alerts m.
Proof.
  induction frames as [ | f frames IH]; intros m qs cf Q C Hr Hlt.
  - inversion Hr; subst. exists m. cbn [while_loop length Rsum fold_right].
    split; [reflexivity | ]. split; [apply steady_refl | ].
    repeat split; try lia; try lra; assumption.
  - inversion Hr as [ | f' q fs' qs' Hf Hrest]; subst.
    cbn [length] in Hlt.
    rewrite (while_loop_ratio _ _ _ _ _ Hf).
    destruct (calibration_step m q Q) as (m1 & E1 & S1 & F1 & A1 & C1 & B1 & T1 & W1);
      [lia | ].
    rewrite <- (on_ratio_calibrating q m C) in E1.
    rewrite (bind_done _ _ _ _ _ E1).
    pose proof S1 as (_ & _ & Hl & _).
    destruct (IH m1 qs' 0%nat (steady_quiet _ _ S1 Q)) as
      (m' & E' & S' & F' & A' & C' & B' & T' & W');
      [congruence | exact Hrest | rewrite Hl, F1; lia | ].
    exists m'. split; [exact E' | ].
    split; [eapply steady_trans; eauto | ].
    cbn [length Rsum fold_right]. fold (Rsum qs').
    rewrite F', F1, A', A1, B', B1, T', T1, W', W1.
    repeat split; try lia; try lra; assumption.
Qed.

(** The frames up to and including the one that reaches the limit. *)
Lemma calibration_completes frames :
  forall m qs cf,
    quiet m -> is_calibrated m = false ->
    ratios_of frames qs ->
    frames <> [] ->
    (calibration_frames m + length frames = calibration_limit m)%nat ->
    exists m',
      while_loop frames cf m = Done tt m' /\ steady m m' /\
      is_calibrated m' = true /\
      baseline_ratio m' = (avg_ratio m + Rsum qs) / INR (calibration_limit m) /\
      slouch_timer m' = slouch_timer m /\
      alerts m' = alerts m /\
      current_status m' = Monitoring.
Proof.
  induction frames as [ | f frames IH]; intros m qs cf Q C Hr Hne Hlen;
    [congruence | ].
  inversion Hr as [ | f' q fs' qs' Hf Hrest]; subst.
  cbn [length] in Hlen.
  rewrite (while_loop_ratio _ _ _ _ _ Hf).
  destruct frames as [ | f2 frames].
  - inversion Hrest; subst. cbn [length] in Hlen.
    destruct (calibration_last_step m q Q)
      as (m1 & E1 & S1 & F1 & A1 & C1 & B1 & T1 & W1 & St1); [lia | lia | ].
    rewrite <- (on_ratio_calibrating q m C) in E1.
    rewrite (bind_done _ _ _ _ _ E1).
    exists m1. cbn [while_loop Rsum fold_right]. unfold ret.
    rewrite Rplus_0_r. tauto.
  - destruct (calibration_step m q Q)
      as (m1 & E1 & S1 & F1 & A1 & C1 & B1 & T1 & W1);
      [cbn [length] in Hlen; lia | ].
    rewrite <- (on_ratio_calibrating q m C) in E1.
    rewrite (bind_done _ _ _ _ _ E1).
    pose proof S1 as (_ & _ & Hl & _).
    destruct (IH m1 qs' 0%nat (steady_quiet _ _ S1 Q)) as
      (m' & E' & S' & C' & B' & T' & W' & St');
      [congruence | exact Hrest | discriminate | rewrite Hl, F1; lia | ].
    exists m'. split; [exact E' | ].
    split; [eapply steady_trans; eauto | ].
    cbn [Rsum fold_right]. fold (Rsum qs').
    rewrite B', Hl, A1, T', T1, W', W1.
    repeat split; try assumption. f_equal. lra.
Qed.

End CalibrationPhase.

(** ** The acquisition loop *)

Section AcquisitionLoop.

(** Any computed ratio, in any phase, with callbacks that return. *)
Lemma on_ratio_quiet q m :
  quiet m -> calibration_limit m <> 0%nat ->
  exists m',
    on_ratio q m = Done tt m' /\ steady m m' /\
    (slouch_timer m' <= slouch_timer m + 1)%nat /\
    ((slouch_timer m + 1 <= trigger_frames m)%nat -> alerts m' = alerts m) /\
    (alerts m' <> alerts m -> slouch_timer m' = 0%nat).
Proof.
  intros Q Hnz. destruct (is_calibrated m) eqn:C.
  - rewrite (on_ratio_calibrated q m C).
    destruct (Rlt_le_dec q (threshold m)) as [Hq | Hq].
    + destruct (monitoring_slouched m q Q Hq)
        as (m' & E & K & Below & Above & _).
      exists m'. split; [exact E | ]. split; [apply K | ].
      destruct (Nat.le_gt_cases (slouch_timer m + 1) (trigger_frames m)) as [H | H].
      * destruct (Below H) as (-> & ->). repeat split; try lia; try congruence.
      * destruct (Above H) as (-> & ->). repeat split; lia.
    + rewrite (monitoring_upright m q Q Hq). eexists. split; [reflexivity | ].
      split; [eapply steady_trans; [ | apply published_steady];
              apply kept_set_slouch_timer | ].
      rewrite published_alerts.
      destruct (published_calibration GoodPosture (set_slouch_timer 0 m))
        as (_ & _ & _ & _ & ->).
      unfold alerts. fields. repeat split; try lia; try congruence.
  - rewrite (on_ratio_calibrating q m C).
    destruct (Nat.le_gt_cases (calibration_limit m) (calibration_frames m + 1))
      as [H | H].
    + destruct (calibration_last_step m q Q H Hnz)
        as (m' & E & S & _ & _ & _ & _ & T' & A' & _).
      exists m'. repeat split; try assumption; try apply S; try lia; try congruence.
    + destruct (calibration_step m q Q H)
        as (m' & E & S & _ & _ & _ & _ & T' & A').
      exists m'. repeat split; try assumption; try apply S; try lia; try congruence.
Qed.

Lemma on_frame_quiet h w lms m :
  quiet m -> calibration_limit m <> 0%nat ->
  exists m',
    on_frame h w lms m = Done tt m' /\ steady m m' /\
    (slouch_timer m' <= slouch_timer m + 1)%nat /\
    ((slouch_timer m + 1 <= trigger_frames m)%nat -> alerts m' = alerts m) /\
    (alerts m' <> alerts m -> slouch_timer m' = 0%nat).
Proof.
  intros Q Hnz. unfold on_frame.
  destruct lms as [lm | ].
  - destruct (compute_ratio _ _ _) as [q | ].
    + now apply on_ratio_quiet.
    + exists m. unfold ret. repeat split; try apply steady_refl; try lia; try congruence.
  - exists m. unfold ret. repeat split; try apply steady_refl; try lia; try congruence.
Qed.

(** With callbacks that return, the loop reads on to the end of the frames
    or to the read-failure bound. *)
Lemma while_loop_quiet frames :
  forall m cf,
    quiet m -> calibration_limit m <> 0%nat ->
    exists m',
      while_loop frames cf m = Done tt m' /\ steady m m' /\
      (slouch_timer m' <= slouch_timer m + length frames)%nat /\
      ((slouch_timer m + length frames <= trigger_frames m)%nat ->
       alerts m' = alerts m).
Proof.
  induction frames as [ | f frames IH]; intros m cf Q Hnz.
  - exists m. cbn [while_loop length]. unfold ret.
    repeat split; try apply steady_refl; lia.
  - destruct f as [ | h w lms]; cbn [while_loop length].
    + destruct (max_consecutive_failures <=? cf + 1)%nat.
      * rewrite (update_status_quiet _ _ Q). eexists. split; [reflexivity | ].
        split; [apply published_steady | ].
        rewrite published_alerts.
        destruct (published_calibration ErrorCameraReadFailed m)
          as (_ & _ & _ & _ & ->).
        split; [lia | reflexivity].
      * destruct (IH m (cf + 1)%nat Q Hnz) as (m' & E & S & T & A).
        exists m'. split; [exact E | ]. split; [exact S | ].
        split; [lia | ]. intros H. apply A. lia.
    + destruct (on_frame_quiet h w lms m Q Hnz) as (m1 & E1 & S1 & T1 & A1 & _).
      rewrite (bind_done _ _ _ _ _ E1).
      pose proof S1 as (_ & _ & Hl & _).
      destruct (IH m1 0%nat (steady_quiet _ _ S1 Q)) as (m' & E & S & T & A);
        [congruence | ].
      exists m'. split; [exact E | ].
      split; [eapply steady_trans; eauto | ].
      split; [lia | ].
      intros H. rewrite (steady_trigger _ _ S1) in A.
      rewrite A by lia. apply A1. lia.
Qed.

(** Once an exception has left the loop, later frames are not read. *)
Lemma while_loop_raised frames :
  forall rest cf m m',
    while_loop frames cf m = Raised m' ->
    while_loop (frames ++ rest) cf m = Raised m'.
Proof.
  induction frames as [ | f frames IH]; intros rest cf m m' H.
  - cbn [while_loop] in H. discriminate.
  - destruct f as [ | h w lms]; cbn [while_loop app] in *.
    + destruct (max_consecutive_failures <=? cf + 1)%nat; [exact H | ].
      now apply IH.
    + unfold bind in *. destruct (on_frame h w lms m) as [[] m1 | m1].
      * now apply IH.
      * exact H.
Qed.

Lemma while_loop_app a :
  forall b m,
    Forall (fun f => f <> ReadFailure) a ->
    while_loop (a ++ b) 0 m = (while_loop a 0 ;;; while_loop b 0) m.
Proof.
  induction a as [ | f a IH]; intros b m Ha.
  - reflexivity.
  - inversion Ha as [ | f' a' Hf Hrest]; subst.
    destruct f as [ | h w lms]; [congruence | ].
    cbn [while_loop app]. unfold bind.
    destruct (on_frame h w lms m) as [[] m1 | m1]; [ | reflexivity].
    rewrite (IH b m1 Hrest). reflexivity.
Qed.

Lemma Forall_prefix {A : Type} (P : A -> Prop) (k : nat) :
  forall l, Forall P l -> Forall P (firstn k l).
Proof.
  induction k as [ | k IH]; intros l H; cbn [firstn]; [constructor | ].
  destruct H as [ | a l Ha Hl]; constructor; [exact Ha | now apply IH].
Qed.

(** A frame that is not below the threshold fires no alert. *)
Lemma unslouched_frame_no_alert m f cf :
  quiet m -> is_calibrated m = true -> ~ slouched m f ->
  exists m1, while_loop [f] cf m = Done tt m1 /\ alerts m1 = alerts m.
Proof.
  intros Q C Hn. destruct (frame_ratio f) as [q | ] eqn:Hf.
  - rewrite (while_loop_ratio _ _ _ _ _ Hf).
    destruct (Rlt_le_dec q (threshold m)) as [Hq | Hq];
      [elim Hn; now exists q | ].
    pose proof (monitoring_upright m q Q Hq) as E.
    rewrite <- (on_ratio_calibrated q m C) in E.
    rewrite (bind_done _ _ _ _ _ E). eexists. split; [reflexivity | ].
    now rewrite published_alerts.
  - destruct f as [ | h w [lm | ]]; cbn [while_loop frame_ratio] in *.
    + destruct (max_consecutive_failures <=? cf + 1)%nat.
      * rewrite (update_status_quiet _ _ Q). eexists.
        split; [reflexivity | apply published_alerts].
      * now exists m.
    + unfold on_frame. rewrite Hf. now exists m.
    + now exists m.
Qed.

End AcquisitionLoop.

(** ** Sessions and concrete inputs *)

Section Sessions.

Lemma INR_640 : INR 640 = 640.
Proof. rewrite INR_IZR_INZ. reflexivity. Qed.

Lemma INR_480 : INR 480 = 480.
Proof. rewrite INR_IZR_INZ. reflexivity. Qed.

Lemma frame_with_ratio_ok q :
  0 <= q -> frame_ratio (frame_with_ratio q) = Some q.
Proof.
  intros Hq. unfold frame_with_ratio, frame_ratio, pose_with_ratio, to_pixels.
  cbn [lm_x lm_y]. rewrite INR_640, INR_480.
  replace (4 / 10 * 640) with 256 by field.
  replace (6 / 10 * 640) with 384 by field.
  replace (8 / 10 * 480) with 384 by field.
  assert (Hd : euclidean_distance (256, 384) (384, 384) = 128)
    by (rewrite distance_level; lra).
  rewrite compute_ratio_some by (rewrite Hd; lra).
  rewrite Hd. cbn [fst snd]. f_equal.
  replace ((384 + 384) / 2 - (8 / 10 - 4 * q / 15) * 480) with (128 * q)
    by field.
  rewrite Rabs_pos_eq by lra. field.
Qed.

Lemma ratios_of_repeat q n :
  0 <= q -> ratios_of (repeat (frame_with_ratio q) n) (repeat q n).
Proof.
  intros Hq. induction n as [ | n IH]; cbn [repeat]; constructor.
  - now apply frame_with_ratio_ok.
  - exact IH.
Qed.

Lemma Rsum_repeat q n : Rsum (repeat q n) = INR n * q.
Proof.
  induction n as [ | n IH]; cbn [repeat Rsum fold_right].
  - cbn [INR]. ring.
  - fold (Rsum (repeat q n)). rewrite IH, S_INR. ring.
Qed.

Lemma slouched_repeat m q n :
  0 <= q -> q < threshold m ->
  Forall (slouched m) (repeat (frame_with_ratio q) n).
Proof.
  intros H0 Hq. apply Forall_forall. intros f Hf.
  apply repeat_spec in Hf. subst f. exists q.
  split; [now apply frame_with_ratio_ok | exact Hq].
Qed.

Lemma images_repeat q n :
  Forall (fun f => f <> ReadFailure) (repeat (frame_with_ratio q) n).
Proof.
  apply Forall_forall. intros f Hf. apply repeat_spec in Hf. subst f.
  discriminate.
Qed.

(** *** Camera acquisition and the session frame *)

Lemma open_camera_calls camera attempts :
  forall c calls,
    (snd (open_camera camera attempts c calls) <= calls + length attempts)%nat.
Proof.
  induction attempts as [ | a attempts IH]; intros c calls;
    cbn [open_camera length snd].
  - lia.
  - destruct (isOpened (camera a)); [destruct (test_read (camera a)) | ].
    + cbn [snd]. lia.
    + specialize (IH (Some (camera a)) (S calls)). lia.
    + specialize (IH None (S calls)). lia.
Qed.

(** The retry budget: never more than three [cv2.VideoCapture(0)] calls. *)
Lemma open_camera_budget camera :
  (snd (open_camera camera (seq 0 3) None 0) <= 3)%nat.
Proof. exact (open_camera_calls camera (seq 0 3) None 0%nat). Qed.

(** What [begin_session] has done when the loop is entered. *)
Lemma begin_session_entered camera m0 m :
  begin_session camera m0 = Done true m ->
  steady m0 m /\
  cap_unusable (cap m) = false /\
  calibration_frames m = 0%nat /\
  avg_ratio m = 0 /\
  is_calibrated m = false /\
  baseline_ratio m = baseline_ratio m0 /\
  slouch_timer m = slouch_timer m0 /\
  running m = true.
Proof.
  unfold begin_session, session_setup, bind, modify, get. fields.
  destruct (cap_unusable _) eqn:Ec.
  - destruct (_update_status _ _); discriminate.
  - unfold _update_status. fields.
    destruct (status_callback m0) as [cb | ] eqn:Es.
    + destruct (cb _ _); [ | discriminate].
      unfold ret. intros H. inversion H; subst m. fields.
      unfold steady. fields. rewrite Es. tauto.
    + unfold ret. intros H. inversion H; subst m. fields.
      unfold steady. fields. rewrite Es. tauto.
Qed.

Lemma begin_session_ready m0 :
  quiet m0 ->
  exists m, begin_session camera_ready m0 = Done true m /\
            alerts m = alerts m0.
Proof.
  intros Q. unfold begin_session, session_setup, bind, modify, get. fields.
  cbn [seq open_camera camera_ready isOpened test_read fst cap_unusable negb].
  rewrite update_status_quiet
    by (eapply steady_quiet; [ | exact Q]; unfold steady; fields; tauto).
  eexists. split; [reflexivity | ].
  unfold alerts. fields. exact (published_alerts _ _).
Qed.

(** A session whose camera opens and whose loop returns. *)
Lemma session_returns camera frames m0 m1 m2 :
  quiet m0 -> calibration_limit m0 <> 0%nat -> running m0 = false ->
  begin_session camera m0 = Done true m1 ->
  while_loop frames 0 m1 = Done tt m2 ->
  exists m3,
    session camera frames m0 = Done tt m3 /\ kept m2 m3 /\
    slouch_timer m3 = slouch_timer m2 /\
    alerts m3 = alerts m2 /\
    running m3 = false /\
    cap m3 = None /\
    current_status m3 = Stopped.
Proof.
  intros Q Hnz R0 E1 E2.
  pose proof (begin_session_entered _ _ _ E1) as (S1 & _).
  assert (Q1 : quiet m1) by (eapply steady_quiet; eauto).
  assert (Q2 : quiet m2).
  { destruct (while_loop_quiet frames m1 0%nat Q1) as (m2' & E2' & S2 & _).
    - destruct S1 as (_ & _ & -> & _). exact Hnz.
    - rewrite E2 in E2'. inversion E2'; subst m2'.
      eapply steady_quiet; eauto. }
  unfold session, start. unfold bind at 1. unfold bind at 1. unfold get at 1.
  rewrite R0. unfold bind at 1. unfold modify at 1.
  unfold thread_run, _monitor_loop.
  unfold begin_session in E1. unfold bind at 1 in E1. unfold modify at 1 in E1.
  rewrite (bind_done _ _ _ _ _ E1).
  rewrite (bind_done _ _ _ _ _ E2).
  unfold cleanup, stop, bind, modify.
  set (ma := set_running false (set_cap None m2)).
  assert (Ka : kept m2 ma) by (unfold kept, steady; subst ma; fields; tauto).
  rewrite (update_status_quiet Stopped ma (kept_quiet _ _ Ka Q2)).
  cbn [final].
  set (mb := set_cap None (set_running false (published Stopped ma))).
  assert (Kb : kept ma (published Stopped ma)) by apply kept_published.
  assert (Kc : kept (published Stopped ma) mb)
    by (unfold kept, steady; subst mb; fields; tauto).
  assert (Qb : quiet mb) by eauto using kept_quiet.
  rewrite (update_status_quiet Stopped mb Qb).
  eexists. split; [reflexivity | ].
  assert (Kd : kept mb (published Stopped mb)) by apply kept_published.
  split; [eauto using kept_trans | ].
  destruct (published_calibration Stopped mb) as (_ & _ & _ & _ & ->).
  rewrite published_alerts, published_status.
  assert (Hrun : running (published Stopped mb) = false /\
                 cap (published Stopped mb) = None).
  { unfold published. destruct (status_callback mb); subst mb; fields; tauto. }
  subst mb. unfold alerts. fields.
  fold (alerts (published Stopped ma)). rewrite published_alerts.
  destruct (published_calibration Stopped ma) as (_ & _ & _ & _ & ->).
  subst ma. unfold alerts. fields. tauto.
Qed.

Lemma session_setup_quiet camera m :
  quiet m ->
  exists b m', session_setup camera m = Done b m' /\ steady m m'.
Proof.
  intros Q. unfold session_setup, bind, modify, get. fields.
  set (ma := set_cap _ (set_cap None m)).
  assert (Sa : steady m ma) by (unfold steady; subst ma; fields; tauto).
  destruct (cap_unusable _);
    rewrite (update_status_quiet _ ma (steady_quiet _ _ Sa Q));
    eexists; eexists; (split; [reflexivity | ]).
  - eapply steady_trans; [exact Sa | ].
    eapply steady_trans; [apply published_steady | ].
    unfold steady; fields; tauto.
  - eapply steady_trans; [exact Sa | ].
    eapply steady_trans; [apply published_steady | ].
    unfold steady; fields; tauto.
Qed.

Lemma camera_denied camera m :
  quiet m ->
  (forall attempt, isOpened (camera attempt) = false) ->
  exists m', _monitor_loop camera [] m = Done tt m' /\
             current_status m' = ErrorCameraAccessDenied /\
             running m' = false.
Proof.
  intros Q Hno. unfold _monitor_loop, session_setup, bind, modify, get.
  cbn [seq open_camera]. rewrite !Hno. fields. cbn [fst cap_unusable].
  rewrite update_status_quiet
    by (eapply steady_quiet; [ | exact Q]; unfold steady; fields; tauto).
  eexists. split; [reflexivity | ]. fields.
  split; [apply published_status | reflexivity].
Qed.

Lemma quiet_ui_monitor : quiet ui_monitor.
Proof.
  split; cbn; intros cb H; inversion H; reflexivity.
Qed.

Lemma quiet_calibrated_monitor : quiet calibrated_monitor.
Proof.
  split; cbn; intros cb H; inversion H; reflexivity.
Qed.

Lemma threshold_calibrated_monitor : threshold calibrated_monitor = 85 / 100.
Proof. unfold threshold. cbn. lra. Qed.

Lemma slouched_half n :
  Forall (slouched calibrated_monitor) (repeat (frame_with_ratio (1 / 2)) n).
Proof.
  apply slouched_repeat; [lra | rewrite threshold_calibrated_monitor; lra].
Qed.

(** A whole session in front of a working camera: a calibration on frames
    of ratio [good], then [n] frames of a lower ratio [bad]. *)
Lemma session_calibrate_then_slouch m0 good bad n :
  quiet m0 -> calibration_limit m0 <> 0%nat -> running m0 = false ->
  0 <= good -> 0 <= bad -> bad < good * SENSITIVITY m0 ->
  (slouch_timer m0 <= trigger_frames m0)%nat ->
  exists m',
    session camera_ready
      (repeat (frame_with_ratio good) (calibration_limit m0)
       ++ repeat (frame_with_ratio bad) n) m0 = Done tt m' /\
    steady m0 m' /\
    running m' = false /\
    is_calibrated m' = true /\
    baseline_ratio m' = good /\
    slouch_timer m' =
      ((slouch_timer m0 + n) mod (trigger_frames m0 + 1))%nat /\
    alerts m' =
      (alerts m0
       + warning_calls m0 ((slouch_timer m0 + n) / (trigger_frames m0 + 1)))%nat.
Proof.
  intros Q Hnz R0 Hg Hb Hlt Ht.
  destruct (begin_session_ready m0 Q) as (m1 & E1 & A1).
  pose proof (begin_session_entered _ _ _ E1)
    as (S1 & _ & F1 & V1 & C1 & _ & T1 & _).
  pose proof S1 as (_ & _ & Hl & Hs & _).
  assert (Q1 : quiet m1) by (eapply steady_quiet; eauto).
  destruct (calibration_completes
              (repeat (frame_with_ratio good) (calibration_limit m0))
              m1 (repeat good (calibration_limit m0)) 0%nat Q1 C1)
    as (m2 & E2 & S2 & C2 & B2 & T2 & A2 & _).
  { now apply ratios_of_repeat. }
  { destruct (calibration_limit m0); [congruence | discriminate]. }
  { rewrite repeat_length, F1, Hl. reflexivity. }
  assert (Hbase : baseline_ratio m2 = good).
  { rewrite B2, V1, Rsum_repeat, Hl. field.
    apply not_0_INR. exact Hnz. }
  assert (Q2 : quiet m2) by (eapply steady_quiet; eauto).
  assert (S02 : steady m0 m2) by (eapply steady_trans; eauto).
  assert (Hthr : bad < threshold m2).
  { unfold threshold. rewrite Hbase.
    destruct S02 as (_ & _ & _ & -> & _). exact Hlt. }
  destruct (slouched_run (repeat (frame_with_ratio bad) n) m2 0%nat Q2 C2)
    as (m3 & E3 & K3 & T3 & A3 & _).
  { now apply slouched_repeat. }
  { rewrite (steady_trigger _ _ S02), T2, T1. exact Ht. }
  rewrite repeat_length, (steady_trigger _ _ S02), T2, T1 in T3, A3.
  rewrite A2, A1 in A3.
  destruct (session_returns camera_ready
              (repeat (frame_with_ratio good) (calibration_limit m0)
               ++ repeat (frame_with_ratio bad) n) m0 m1 m3 Q Hnz R0 E1)
    as (m4 & E4 & K4 & T4 & A4 & R4 & _).
  { rewrite while_loop_app by apply images_repeat.
    rewrite (bind_done _ _ _ _ _ E2). exact E3. }
  exists m4. split; [exact E4 | ].
  assert (K24 : kept m2 m4) by (eapply kept_trans; eauto).
  split; [eapply steady_trans; [exact S02 | apply K24] | ].
  split; [exact R4 | ].
  destruct K24 as (S24 & _ & _ & -> & ->).
  rewrite T4, A4, T3, A3.
  unfold warning_calls. destruct S02 as (-> & _). tauto.
Qed.

End Sessions.

(** ** Properties of the slouch detector, the calibration and the session *)

(** C1 (as amended). In the monitoring phase, with a registered warning
    callback and callbacks that return, the alert fires exactly when the
    consecutive-bad-frame counter comes to exceed
    [30 * slouch_trigger_time] (default 90): a streak of consecutive
    sub-threshold ratios fires it on the frame that takes the counter to
    [trigger_frames + 1] (frame 91 of a streak that starts from 0) and on
    no earlier frame, the counter equalling the number of bad frames up to
    there; a frame that is not sub-threshold fires nothing. *)
Theorem alert_fires_past_trigger :
  forall m frames cf cb,
    quiet m -> warning_callback m = Some cb ->
    is_calibrated m = true ->
    Forall (slouched m) frames ->
    (slouch_timer m <= trigger_frames m)%nat ->
    (slouch_timer m + length frames = trigger_frames m + 1)%nat ->
    (forall k, (k < length frames)%nat ->
       exists mk, while_loop (firstn k frames) cf m = Done tt mk /\
                  alerts mk = alerts m /\
                  slouch_timer mk = (slouch_timer m + k)%nat) /\
    (exists m', while_loop frames cf m = Done tt m' /\
                alerts m' = S (alerts m) /\ slouch_timer m' = 0%nat) /\
    (forall f, ~ slouched m f ->
       exists m1, while_loop [f] cf m = Done tt m1 /\ alerts m1 = alerts m).
Proof.
  intros m frames cf cb Q W C Hall Hc Hlen. split; [ | split].
  - intros k Hk.
    assert (Hfirst : Forall (slouched m) (firstn k frames))
      by now apply Forall_prefix.
    destruct (slouched_run (firstn k frames) m cf Q C Hfirst Hc)
      as (mk & E & _ & T & A & _).
    exists mk. split; [exact E | ].
    rewrite length_firstn, Nat.min_l in T, A by lia.
    rewrite Nat.mod_small in T by lia. rewrite Nat.div_small in A by lia.
    unfold warning_calls in A. rewrite W in A. split; [lia | exact T].
  - destruct (slouched_run frames m cf Q C Hall Hc)
      as (m' & E & _ & T & A & _).
    exists m'. split; [exact E | ].
    rewrite Hlen in T, A.
    rewrite Nat.Div0.mod_same in T. rewrite Nat.div_same in A by lia.
    unfold warning_calls in A. rewrite W in A. split; [lia | exact T].
  - intros f Hf. now apply unslouched_frame_no_alert.
Qed.

Lemma alert_fires_past_trigger_witness :
  (forall k, (k < 91)%nat ->
     exists mk,
       while_loop (firstn k (repeat (frame_with_ratio (1 / 2)) 91)) 0
         calibrated_monitor = Done tt mk /\
       alerts mk = 0%nat /\ slouch_timer mk = k) /\
  (exists m',
      while_loop (repeat (frame_with_ratio (1 / 2)) 91) 0 calibrated_monitor
      = Done tt m' /\
      alerts m' = 1%nat /\ slouch_timer m' = 0%nat).
Proof.
  destruct (alert_fires_past_trigger calibrated_monitor
              (repeat (frame_with_ratio (1 / 2)) 91) 0%nat warn_ok
              quiet_calibrated_monitor eq_refl eq_refl (slouched_half 91))
    as (Hbefore & Hfire & _).
  - cbn. lia.
  - reflexivity.
  - split; [exact Hbefore | exact Hfire].
Defined.

(** Counterexample to C1 as stated: a fresh monitor calibrates on 90
    frames of ratio 1 and then reads 90 consecutive frames of ratio 1/2
    (threshold 0.85).  The counter has reached 90 and no alert has fired. *)
Lemma no_alert_when_counter_reaches_trigger :
  exists m',
    session camera_ready
      (repeat (frame_with_ratio 1) 90 ++ repeat (frame_with_ratio (1 / 2)) 90)
      ui_monitor = Done tt m' /\
    trigger_frames m' = 90%nat /\
    slouch_timer m' = 90%nat /\
    alerts m' = 0%nat.
Proof.
  destruct (session_calibrate_then_slouch ui_monitor 1 (1 / 2) 90
              quiet_ui_monitor)
    as (m' & E & S & _ & _ & _ & T & A);
    try (cbn; lra); try (cbn; lia); try reflexivity; try discriminate.
  exists m'. split; [exact E | ].
  split; [rewrite (steady_trigger _ _ S); reflexivity | ].
  split; [exact T | exact A].
Qed.

(** C2 (as amended). With callbacks that return, firing the warning
    callback resets the counter to 0, and the callback does not fire again
    before a full trigger-length run of consecutive sub-threshold ratios
    has accumulated again: (a) the frame
    on which an alert fires leaves the counter at 0; (b) from a counter
    [c], no alert fires within the next [trigger_frames - c] frames,
    whatever they show; (c) an unbroken run of [n] sub-threshold frames
    from a counter of 0 fires [n / (trigger_frames + 1)] alerts, hence at
    most one per trigger-length episode and not one per frame. *)
Theorem alert_fires_once_per_episode :
  forall m cf,
    quiet m -> calibration_limit m <> 0%nat ->
    (forall f m',
        while_loop [f] cf m = Done tt m' ->
        alerts m' <> alerts m -> slouch_timer m' = 0%nat) /\
    (forall frames,
        (slouch_timer m + length frames <= trigger_frames m)%nat ->
        exists m', while_loop frames cf m = Done tt m' /\
                   alerts m' = alerts m) /\
    (forall frames,
        is_calibrated m = true -> slouch_timer m = 0%nat ->
        Forall (slouched m) frames ->
        exists m', while_loop frames cf m = Done tt m' /\
                   alerts m' = (alerts m + warning_calls m
                                  (length frames / (trigger_frames m + 1)))%nat /\
                   slouch_timer m' =
                     (length frames mod (trigger_frames m + 1))%nat /\
                   ((alerts m' - alerts m) * trigger_frames m
                    <= length frames)%nat).
Proof.
  intros m cf Q Hnz. split; [ | split].
  - intros f m' E Ha. destruct f as [ | h w lms]; cbn [while_loop] in E.
    + destruct (max_consecutive_failures <=? cf + 1)%nat.
      * rewrite (update_status_quiet _ _ Q) in E. inversion E; subst m'.
        rewrite published_alerts in Ha. congruence.
      * inversion E; subst m'. congruence.
    + destruct (on_frame_quiet h w lms m Q Hnz) as (m1 & E1 & _ & _ & _ & Z).
      rewrite (bind_done _ _ _ _ _ E1) in E. inversion E; subst m'.
      now apply Z.
  - intros frames Hlen.
    destruct (while_loop_quiet frames m cf Q Hnz) as (m' & E & _ & _ & A).
    exists m'. split; [exact E | now apply A].
  - intros frames C T0 Hall.
    destruct (slouched_run frames m cf Q C Hall) as (m' & E & _ & T & A & _);
      [lia | ].
    rewrite T0 in T, A. cbn [Nat.add] in T, A.
    exists m'. split; [exact E | ]. split; [exact A | ]. split; [exact T | ].
    rewrite A. unfold warning_calls.
    set (d := (length frames / (trigger_frames m + 1))%nat).
    assert (Hd : (d * (trigger_frames m + 1) <= length frames)%nat).
    { subst d. rewrite Nat.mul_comm. apply Nat.Div0.mul_div_le. }
    destruct (warning_callback m); nia.
Qed.

Lemma alert_fires_once_per_episode_witness :
  exists m',
    while_loop (repeat (frame_with_ratio (1 / 2)) 200) 0 calibrated_monitor
    = Done tt m' /\
    alerts m' = 2%nat /\ slouch_timer m' = 18%nat.
Proof.
  destruct (alert_fires_once_per_episode calibrated_monitor 0%nat
              quiet_calibrated_monitor) as (_ & _ & Hrun).
  - discriminate.
  - destruct (Hrun (repeat (frame_with_ratio (1 / 2)) 200) eq_refl eq_refl
                (slouched_half 200)) as (m' & E & A & T & _).
    exists m'. split; [exact E | ]. split; [exact A | exact T].
Defined.

(** C5 (as amended). In a session started on a monitor whose callbacks
    return, [limit] valid ratios set the baseline to their arithmetic mean
    [running_sum / limit] and set [is_calibrated] on that frame (so ratios
    all equal to 1 give baseline 1); after [limit - 1] valid ratios
    [is_calibrated] is still false and [baseline_ratio] is what it was
    when the session started: 0 on a new monitor, the baseline of the
    previous session after a restart. *)
Theorem calibration_sets_mean_baseline :
  forall camera m0 m frames qs cf,
    quiet m0 -> (0 < calibration_limit m0)%nat ->
    begin_session camera m0 = Done true m ->
    ratios_of frames qs ->
    (length frames = calibration_limit m0 ->
     exists m',
       while_loop frames cf m = Done tt m' /\
       is_calibrated m' = true /\
       baseline_ratio m' = Rsum qs / INR (calibration_limit m0) /\
       (Forall (fun q => q = 1) qs -> baseline_ratio m' = 1)) /\
    (length frames = (calibration_limit m0 - 1)%nat ->
     exists m',
       while_loop frames cf m = Done tt m' /\
       is_calibrated m' = false /\
       baseline_ratio m' = baseline_ratio m0 /\
       calibration_frames m' = (calibration_limit m0 - 1)%nat /\
       avg_ratio m' = Rsum qs).
Proof.
  intros camera m0 m frames qs cf Q Hpos E Hr.
  pose proof (begin_session_entered _ _ _ E)
    as (S & _ & F & V & C & B & _).
  pose proof S as (_ & _ & Hl & _).
  assert (Qm : quiet m) by (eapply steady_quiet; eauto).
  split; intros Hlen.
  - destruct (calibration_completes frames m qs cf Qm C Hr)
      as (m' & E' & _ & C' & B' & _).
    { destruct frames; [cbn in Hlen; lia | discriminate]. }
    { rewrite F, Hl. exact Hlen. }
    rewrite V, Hl, Rplus_0_l in B'.
    exists m'. split; [exact E' | ]. split; [exact C' | ].
    split; [exact B' | ].
    intros Hone. rewrite B'.
    assert (Hsum : Rsum qs = INR (length qs)).
    { clear -Hone. induction Hone as [ | q qs Hq _ IH].
      - reflexivity.
      - cbn [Rsum fold_right length]. fold (Rsum qs).
        rewrite IH, Hq, S_INR. ring. }
    rewrite Hsum, <- (Forall2_length Hr), Hlen. field.
    apply not_0_INR. lia.
  - destruct (calibration_run frames m qs cf Qm C Hr)
      as (m' & E' & _ & F' & V' & C' & B' & _).
    { rewrite F, Hl. lia. }
    exists m'. split; [exact E' | ]. split; [exact C' | ].
    split; [congruence | ].
    split; [rewrite F', F; lia | rewrite V', V; ring].
Qed.

Lemma calibration_sets_mean_baseline_witness :
  exists m,
    begin_session camera_ready ui_monitor = Done true m /\
    (exists m',
        while_loop (repeat (frame_with_ratio 1) 90) 0 m = Done tt m' /\
        is_calibrated m' = true /\ baseline_ratio m' = 1) /\
    (exists m',
        while_loop (repeat (frame_with_ratio 1) 89) 0 m = Done tt m' /\
        is_calibrated m' = false /\ baseline_ratio m' = 0).
Proof.
  destruct (begin_session_ready ui_monitor quiet_ui_monitor) as (m & E & _).
  exists m. split; [exact E | ].
  assert (Hpos : (0 < calibration_limit ui_monitor)%nat) by (cbn; lia).
  split.
  - destruct (calibration_sets_mean_baseline camera_ready ui_monitor m
                (repeat (frame_with_ratio 1) 90) (repeat 1 90) 0%nat
                quiet_ui_monitor Hpos E) as (Hfull & _).
    + apply ratios_of_repeat. lra.
    + destruct Hfull as (m' & E' & C' & _ & One); [apply repeat_length | ].
      exists m'. split; [exact E' | ]. split; [exact C' | ].
      apply One. apply Forall_forall. intros q Hq.
      now apply repeat_spec in Hq.
  - destruct (calibration_sets_mean_baseline camera_ready ui_monitor m
                (repeat (frame_with_ratio 1) 89) (repeat 1 89) 0%nat
                quiet_ui_monitor Hpos E) as (_ & Hshort).
    + apply ratios_of_repeat. lra.
    + destruct Hshort as (m' & E' & C' & B' & _); [apply repeat_length | ].
      exists m'. split; [exact E' | ]. split; [exact C' | exact B'].
Defined.

(** C7. With a fixed baseline and sensitivity, a run of consecutive
    sub-threshold ratios leaves the published status as it was while the
    count is at or below the floor of 15 frames (nothing is published),
    and the status is SLOUCHING once the count exceeds the floor: from a
    count of 0, 10 bad frames do not show it and 20 do. *)
Theorem slouching_shown_past_debounce_floor :
  forall m frames cf,
    quiet m -> is_calibrated m = true ->
    (slouch_timer m <= trigger_frames m)%nat ->
    (15 <= trigger_frames m)%nat ->
    Forall (slouched m) frames ->
    exists m',
      while_loop frames cf m = Done tt m' /\
      ((slouch_timer m + length frames <= 15)%nat ->
       slouch_timer m' = (slouch_timer m + length frames)%nat /\
       current_status m' = current_status m /\ log m' = log m) /\
      (frames <> [] -> (15 < slouch_timer m + length frames)%nat ->
       current_status m' = SLOUCHING).
Proof.
  intros m frames cf Q C Hc HT Hall.
  destruct (slouched_run frames m cf Q C Hall Hc)
    as (m' & E & _ & T & _ & Lo & Hi).
  exists m'. split; [exact E | ]. split.
  - intros H. rewrite Nat.mod_small in T by lia.
    split; [exact T | apply Lo; lia].
  - intros Hne H. now apply Hi.
Qed.

Lemma slouching_shown_past_debounce_floor_witness :
  (exists m',
      while_loop (repeat (frame_with_ratio (1 / 2)) 10) 0 calibrated_monitor
      = Done tt m' /\ current_status m' = Monitoring) /\
  (exists m',
      while_loop (repeat (frame_with_ratio (1 / 2)) 20) 0 calibrated_monitor
      = Done tt m' /\ current_status m' = SLOUCHING).
Proof.
  assert (HT : (15 <= trigger_frames calibrated_monitor)%nat) by (cbn; lia).
  assert (Hc : (slouch_timer calibrated_monitor
                <= trigger_frames calibrated_monitor)%nat) by (cbn; lia).
  split.
  - destruct (slouching_shown_past_debounce_floor calibrated_monitor
                (repeat (frame_with_ratio (1 / 2)) 10) 0%nat
                quiet_calibrated_monitor eq_refl Hc HT (slouched_half 10))
      as (m' & E & Lo & _).
    exists m'. split; [exact E | ].
    destruct Lo as (_ & St & _); [cbn; lia | exact St].
  - destruct (slouching_shown_past_debounce_floor calibrated_monitor
                (repeat (frame_with_ratio (1 / 2)) 20) 0%nat
                quiet_calibrated_monitor eq_refl Hc HT (slouched_half 20))
      as (m' & E & _ & Hi).
    exists m'. split; [exact E | ].
    apply Hi; [discriminate | cbn; lia].
Defined.

(** C8. In the monitoring phase a single frame whose ratio is at or above
    the threshold sets the counter to 0, whatever it was, and publishes the
    good-posture status; a sub-threshold streak after it counts from
    zero. *)
Theorem good_frame_resets_counter :
  forall m good bad cf,
    quiet m -> is_calibrated m = true ->
    upright m good ->
    Forall (slouched m) bad -> (length bad <= trigger_frames m)%nat ->
    (exists m1,
        while_loop [good] cf m = Done tt m1 /\
        slouch_timer m1 = 0%nat /\
        current_status m1 = GoodPosture /\
        (forall cb, status_callback m = Some cb ->
                    log m1 = EvStatus GoodPosture :: log m)) /\
    (exists m',
        while_loop (good :: bad) cf m = Done tt m' /\
        slouch_timer m' = length bad).
Proof.
  intros m good bad cf Q C (q & Hf & Hq) Hall Hlen.
  pose proof (monitoring_upright m q Q Hq) as E1.
  rewrite <- (on_ratio_calibrated q m C) in E1.
  set (m1 := published GoodPosture (set_slouch_timer 0 m)) in E1.
  assert (K1 : kept m m1)
    by (eapply kept_trans; [apply kept_set_slouch_timer | apply kept_published]).
  assert (T1 : slouch_timer m1 = 0%nat).
  { subst m1.
    now destruct (published_calibration GoodPosture (set_slouch_timer 0 m))
      as (_ & _ & _ & _ & ->). }
  split.
  - exists m1. rewrite (while_loop_ratio _ _ _ _ _ Hf).
    rewrite (bind_done _ _ _ _ _ E1). split; [reflexivity | ].
    split; [exact T1 | ]. split; [apply published_status | ].
    intros cb Hcb. subst m1. rewrite published_log. fields. now rewrite Hcb.
  - rewrite (while_loop_ratio _ _ _ _ _ Hf).
    rewrite (bind_done _ _ _ _ _ E1).
    destruct (slouched_run bad m1 0%nat (kept_quiet _ _ K1 Q)
                (kept_calibrated _ _ K1 C)) as (m' & E' & _ & T' & _).
    + eapply Forall_impl; [ | exact Hall]. intros a. now apply kept_slouched.
    + lia.
    + exists m'. split; [exact E' | ].
      rewrite T', T1, (kept_trigger _ _ K1). cbn [Nat.add].
      apply Nat.mod_small. lia.
Qed.

Lemma good_frame_resets_counter_witness :
  exists m0 m',
    while_loop (repeat (frame_with_ratio (1 / 2)) 40) 0 calibrated_monitor
    = Done tt m0 /\ slouch_timer m0 = 40%nat /\
    while_loop (frame_with_ratio 1 :: repeat (frame_with_ratio (1 / 2)) 7) 0 m0
    = Done tt m' /\ slouch_timer m' = 7%nat.
Proof.
  destruct (slouched_run (repeat (frame_with_ratio (1 / 2)) 40)
              calibrated_monitor 0%nat quiet_calibrated_monitor eq_refl
              (slouched_half 40)) as (m0 & E0 & K0 & T0 & _); [cbn; lia | ].
  exists m0.
  destruct (good_frame_resets_counter m0 (frame_with_ratio 1)
              (repeat (frame_with_ratio (1 / 2)) 7) 0%nat) as (_ & m' & E' & T').
  - exact (kept_quiet _ _ K0 quiet_calibrated_monitor).
  - exact (kept_calibrated _ _ K0 eq_refl).
  - exists 1. split; [apply frame_with_ratio_ok; lra | ].
    rewrite (kept_threshold _ _ K0), threshold_calibrated_monitor. lra.
  - eapply Forall_impl; [ | exact (slouched_half 7)].
    intros a. now apply kept_slouched.
  - rewrite (kept_trigger _ _ K0). cbn. lia.
  - exists m'. split; [exact E0 | ]. split; [exact T0 | ].
    split; [exact E' | exact T'].
Defined.

(** C4 at its failing input. A first session calibrates on 90 frames of
    ratio 1, reads 50 frames of ratio 1/2 and is stopped.  The second
    [start()] resets the calibration fields and leaves [slouch_timer] at
    50; after its calibration the alert fires on the 41st sub-threshold
    frame. *)
Theorem slouch_timer_survives_restart :
  exists m1 m2 m3,
    session camera_ready
      (repeat (frame_with_ratio 1) 90 ++ repeat (frame_with_ratio (1 / 2)) 50)
      ui_monitor = Done tt m1 /\
    alerts m1 = 0%nat /\
    begin_session camera_ready m1 = Done true m2 /\
    calibration_frames m2 = 0%nat /\
    avg_ratio m2 = 0 /\
    is_calibrated m2 = false /\
    slouch_timer m2 = 50%nat /\
    session camera_ready
      (repeat (frame_with_ratio 1) 90 ++ repeat (frame_with_ratio (1 / 2)) 41)
      m1 = Done tt m3 /\
    alerts m3 = 1%nat.
Proof.
  destruct (session_calibrate_then_slouch ui_monitor 1 (1 / 2) 50
              quiet_ui_monitor)
    as (m1 & E1 & S1 & R1 & _ & _ & T1 & A1);
    try (cbn; lra); try (cbn; lia); try reflexivity; try discriminate.
  assert (Q1 : quiet m1) by (eapply steady_quiet; [exact S1 | exact quiet_ui_monitor]).
  pose proof S1 as (Hw & _ & Hl & Hs & _).
  pose proof (steady_trigger _ _ S1) as Ht.
  change (trigger_frames ui_monitor) with 90%nat in Ht.
  change (calibration_limit ui_monitor) with 90%nat in Hl.
  change (SENSITIVITY ui_monitor) with (85 / 100) in Hs.
  change (slouch_timer m1 = 50%nat) in T1.
  change (alerts m1 = 0%nat) in A1.
  destruct (begin_session_ready m1 Q1) as (m2 & E2 & _).
  pose proof (begin_session_entered _ _ _ E2)
    as (_ & _ & F2 & V2 & C2 & _ & T2 & _).
  assert (Hnz : calibration_limit m1 <> 0%nat) by (rewrite Hl; discriminate).
  assert (Hlt : 1 / 2 < 1 * SENSITIVITY m1) by (rewrite Hs; lra).
  assert (Hle : (slouch_timer m1 <= trigger_frames m1)%nat)
    by (rewrite Ht, T1; lia).
  destruct (session_calibrate_then_slouch m1 1 (1 / 2) 41 Q1 Hnz R1
              ltac:(lra) ltac:(lra) Hlt Hle)
    as (m3 & E3 & _ & _ & _ & _ & _ & A3).
  rewrite Hl in E3. rewrite Ht, T1, A1 in A3.
  unfold warning_calls in A3. rewrite Hw in A3.
  exists m1, m2, m3. rewrite T2, T1.
  repeat split; assumption.
Qed.

(** C6 at its failing input. Every one of the three attempts opens the
    device and fails the test read, so no attempt passes both checks; the
    loop is entered all the same: the status is "Calibrating..." and the
    frame that follows is counted by the calibration. *)
Theorem mute_camera_enters_pipeline :
  open_camera camera_mute (seq 0 3) None 0 = (Some (camera_mute 2), 3%nat) /\
  exists m m1 m',
    begin_session camera_mute ui_monitor = Done true m /\
    current_status m = CalibratingStart /\
    while_loop [frame_with_ratio 1] 0 m = Done tt m1 /\
    calibration_frames m1 = 1%nat /\
    session camera_mute [frame_with_ratio 1] ui_monitor = Done tt m' /\
    calibration_frames m' = 1%nat.
Proof.
  split; [reflexivity | ].
  assert (E : exists m, begin_session camera_mute ui_monitor = Done true m /\
                        current_status m = CalibratingStart).
  { eexists. split; reflexivity. }
  destruct E as (m & E & St).
  pose proof (begin_session_entered _ _ _ E) as (S & _ & F & _ & C & _).
  assert (Q : quiet m) by (eapply steady_quiet; [exact S | exact quiet_ui_monitor]).
  pose proof S as (_ & _ & Hl & _).
  change (calibration_limit ui_monitor) with 90%nat in Hl.
  destruct (calibration_run [frame_with_ratio 1] m [1] 0%nat Q C)
    as (m1 & E1 & _ & F1 & _).
  { constructor; [apply frame_with_ratio_ok; lra | constructor]. }
  { rewrite F, Hl. cbn. lia. }
  destruct (session_returns camera_mute [frame_with_ratio 1] ui_monitor m m1
              quiet_ui_monitor) as (m' & E' & K' & _);
    try discriminate; try reflexivity; try assumption.
  exists m, m1, m'. rewrite F in F1.
  destruct K' as (_ & -> & _).
  repeat split; assumption.
Qed.

(** ** Further properties of the monitor *)

Lemma failed_reads_skipped k :
  forall rest cf m,
    (cf + k < max_consecutive_failures)%nat ->
    while_loop (repeat ReadFailure k ++ rest) cf m
    = while_loop rest (cf + k) m.
Proof.
  induction k as [ | k IH]; intros rest cf m H.
  - cbn [repeat app]. now rewrite Nat.add_0_r.
  - cbn [repeat app while_loop].
    destruct (max_consecutive_failures <=? cf + 1)%nat eqn:E.
    + apply Nat.leb_le in E. lia.
    + rewrite IH by lia. f_equal. lia.
Qed.

Lemma while_loop_image_counter f rest cf cf' m :
  f <> ReadFailure ->
  while_loop (f :: rest) cf m = while_loop (f :: rest) cf' m.
Proof. destruct f; [congruence | reflexivity]. Qed.

(** X1. Transient read failures: any number of bursts of failed reads,
    each shorter than 30 and each ended by a successful read, is
    invisible; the loop behaves as on the successful reads alone. *)
Theorem transient_read_failures_ignored :
  forall bursts m,
    Forall (fun b => (fst b < max_consecutive_failures)%nat /\
                     snd b <> ReadFailure) bursts ->
    while_loop (with_failures bursts) 0 m = while_loop (map snd bursts) 0 m.
Proof.
  induction bursts as [ | [k f] bursts IH]; intros m H; [reflexivity | ].
  inversion H as [ | b bs (Hk & Hf) Hrest]; subst. cbn [fst snd] in *.
  unfold with_failures. cbn [flat_map map fst snd].
  fold (with_failures bursts).
  rewrite <- app_assoc. rewrite failed_reads_skipped by lia.
  cbn [app]. destruct f as [ | h w lms]; [congruence | ].
  cbn [while_loop]. unfold bind.
  destruct (on_frame h w lms m) as [[] m1 | m1]; [ | reflexivity].
  now apply IH.
Qed.

Lemma transient_read_failures_ignored_witness :
  while_loop
    (with_failures [(29%nat, frame_with_ratio 1); (29%nat, frame_with_ratio 1)])
    0 ui_monitor
  = while_loop [frame_with_ratio 1; frame_with_ratio 1] 0 ui_monitor.
Proof.
  apply (transient_read_failures_ignored
           [(29%nat, frame_with_ratio 1); (29%nat, frame_with_ratio 1)]).
  repeat constructor; cbn; try lia; discriminate.
Defined.

(** X2. Frames without a usable pose (no detection, or a shoulder
    distance that is not positive) are skipped: on successfully read
    frames the loop behaves as on those that yield a ratio. *)
Theorem frames_without_ratio_skipped :
  forall frames cf m,
    Forall (fun f => f <> ReadFailure) frames ->
    while_loop frames cf m = while_loop (filter has_ratio frames) cf m.
Proof.
  induction frames as [ | f frames IH]; intros cf m H; [reflexivity | ].
  inversion H as [ | f' fs Hf Hrest]; subst.
  destruct f as [ | h w lms]; [congruence | ].
  cbn [filter]. unfold has_ratio at 1.
  destruct (frame_ratio (Image h w lms)) as [q | ] eqn:E.
  - cbn [while_loop]. unfold bind.
    destruct (on_frame h w lms m) as [[] m1 | m1]; [ | reflexivity].
    rewrite (IH 0%nat m1 Hrest). reflexivity.
  - cbn [while_loop]. unfold bind.
    assert (Hskip : on_frame h w lms m = Done tt m).
    { unfold on_frame. destruct lms as [lm | ]; [ | reflexivity].
      cbn [frame_ratio] in E. now rewrite E. }
    rewrite Hskip. rewrite (IH 0%nat m Hrest).
    destruct (filter has_ratio frames) as [ | g gs] eqn:Eg; [reflexivity | ].
    apply while_loop_image_counter.
    assert (Hin : In g (filter has_ratio frames)) by (rewrite Eg; now left).
    apply filter_In in Hin. destruct Hin as (Hin & _).
    exact (proj1 (Forall_forall _ _) Hrest g Hin).
Qed.

Lemma frames_without_ratio_skipped_witness :
  while_loop [Image 480 640 None; frame_with_ratio 1; Image 480 640 None] 0
    ui_monitor
  = while_loop
      (filter has_ratio
         [Image 480 640 None; frame_with_ratio 1; Image 480 640 None])
      0 ui_monitor.
Proof.
  apply (frames_without_ratio_skipped
           [Image 480 640 None; frame_with_ratio 1; Image 480 640 None]).
  repeat constructor; discriminate.
Defined.

(** What [_update_status] leaves when it returns, whatever the callback. *)
Lemma update_status_done s m m' :
  _update_status s m = Done tt m' ->
  current_status m' = s /\ running m' = running m /\ cap m' = cap m /\
  kept m m' /\ slouch_timer m' = slouch_timer m.
Proof.
  unfold _update_status. fields.
  destruct (status_callback m) as [cb | ].
  - destruct (cb (log m) s); [ | discriminate].
    intros H. inversion H; subst m'. unfold kept, steady. fields. tauto.
  - intros H. inversion H; subst m'. unfold kept, steady. fields. tauto.
Qed.

(** The retry loop ends with no handle or with an opened one. *)
Lemma open_camera_opened camera attempts :
  forall c calls,
    cap_unusable c = false \/ c = None ->
    cap_unusable (fst (open_camera camera attempts c calls)) = false \/
    fst (open_camera camera attempts c calls) = None.
Proof.
  induction attempts as [ | a attempts IH]; intros c calls H;
    cbn [open_camera fst]; [exact H | ].
  destruct (isOpened (camera a)) eqn:Eo.
  - destruct (test_read (camera a)).
    + left. cbn [fst cap_unusable]. now rewrite Eo.
    + apply IH. left. cbn [cap_unusable]. now rewrite Eo.
  - apply IH. now right.
Qed.

(** X3. The 30th consecutive failed read publishes "Error: Camera read
    failed" and ends the loop: the frames after it are never read. *)
Theorem persistent_read_failure_ends_loop :
  forall rest cf m,
    (cf < max_consecutive_failures)%nat ->
    while_loop (repeat ReadFailure (max_consecutive_failures - cf) ++ rest) cf m
    = _update_status ErrorCameraReadFailed m.
Proof.
  intros rest cf m H.
  replace (max_consecutive_failures - cf)%nat
    with ((max_consecutive_failures - cf - 1) + 1)%nat by lia.
  rewrite repeat_app, <- app_assoc.
  rewrite failed_reads_skipped by lia.
  cbn [repeat app while_loop].
  destruct (max_consecutive_failures <=?
            cf + (max_consecutive_failures - cf - 1) + 1)%nat eqn:E;
    [reflexivity | ].
  apply Nat.leb_gt in E. lia.
Qed.

Lemma persistent_read_failure_ends_loop_witness :
  while_loop (repeat ReadFailure 30 ++ [frame_with_ratio 1]) 0 ui_monitor
  = _update_status ErrorCameraReadFailed ui_monitor.
Proof.
  apply (persistent_read_failure_ends_loop [frame_with_ratio 1] 0%nat ui_monitor).
  unfold max_consecutive_failures. lia.
Defined.

(** The exit before the loop: nothing is held and the error is shown. *)
Lemma session_setup_refused camera m m1 :
  session_setup camera m = Done false m1 ->
  running m1 = false /\ cap m1 = None /\
  current_status m1 = ErrorCameraAccessDenied.
Proof.
  unfold session_setup, bind, modify, get. fields.
  destruct (open_camera_opened camera (seq 0 3) None 0%nat (or_intror eq_refl))
    as [Hc | Hc]; rewrite Hc.
  - destruct (_update_status CalibratingStart _); discriminate.
  - cbn [cap_unusable].
    destruct (_update_status ErrorCameraAccessDenied _) as [[] m2 | m2] eqn:E;
      [ | discriminate].
    unfold ret. intros H. inversion H; subst m1.
    destruct (update_status_done _ _ _ E) as (St & _ & Hcap & _).
    fields. rewrite St, Hcap. fields. tauto.
Qed.

(** X4. However [_monitor_loop] returns, the camera handle is given up
    and [running] is cleared; the last status is "Stopped", or the
    access-denied error when the loop was never entered. *)
Theorem monitor_loop_exit_releases_camera :
  forall camera frames m m',
    _monitor_loop camera frames m = Done tt m' ->
    running m' = false /\ cap m' = None /\
    (current_status m' = Stopped \/
     current_status m' = ErrorCameraAccessDenied).
Proof.
  intros camera frames m m'. unfold _monitor_loop. unfold bind at 1.
  destruct (session_setup camera m) as [[ | ] m1 | m1] eqn:E1;
    [ | | discriminate].
  - unfold bind at 1.
    destruct (while_loop frames 0 m1) as [[] m2 | m2]; [ | discriminate].
    unfold cleanup, bind, modify. intros H.
    destruct (_update_status Stopped _) as [[] m3 | m3] eqn:E3;
      [ | discriminate].
    inversion H; subst m'.
    destruct (update_status_done _ _ _ E3) as (-> & -> & -> & _).
    fields. tauto.
  - unfold ret. intros H. inversion H; subst m'.
    destruct (session_setup_refused _ _ _ E1) as (-> & -> & ->). tauto.
Qed.

(** With callbacks that return, [_monitor_loop] returns. *)
Lemma monitor_loop_quiet camera frames m :
  quiet m -> calibration_limit m <> 0%nat ->
  exists m', _monitor_loop camera frames m = Done tt m'.
Proof.
  intros Q Hnz. unfold _monitor_loop.
  destruct (session_setup_quiet camera m Q) as (b & m1 & E1 & S1).
  rewrite (bind_done _ _ _ _ _ E1). destruct b.
  - destruct (while_loop_quiet frames m1 0%nat (steady_quiet _ _ S1 Q))
      as (m2 & E2 & S2 & _).
    { destruct S1 as (_ & _ & -> & _). exact Hnz. }
    rewrite (bind_done _ _ _ _ _ E2).
    unfold cleanup, bind, modify.
    rewrite update_status_quiet.
    + eexists. reflexivity.
    + eapply steady_quiet; [ | exact Q].
      eapply steady_trans; [exact S1 | ].
      eapply steady_trans; [exact S2 | ].
      unfold steady; fields; tauto.
  - eexists. reflexivity.
Qed.

Lemma monitor_loop_exit_releases_camera_witness :
  exists m',
    _monitor_loop camera_ready [ReadFailure; Image 480 640 None]
      ui_monitor = Done tt m' /\
    running m' = false /\ cap m' = None.
Proof.
  destruct (monitor_loop_quiet camera_ready [ReadFailure; Image 480 640 None]
              ui_monitor quiet_ui_monitor) as (m' & E); [discriminate | ].
  exists m'. split; [exact E | ].
  destruct (monitor_loop_exit_releases_camera _ _ _ _ E) as (R & C & _).
  tauto.
Defined.

(** X5. [stop()] always leaves [running] cleared, no camera handle and
    the status "Stopped", even when the status callback raises; it does
    not touch the calibration result or the slouch counter. *)
Theorem stop_always_stops :
  forall m,
    running (final (stop m)) = false /\
    cap (final (stop m)) = None /\
    current_status (final (stop m)) = Stopped /\
    kept m (final (stop m)) /\
    slouch_timer (final (stop m)) = slouch_timer m.
Proof.
  intros m. unfold stop, bind, modify, _update_status. fields.
  destruct (status_callback m) as [cb | ].
  - destruct (cb (log m) Stopped); cbn [final]; unfold kept, steady; fields;
      tauto.
  - cbn [final]. unfold kept, steady. fields. tauto.
Qed.

(** X6. [stop()] is idempotent: a second [stop()] changes nothing but the
    call log, where the status callback, if registered, sees "Stopped"
    once more. *)
Theorem stop_idempotent :
  forall m,
    quiet m ->
    exists m1,
      stop m = Done tt m1 /\
      stop m1 = Done tt (match status_callback m with
                         | Some _ => record_call (EvStatus Stopped) m1
                         | None => m1
                         end).
Proof.
  intros m (_ & Qs). unfold stop, bind, modify, _update_status. fields.
  destruct (status_callback m) as [cb | ] eqn:E.
  - rewrite (Qs cb eq_refl). eexists. split; [reflexivity | ].
    fields. rewrite E. rewrite (Qs cb eq_refl). reflexivity.
  - eexists. split; [reflexivity | ]. fields. rewrite E. reflexivity.
Qed.

Lemma stop_idempotent_witness :
  exists m1,
    stop ui_monitor = Done tt m1 /\
    stop m1 = Done tt (record_call (EvStatus Stopped) m1).
Proof.
  exact (stop_idempotent ui_monitor quiet_ui_monitor).
Defined.

Lemma kept_bind {A B : Type} (c : Py A) (k : A -> Py B) m :
  kept m (final (c m)) ->
  (forall a m1, c m = Done a m1 -> kept m1 (final (k a m1))) ->
  kept m (final (bind c k m)).
Proof.
  intros Hc Hk. unfold bind. destruct (c m) as [a m1 | m1] eqn:E.
  - eapply kept_trans; [exact Hc | now apply Hk].
  - exact Hc.
Qed.

Lemma update_status_kept s m : kept m (final (_update_status s m)).
Proof.
  unfold _update_status. fields. destruct (status_callback m) as [cb | ].
  - destruct (cb (log m) s); cbn [final]; unfold kept, steady; fields; tauto.
  - cbn [final]. unfold kept, steady. fields. tauto.
Qed.

Lemma call_warning_kept m : kept m (final (call_warning_callback m)).
Proof.
  unfold call_warning_callback. destruct (warning_callback m) as [cb | ].
  - destruct (cb (log m)); cbn [final]; unfold kept, steady; fields; tauto.
  - apply kept_refl.
Qed.

Lemma check_slouch_kept q m : kept m (final (check_slouch q m)).
Proof.
  unfold check_slouch.
  destruct (Rlt_dec q (baseline_ratio m * SENSITIVITY m)).
  - apply kept_bind; [apply kept_set_slouch_timer | ].
    intros [] m1 _. unfold bind, get.
    destruct (15 <? slouch_timer m1)%nat;
      [apply update_status_kept | apply kept_refl].
  - apply kept_bind; [apply kept_set_slouch_timer | ].
    intros [] m1 _. apply update_status_kept.
Qed.

Lemma trigger_warning_kept m : kept m (final (trigger_warning m)).
Proof.
  unfold trigger_warning, bind at 1, get at 1. unfold bind at 1, get at 1.
  destruct (30 * slouch_trigger_time m <? slouch_timer m)%nat;
    [ | apply kept_refl].
  apply kept_bind; [apply call_warning_kept | ].
  intros [] m1 _. apply kept_set_slouch_timer.
Qed.

Lemma monitoring_phase_kept q m : kept m (final (monitoring_phase q m)).
Proof.
  unfold monitoring_phase. apply kept_bind; [apply check_slouch_kept | ].
  intros [] m1 _. apply trigger_warning_kept.
Qed.

(** X7. Once the monitor is calibrated, no frame of the loop changes the
    baseline, the calibrated flag or the calibration sums, whatever the
    frames show and whatever the callbacks do. *)
Theorem baseline_fixed_once_calibrated :
  forall frames cf m,
    is_calibrated m = true ->
    is_calibrated (final (while_loop frames cf m)) = true /\
    baseline_ratio (final (while_loop frames cf m)) = baseline_ratio m /\
    calibration_frames (final (while_loop frames cf m)) = calibration_frames m /\
    avg_ratio (final (while_loop frames cf m)) = avg_ratio m.
Proof.
  intros frames cf m C.
  assert (K : kept m (final (while_loop frames cf m))).
  { revert cf m C. induction frames as [ | f frames IH]; intros cf m C.
    - apply kept_refl.
    - destruct f as [ | h w lms]; cbn [while_loop].
      + destruct (max_consecutive_failures <=? cf + 1)%nat;
          [apply update_status_kept | now apply IH].
      + apply kept_bind.
        * unfold on_frame. destruct lms as [lm | ]; [ | apply kept_refl].
          destruct (compute_ratio _ _ _) as [q | ]; [ | apply kept_refl].
          rewrite (on_ratio_calibrated q m C). apply monitoring_phase_kept.
        * intros [] m1 E. apply IH.
          assert (K1 : kept m (final (on_frame h w lms m))).
          { unfold on_frame. destruct lms as [lm | ]; [ | apply kept_refl].
            destruct (compute_ratio _ _ _) as [q | ]; [ | apply kept_refl].
            rewrite (on_ratio_calibrated q m C). apply monitoring_phase_kept. }
          rewrite E in K1. cbn [final] in K1.
          now apply (kept_calibrated _ _ K1). }
  destruct K as (_ & F & A & Ic & B). rewrite Ic, B, F, A. tauto.
Qed.

Lemma baseline_fixed_once_calibrated_witness :
  baseline_ratio
    (final (while_loop (repeat (frame_with_ratio (1 / 2)) 100) 0
              calibrated_monitor)) = 1.
Proof.
  destruct (baseline_fixed_once_calibrated
              (repeat (frame_with_ratio (1 / 2)) 100) 0%nat calibrated_monitor
              eq_refl) as (_ & B & _).
  exact B.
Defined.

Lemma kept_consistent m m' :
  kept m m' -> calibration_consistent m -> calibration_consistent m'.
Proof.
  intros ((_ & _ & Hl & _) & F & A & C & B). unfold calibration_consistent.
  now rewrite Hl, F, A, C, B.
Qed.

Lemma on_frame_consistent h w lms m :
  quiet m -> calibration_consistent m ->
  exists m', on_frame h w lms m = Done tt m' /\ steady m m' /\
             calibration_consistent m'.
Proof.
  intros Q I. unfold on_frame.
  destruct lms as [lm | ];
    [ | exists m; split; [reflexivity | split; [apply steady_refl | exact I]]].
  destruct (compute_ratio _ _ _) as [q | ];
    [ | exists m; split; [reflexivity | split; [apply steady_refl | exact I]]].
  destruct (is_calibrated m) eqn:C.
  - rewrite (on_ratio_calibrated q m C).
    destruct (Rlt_le_dec q (threshold m)) as [Hq | Hq].
    + destruct (monitoring_slouched m q Q Hq) as (m' & E & K & _).
      exists m'. split; [exact E | ]. split; [apply K | ].
      now apply (kept_consistent m).
    + rewrite (monitoring_upright m q Q Hq). eexists. split; [reflexivity | ].
      assert (K : kept m (published GoodPosture (set_slouch_timer 0 m)))
        by (eapply kept_trans; [apply kept_set_slouch_timer
                               | apply kept_published]).
      split; [apply K | now apply (kept_consistent m)].
  - rewrite (on_ratio_calibrating q m C).
    destruct I as (Hle & _ & Hlt). specialize (Hlt C).
    destruct (Nat.le_gt_cases (calibration_limit m) (calibration_frames m + 1))
      as [H | H].
    + destruct (calibration_last_step m q Q H)
        as (m' & E & S & F & A & C' & B & _); [lia | ].
      exists m'. split; [exact E | ]. split; [exact S | ].
      pose proof S as (_ & _ & Hl & _).
      unfold calibration_consistent. rewrite Hl, F, A, C', B.
      repeat split; try lia; congruence.
    + destruct (calibration_step m q Q H)
        as (m' & E & S & F & A & C' & B & _).
      exists m'. split; [exact E | ]. split; [exact S | ].
      pose proof S as (_ & _ & Hl & _).
      unfold calibration_consistent. rewrite Hl, F, C', C.
      repeat split; try lia; congruence.
Qed.

Lemma while_loop_consistent frames :
  forall cf m,
    quiet m -> calibration_consistent m ->
    exists m', while_loop frames cf m = Done tt m' /\ steady m m' /\
               calibration_consistent m'.
Proof.
  induction frames as [ | f frames IH]; intros cf m Q I.
  - exists m. split; [reflexivity | split; [apply steady_refl | exact I]].
  - destruct f as [ | h w lms]; cbn [while_loop].
    + destruct (max_consecutive_failures <=? cf + 1)%nat.
      * rewrite (update_status_quiet _ _ Q). eexists. split; [reflexivity | ].
        split; [apply published_steady | ].
        apply (kept_consistent m); [apply kept_published | exact I].
      * now apply IH.
    + destruct (on_frame_consistent h w lms m Q I) as (m1 & E1 & S1 & I1).
      rewrite (bind_done _ _ _ _ _ E1).
      destruct (IH 0%nat m1 (steady_quiet _ _ S1 Q) I1) as (m' & E & S & I').
      exists m'. split; [exact E | ].
      split; [eapply steady_trans; eauto | exact I'].
Qed.

(** X8. Throughout a session, with callbacks that return: the number of
    calibration frames never passes the limit, the monitor is calibrated
    exactly when that number has reached the limit, and the baseline is
    then the running sum divided by the limit. *)
Theorem session_calibration_consistent :
  forall camera m0 m frames cf,
    quiet m0 -> (0 < calibration_limit m0)%nat ->
    begin_session camera m0 = Done true m ->
    exists m',
      while_loop frames cf m = Done tt m' /\
      (calibration_frames m' <= calibration_limit m0)%nat /\
      (is_calibrated m' = true <->
       calibration_frames m' = calibration_limit m0) /\
      (is_calibrated m' = true ->
       baseline_ratio m' = avg_ratio m' / INR (calibration_limit m0)).
Proof.
  intros camera m0 m frames cf Q Hpos E.
  pose proof (begin_session_entered _ _ _ E) as (S & _ & F & _ & C & _).
  pose proof S as (_ & _ & Hl & _).
  assert (I : calibration_consistent m).
  { unfold calibration_consistent. rewrite F, C, Hl.
    repeat split; try lia; discriminate. }
  destruct (while_loop_consistent frames cf m (steady_quiet _ _ S Q) I)
    as (m' & E' & S' & Hle & Hc & Hn).
  pose proof S' as (_ & _ & Hl' & _). rewrite Hl', Hl in Hle, Hc, Hn.
  exists m'. split; [exact E' | ]. split; [exact Hle | ]. split.
  - split; [apply Hc | ].
    intros Heq. destruct (is_calibrated m'); [reflexivity | ].
    specialize (Hn eq_refl). lia.
  - apply Hc.
Qed.

Lemma session_calibration_consistent_witness :
  exists m m',
    begin_session camera_ready ui_monitor = Done true m /\
    while_loop (repeat (frame_with_ratio 1) 120) 0 m = Done tt m' /\
    (calibration_frames m' <= 90)%nat.
Proof.
  destruct (begin_session_ready ui_monitor quiet_ui_monitor) as (m & E & _).
  assert (Hpos : (0 < calibration_limit ui_monitor)%nat) by (cbn; lia).
  destruct (session_calibration_consistent camera_ready ui_monitor m
              (repeat (frame_with_ratio 1) 120) 0%nat quiet_ui_monitor Hpos E)
    as (m' & E' & Hle & _).
  exists m, m'. split; [exact E | ]. split; [exact E' | exact Hle].
Defined.

Lemma on_frame_counter_bound h w lms m :
  quiet m -> calibration_limit m <> 0%nat ->
  (slouch_timer m <= trigger_frames m)%nat ->
  exists m', on_frame h w lms m = Done tt m' /\ steady m m' /\
             (slouch_timer m' <= trigger_frames m)%nat.
Proof.
  intros Q Hnz Hc. unfold on_frame.
  destruct lms as [lm | ];
    [ | exists m; split; [reflexivity | split; [apply steady_refl | exact Hc]]].
  destruct (compute_ratio _ _ _) as [q | ];
    [ | exists m; split; [reflexivity | split; [apply steady_refl | exact Hc]]].
  destruct (is_calibrated m) eqn:C.
  - rewrite (on_ratio_calibrated q m C).
    destruct (Rlt_le_dec q (threshold m)) as [Hq | Hq].
    + destruct (monitoring_slouched m q Q Hq)
        as (m' & E & K & Below & Above & _).
      exists m'. split; [exact E | ]. split; [apply K | ].
      destruct (Nat.le_gt_cases (slouch_timer m + 1) (trigger_frames m))
        as [H | H].
      * destruct (Below H) as (-> & _). exact H.
      * destruct (Above H) as (-> & _). lia.
    + rewrite (monitoring_upright m q Q Hq). eexists. split; [reflexivity | ].
      split; [eapply steady_trans; [ | apply published_steady];
              apply kept_set_slouch_timer | ].
      destruct (published_calibration GoodPosture (set_slouch_timer 0 m))
        as (_ & _ & _ & _ & ->). fields. lia.
  - rewrite (on_ratio_calibrating q m C).
    destruct (Nat.le_gt_cases (calibration_limit m) (calibration_frames m + 1))
      as [H | H].
    + destruct (calibration_last_step m q Q H Hnz)
        as (m' & E & S & _ & _ & _ & _ & T & _).
      exists m'. split; [exact E | ]. split; [exact S | ]. now rewrite T.
    + destruct (calibration_step m q Q H)
        as (m' & E & S & _ & _ & _ & _ & T & _).
      exists m'. split; [exact E | ]. split; [exact S | ]. now rewrite T.
Qed.

(** X9. Between frames the slouch counter never exceeds
    [30 * slouch_trigger_time]: with callbacks that return, a counter
    within the bound stays within it through any frames. *)
Theorem slouch_counter_bounded :
  forall frames cf m,
    quiet m -> calibration_limit m <> 0%nat ->
    (slouch_timer m <= trigger_frames m)%nat ->
    exists m', while_loop frames cf m = Done tt m' /\
               (slouch_timer m' <= trigger_frames m)%nat.
Proof.
  induction frames as [ | f frames IH]; intros cf m Q Hnz Hc.
  - exists m. split; [reflexivity | exact Hc].
  - destruct f as [ | h w lms]; cbn [while_loop].
    + destruct (max_consecutive_failures <=? cf + 1)%nat.
      * rewrite (update_status_quiet _ _ Q). eexists. split; [reflexivity | ].
        now destruct (published_calibration ErrorCameraReadFailed m)
          as (_ & _ & _ & _ & ->).
      * now apply IH.
    + destruct (on_frame_counter_bound h w lms m Q Hnz Hc)
        as (m1 & E1 & S1 & T1).
      rewrite (bind_done _ _ _ _ _ E1).
      pose proof S1 as (_ & _ & Hl & _).
      destruct (IH 0%nat m1 (steady_quiet _ _ S1 Q)) as (m' & E & T).
      * congruence.
      * now rewrite (steady_trigger _ _ S1).
      * exists m'. split; [exact E | ].
        now rewrite (steady_trigger _ _ S1) in T.
Qed.

Lemma slouch_counter_bounded_witness :
  exists m',
    while_loop (repeat (frame_with_ratio (1 / 2)) 500) 0 calibrated_monitor
    = Done tt m' /\ (slouch_timer m' <= 90)%nat.
Proof.
  apply (slouch_counter_bounded (repeat (frame_with_ratio (1 / 2)) 500) 0%nat
           calibrated_monitor quiet_calibrated_monitor).
  - discriminate.
  - cbn. lia.
Defined.

(** X10. When a frame fires the alert, the status callback has just been
    told "SLOUCHING!": with both callbacks registered and returning and a
    trigger of at least 15 frames, the two most recent calls in the log
    are the warning and, before it, that status. *)
Theorem alert_follows_slouching_status :
  forall m f cf cb m',
    quiet m -> status_callback m = Some cb ->
    is_calibrated m = true -> (15 <= trigger_frames m)%nat ->
    while_loop [f] cf m = Done tt m' ->
    alerts m' <> alerts m ->
    log m' = EvWarning :: EvStatus SLOUCHING :: log m /\
    current_status m' = SLOUCHING.
Proof.
  intros m f cf cb m' Q Hs C HT E Ha.
  destruct (frame_ratio f) as [q | ] eqn:Hf.
  - rewrite (while_loop_ratio _ _ _ _ _ Hf) in E.
    unfold bind in E. rewrite (on_ratio_calibrated q m C) in E.
    destruct (Rlt_le_dec q (threshold m)) as [Hq | Hq].
    + clear Hf. revert E. unfold monitoring_phase, check_slouch.
      unfold bind at 1.
      destruct (Rlt_dec q (baseline_ratio m * SENSITIVITY m)) as [_ | Hn];
        [ | now elim Hn].
      unfold bind at 1, modify at 1. unfold bind at 1, get at 1. fields.
      destruct (15 <? slouch_timer m + 1)%nat eqn:E15.
      * rewrite update_status_quiet
          by (eapply kept_quiet; [apply kept_set_slouch_timer | exact Q]).
        unfold published. fields. rewrite Hs.
        unfold trigger_warning, bind, get, modify. fields.
        destruct (30 * slouch_trigger_time m <? slouch_timer m + 1)%nat.
        -- unfold call_warning_callback. fields.
           destruct (warning_callback m) as [cbw | ] eqn:Hw.
           ++ destruct Q as (Qw & _). rewrite (Qw cbw Hw).
              cbn [while_loop]. unfold ret. intros E. inversion E; subst m'.
              fields. split; reflexivity.
           ++ cbn [while_loop]. unfold ret. intros E. inversion E; subst m'.
              exfalso. apply Ha. unfold alerts. fields. try rewrite Hs.
              reflexivity.
        -- unfold ret. cbn [while_loop]. unfold ret.
           intros E. inversion E; subst m'.
           exfalso. apply Ha. unfold alerts. fields. try rewrite Hs. reflexivity.
      * apply Nat.ltb_ge in E15. unfold ret.
        unfold trigger_warning, bind, get, modify. fields.
        fold (trigger_frames m).
        destruct (trigger_frames m <? slouch_timer m + 1)%nat eqn:ET;
          [apply Nat.ltb_lt in ET; lia | ].
        unfold ret. cbn [while_loop]. unfold ret.
        intros E. inversion E; subst m'. exfalso. now apply Ha.
    + rewrite (monitoring_upright m q Q Hq) in E. cbn [while_loop] in E.
      unfold ret in E. inversion E; subst m'.
      exfalso. apply Ha. now rewrite published_alerts.
  - exfalso. apply Ha.
    destruct (unslouched_frame_no_alert m f cf Q C) as (m1 & E1 & A1).
    + intros (q & Hq & _). congruence.
    + rewrite E1 in E. inversion E; subst m1. exact A1.
Qed.

Lemma alert_follows_slouching_status_witness :
  exists m0 m',
    while_loop (repeat (frame_with_ratio (1 / 2)) 90) 0 calibrated_monitor
    = Done tt m0 /\
    while_loop [frame_with_ratio (1 / 2)] 0 m0 = Done tt m' /\
    log m' = EvWarning :: EvStatus SLOUCHING :: log m0.
Proof.
  destruct (slouched_run (repeat (frame_with_ratio (1 / 2)) 90)
              calibrated_monitor 0%nat quiet_calibrated_monitor eq_refl
              (slouched_half 90)) as (m0 & E0 & K0 & T0 & A0 & _);
    [cbn; lia | ].
  assert (Q0 : quiet m0) by exact (kept_quiet _ _ K0 quiet_calibrated_monitor).
  assert (C0 : is_calibrated m0 = true) by exact (kept_calibrated _ _ K0 eq_refl).
  assert (H0 : Forall (slouched m0) [frame_with_ratio (1 / 2)]).
  { eapply Forall_impl; [ | exact (slouched_half 1)].
    intros a. now apply kept_slouched. }
  assert (Ht : trigger_frames m0 = 90%nat) by exact (kept_trigger _ _ K0).
  destruct (slouched_run [frame_with_ratio (1 / 2)] m0 0%nat Q0 C0 H0)
    as (m' & E' & K' & T' & A' & _).
  { rewrite T0, Ht. cbn. lia. }
  exists m0, m'. split; [exact E0 | ]. split; [exact E' | ].
  destruct K0 as ((Hw & Hs & _) & _).
  apply (alert_follows_slouching_status m0 (frame_with_ratio (1 / 2)) 0%nat
           status_ok m' Q0 Hs C0).
  - rewrite Ht. lia.
  - exact E'.
  - rewrite A', T0, Ht. unfold warning_calls. rewrite Hw. cbn. lia.
Defined.

Lemma Int_part_quotient (a b : Z) :
  (0 < b)%Z -> Int_part (IZR a / IZR b) = (a / b)%Z.
Proof.
  intros Hb. symmetry. apply Int_part_spec.
  assert (Hb' : 0 < IZR b) by now apply IZR_lt.
  pose proof (Z.mul_div_le a b Hb) as Hlo.
  pose proof (Z.mul_succ_div_gt a b Hb) as Hhi.
  apply IZR_le in Hlo. apply IZR_lt in Hhi.
  rewrite mult_IZR in Hlo. rewrite mult_IZR, succ_IZR in Hhi.
  split.
  - apply Rmult_lt_reg_l with (IZR b); [exact Hb' | ].
    replace (IZR b * (IZR a / IZR b - 1)) with (IZR a - IZR b) by (field; lra).
    lra.
  - apply Rmult_le_reg_l with (IZR b); [exact Hb' | ].
    replace (IZR b * (IZR a / IZR b)) with (IZR a) by (field; lra).
    exact Hlo.
Qed.

(** The progress figure at the limit the code sets. *)
Lemma progress_percent (k : nat) :
  py_int (INR k / INR 90 * 100) = (100 * Z.of_nat k / 90)%Z.
Proof.
  unfold py_int.
  assert (Hk : 0 <= INR k) by apply pos_INR.
  assert (H90 : INR 90 = 90) by (rewrite INR_IZR_INZ; reflexivity).
  rewrite H90.
  destruct (Rle_dec 0 (INR k / 90 * 100)) as [_ | Hn].
  - rewrite <- Int_part_quotient by lia.
    f_equal. rewrite mult_IZR, INR_IZR_INZ. field.
  - exfalso. apply Hn.
    apply Rmult_le_pos; [ | lra]. apply Rmult_le_pos; [exact Hk | lra].
Qed.

(** X11. Calibration progress: with the limit of 90, the [k]-th valid
    frame of a calibration tells the status callback
    "Calibrating: p%" with [p = floor(100 * k / 90)]; the 90th tells it
    "Calibrating: 100%" and then "Monitoring". *)
Theorem calibration_progress_published :
  forall m f q cf cb,
    quiet m -> status_callback m = Some cb ->
    is_calibrated m = false -> calibration_limit m = 90%nat ->
    frame_ratio f = Some q ->
    exists m',
      while_loop [f] cf m = Done tt m' /\
      ((calibration_frames m + 1 < 90)%nat ->
       log m' =
         EvStatus (Calibrating (100 * Z.of_nat (calibration_frames m + 1) / 90))
         :: log m) /\
      ((calibration_frames m + 1 = 90)%nat ->
       log m' = EvStatus Monitoring :: EvStatus (Calibrating 100) :: log m).
Proof.
  intros m f q cf cb Q Hs C Hl Hf.
  rewrite (while_loop_ratio _ _ _ _ _ Hf). unfold bind at 1.
  rewrite (on_ratio_calibrating q m C).
  unfold calibration_phase. fields. rewrite Hl. cbn [Nat.eqb].
  rewrite progress_percent.
  set (m1 := set_avg_ratio _ _).
  assert (K1 : steady m m1) by (unfold steady; subst m1; fields; tauto).
  rewrite (bind_done _ _ _ _ _
             (update_status_quiet _ m1 (steady_quiet _ _ K1 Q))).
  unfold bind at 1, get at 1. unfold bind at 1, get at 1.
  assert (Hp : published (Calibrating (100 * Z.of_nat (calibration_frames m + 1) / 90)) m1
               = record_call (EvStatus (Calibrating (100 * Z.of_nat (calibration_frames m + 1) / 90)))
                   (set_current_status (Calibrating (100 * Z.of_nat (calibration_frames m + 1) / 90)) m1)).
  { unfold published. subst m1. fields. now rewrite Hs. }
  rewrite Hp. subst m1. fields. rewrite Hl.
  destruct (90 <=? calibration_frames m + 1)%nat eqn:E.
  - apply Nat.leb_le in E. unfold bind, modify. fields.
    rewrite update_status_quiet
      by (eapply steady_quiet; [ | exact Q]; unfold steady; fields; tauto).
    cbn [while_loop]. eexists. split; [reflexivity | ].
    split; [lia | ]. intros Heq. unfold published. fields. rewrite Hs.
    fields. rewrite Heq. reflexivity.
  - apply Nat.leb_gt in E. cbn [while_loop]. eexists.
    split; [reflexivity | ]. split; [ | lia].
    intros _. reflexivity.
Qed.

Lemma calibration_progress_published_witness :
  exists m m',
    begin_session camera_ready ui_monitor = Done true m /\
    while_loop [frame_with_ratio 1] 0 m = Done tt m' /\
    log m' = EvStatus (Calibrating 1) :: log m.
Proof.
  destruct (begin_session_ready ui_monitor quiet_ui_monitor) as (m & E & _).
  pose proof (begin_session_entered _ _ _ E) as (S & _ & F & _ & C & _).
  pose proof S as (_ & Hs & Hl & _).
  destruct (calibration_progress_published m (frame_with_ratio 1) 1 0%nat
              status_ok (steady_quiet _ _ S quiet_ui_monitor) Hs C Hl)
    as (m' & E' & Hlt & _).
  - apply frame_with_ratio_ok. lra.
  - exists m, m'. split; [exact E | ]. split; [exact E' | ].
    rewrite Hlt by (rewrite F; lia). rewrite F. reflexivity.
Defined.

(** X12. Which cameras get past the retry loop: the loop is entered
    exactly when the first or the second attempt passes both checks, or
    the third attempt opens the device (whether or not its test read
    succeeds); [cv2.VideoCapture(0)] is called once, twice or three
    times accordingly. *)
Theorem camera_acceptance :
  forall camera m,
    quiet m ->
    (exists m',
        session_setup camera m
        = Done (passes (camera 0%nat) || passes (camera 1%nat)
                || isOpened (camera 2%nat)) m') /\
    snd (open_camera camera (seq 0 3) None 0)
    = (if passes (camera 0%nat) then 1
       else if passes (camera 1%nat) then 2 else 3)%nat.
Proof.
  intros camera m Q.
  assert (H : cap_unusable (fst (open_camera camera (seq 0 3) None 0))
              = negb (passes (camera 0%nat) || passes (camera 1%nat)
                      || isOpened (camera 2%nat)) /\
              snd (open_camera camera (seq 0 3) None 0)
              = (if passes (camera 0%nat) then 1
                 else if passes (camera 1%nat) then 2 else 3)%nat).
  { cbn [seq open_camera]. unfold passes.
    destruct (isOpened (camera 0%nat)) eqn:O0,
             (test_read (camera 0%nat)) eqn:R0,
             (isOpened (camera 1%nat)) eqn:O1,
             (test_read (camera 1%nat)) eqn:R1,
             (isOpened (camera 2%nat)) eqn:O2,
             (test_read (camera 2%nat)) eqn:R2;
      cbn [fst snd cap_unusable andb orb negb];
      rewrite ?O0, ?O1, ?O2; split; reflexivity. }
  destruct H as (Hcap & Hcalls). split; [ | exact Hcalls].
  unfold session_setup, bind, modify, get. fields. rewrite Hcap.
  set (ma := set_cap _ (set_cap None m)).
  assert (Sa : steady m ma) by (unfold steady; subst ma; fields; tauto).
  destruct (passes (camera 0%nat) || passes (camera 1%nat)
            || isOpened (camera 2%nat)); cbn [negb];
    rewrite (update_status_quiet _ ma (steady_quiet _ _ Sa Q));
    eexists; reflexivity.
Qed.

Lemma camera_acceptance_witness :
  exists m', session_setup camera_mute ui_monitor = Done true m'.
Proof.
  destruct (camera_acceptance camera_mute ui_monitor quiet_ui_monitor)
    as ((m' & E) & _).
  exists m'. exact E.
Defined.

(** ** Callbacks that raise *)

(** *** The run up to the call that raises

    No method but [call_warning_callback] reads the warning callback, so a
    run on which no alert fires is the same whatever warning callback is
    registered. *)

Lemma update_status_rewire s w m :
  _update_status s (rewire w m) = map_result (rewire w) (_update_status s m).
Proof.
  unfold _update_status. fields.
  destruct (status_callback m) as [cb | ]; [ | reflexivity].
  destruct (cb (log m) s); reflexivity.
Qed.

Lemma calibration_phase_rewire q w m :
  calibration_phase q (rewire w m)
  = map_result (rewire w) (calibration_phase q m).
Proof.
  destruct m as [wc sc r cf av ic cl br se st tt' ca cs lg].
  unfold calibration_phase. fields.
  destruct (cl =? 0)%nat; [reflexivity | ].
  unfold bind, get, modify, ret, _update_status. fields.
  destruct sc as [cb | ]; fields.
  - destruct (cb lg _); fields; [ | reflexivity].
    destruct (cl <=? cf + 1)%nat; fields; [ | reflexivity].
    destruct (cb _ Monitoring); reflexivity.
  - destruct (cl <=? cf + 1)%nat; reflexivity.
Qed.

Lemma check_slouch_rewire q w m :
  check_slouch q (rewire w m) = map_result (rewire w) (check_slouch q m).
Proof.
  unfold check_slouch. fields.
  destruct (Rlt_dec q (baseline_ratio m * SENSITIVITY m)).
  - unfold bind, get, modify, ret. fields.
    destruct (15 <? slouch_timer m + 1)%nat; [ | reflexivity].
    apply (update_status_rewire SLOUCHING w
             (set_slouch_timer (slouch_timer m + 1) m)).
  - unfold bind, modify.
    apply (update_status_rewire GoodPosture w (set_slouch_timer 0 m)).
Qed.

Lemma trigger_warning_idle m :
  (slouch_timer m <= trigger_frames m)%nat -> trigger_warning m = Done tt m.
Proof.
  intros H. unfold trigger_warning, bind, get. fold (trigger_frames m).
  apply Nat.ltb_ge in H. now rewrite H.
Qed.

Lemma session_setup_rewire camera w m :
  session_setup camera (rewire w m)
  = map_result (rewire w) (session_setup camera m).
Proof.
  destruct m as [wc sc r cf av ic cl br se st tt' ca cs lg].
  unfold session_setup, bind, get, modify, ret, _update_status. fields.
  destruct (cap_unusable _); destruct sc as [cb | ]; fields; try reflexivity.
  - destruct (cb lg ErrorCameraAccessDenied); reflexivity.
  - destruct (cb lg CalibratingStart); reflexivity.
Qed.

Lemma on_ratio_alerts_grow q m m' :
  quiet m -> calibration_limit m <> 0%nat ->
  on_ratio q m = Done tt m' -> (alerts m <= alerts m')%nat.
Proof.
  intros Q Hnz E. destruct (is_calibrated m) eqn:C.
  - rewrite (on_ratio_calibrated _ _ C) in E.
    destruct (Rlt_le_dec q (threshold m)) as [Hq | Hq].
    + destruct (monitoring_slouched m q Q Hq) as (m1 & E1 & _ & Lo & Hi & _).
      rewrite E1 in E. inversion E; subst m1.
      destruct (le_lt_dec (slouch_timer m + 1) (trigger_frames m)) as [H | H].
      * destruct (Lo H) as (_ & ->). lia.
      * destruct (Hi H) as (_ & ->). lia.
    + rewrite (monitoring_upright m q Q Hq) in E. inversion E; subst m'.
      rewrite published_alerts. unfold alerts. fields. lia.
  - rewrite (on_ratio_calibrating _ _ C) in E.
    destruct (le_lt_dec (calibration_limit m) (calibration_frames m + 1))
      as [H | H].
    + destruct (calibration_last_step m q Q H Hnz)
        as (m1 & E1 & _ & _ & _ & _ & _ & _ & A & _).
      rewrite E1 in E. inversion E; subst m1. lia.
    + destruct (calibration_step m q Q H)
        as (m1 & E1 & _ & _ & _ & _ & _ & _ & A).
      rewrite E1 in E. inversion E; subst m1. lia.
Qed.

Lemma while_loop_alerts_grow frames :
  forall cf m m',
    quiet m -> calibration_limit m <> 0%nat ->
    while_loop frames cf m = Done tt m' -> (alerts m <= alerts m')%nat.
Proof.
  induction frames as [ | f frames IH]; intros cf m m' Q Hnz E.
  - inversion E. lia.
  - destruct f as [ | h w lms]; cbn [while_loop] in E.
    + destruct (max_consecutive_failures <=? cf + 1)%nat.
      * rewrite (update_status_quiet _ _ Q) in E. inversion E.
        rewrite published_alerts. lia.
      * now apply (IH _ _ _ Q Hnz E).
    + destruct (on_frame_quiet h w lms m Q Hnz) as (m1 & E1 & S1 & _).
      rewrite (bind_done _ _ _ _ _ E1) in E.
      assert (H1 : (alerts m <= alerts m1)%nat).
      { unfold on_frame in E1. destruct lms as [lm | ]; [ | inversion E1; lia].
        destruct (compute_ratio _ _ _) as [q | ]; [ | inversion E1; lia].
        now apply (on_ratio_alerts_grow q m m1). }
      assert (H2 : (alerts m1 <= alerts m')%nat).
      { apply (IH 0%nat m1 m' (steady_quiet _ _ S1 Q)); [ | exact E].
        destruct S1 as (_ & _ & -> & _). exact Hnz. }
      lia.
Qed.

(** A frame on which no alert fires does not read the warning callback. *)
Lemma on_ratio_rewire q w m m' cb :
  quiet m -> warning_callback m = Some cb ->
  on_ratio q m = Done tt m' -> alerts m' = alerts m ->
  on_ratio q (rewire w m) = Done tt (rewire w m').
Proof.
  intros Q W E A. unfold on_ratio, bind, get in *. fields.
  destruct (is_calibrated m) eqn:C; cbn [negb] in *.
  - unfold monitoring_phase, bind in *.
    rewrite check_slouch_rewire.
    destruct (check_slouch q m) as [[] m1 | m1] eqn:E1; [ | discriminate].
    cbn [map_result].
    assert (K1 : kept m m1)
      by (pose proof (check_slouch_kept q m) as K; now rewrite E1 in K).
    assert (A1 : alerts m1 = alerts m).
    { destruct (Rlt_le_dec q (threshold m)) as [Hq | Hq].
      - destruct (check_slouch_slouched m q Q Hq) as (m2 & E2 & _ & _ & A2 & _).
        congruence.
      - rewrite (check_slouch_upright m q Q Hq) in E1. inversion E1.
        rewrite published_alerts. reflexivity. }
    destruct (le_lt_dec (slouch_timer m1) (trigger_frames m1)) as [H | H].
    + rewrite (trigger_warning_idle m1 H) in E. inversion E; subst m'.
      apply trigger_warning_idle. exact H.
    + destruct (trigger_warning_quiet m1 (kept_quiet _ _ K1 Q))
        as (m2 & E2 & _ & _ & _ & Hi).
      destruct (Hi H) as (_ & A2).
      destruct K1 as ((Hw & _) & _). rewrite Hw, W in A2.
      rewrite E2 in E. inversion E; subst m2. lia.
  - rewrite calibration_phase_rewire. now rewrite E.
Qed.

Lemma while_loop_rewire frames :
  forall w cf m m' cb,
    quiet m -> calibration_limit m <> 0%nat -> warning_callback m = Some cb ->
    while_loop frames cf m = Done tt m' -> alerts m' = alerts m ->
    while_loop frames cf (rewire w m) = Done tt (rewire w m').
Proof.
  induction frames as [ | f frames IH]; intros w cf m m' cb Q Hnz W E A.
  - inversion E. reflexivity.
  - destruct f as [ | h wd lms]; cbn [while_loop] in *.
    + destruct (max_consecutive_failures <=? cf + 1)%nat.
      * rewrite update_status_rewire, E. reflexivity.
      * now apply (IH w _ m m' cb).
    + destruct (on_frame_quiet h wd lms m Q Hnz) as (m1 & E1 & S1 & _).
      rewrite (bind_done _ _ _ _ _ E1) in E.
      assert (Q1 : quiet m1) by exact (steady_quiet _ _ S1 Q).
      assert (Hnz1 : calibration_limit m1 <> 0%nat).
      { destruct S1 as (_ & _ & -> & _). exact Hnz. }
      assert (W1 : warning_callback m1 = Some cb).
      { destruct S1 as (-> & _). exact W. }
      pose proof (while_loop_alerts_grow _ _ _ _ Q1 Hnz1 E) as G2.
      assert (G1 : (alerts m <= alerts m1)%nat).
      { unfold on_frame in E1. destruct lms as [lm | ]; [ | inversion E1; lia].
        destruct (compute_ratio _ _ _) as [q | ]; [ | inversion E1; lia].
        now apply (on_ratio_alerts_grow q m m1). }
      assert (E1' : on_frame h wd lms (rewire w m) = Done tt (rewire w m1)).
      { unfold on_frame in *. destruct lms as [lm | ];
          [ | inversion E1; reflexivity].
        destruct (compute_ratio _ _ _) as [q | ];
          [ | inversion E1; reflexivity].
        apply (on_ratio_rewire q w m m1 cb); trivial. lia. }
      rewrite (bind_done _ _ _ _ _ E1').
      apply (IH w 0%nat m1 m' cb); trivial. lia.
Qed.

(** *** Frames on which a callback raises *)

Lemma update_status_raises s m cb :
  status_callback m = Some cb -> cb (log m) s = Raises ->
  _update_status s m
  = Raised (record_call (EvStatus s) (set_current_status s m)).
Proof.
  intros Hcb Hr. unfold _update_status. fields. now rewrite Hcb, Hr.
Qed.

Lemma while_loop_frame_raises f q rest cf m m' :
  frame_ratio f = Some q -> on_ratio q m = Raised m' ->
  while_loop (f :: rest) cf m = Raised m'.
Proof.
  intros Hf E. rewrite (while_loop_ratio _ _ _ _ _ Hf). now apply bind_raised.
Qed.

Lemma calibration_frame_raises q m cb :
  is_calibrated m = false -> calibration_limit m <> 0%nat ->
  status_callback m = Some cb ->
  cb (log m)
     (Calibrating
        (py_int (INR (calibration_frames m + 1) / INR (calibration_limit m)
                 * 100))) = Raises ->
  exists m',
    on_ratio q m = Raised m' /\
    calibration_frames m' = (calibration_frames m + 1)%nat /\
    avg_ratio m' = avg_ratio m + q /\
    is_calibrated m' = false /\
    baseline_ratio m' = baseline_ratio m /\
    running m' = running m /\ cap m' = cap m /\
    current_status m' =
      Calibrating
        (py_int (INR (calibration_frames m + 1) / INR (calibration_limit m)
                 * 100)) /\
    log m' = EvStatus (current_status m') :: log m.
Proof.
  intros C Hnz Hcb Hr. rewrite (on_ratio_calibrating _ _ C).
  unfold calibration_phase. fields.
  apply Nat.eqb_neq in Hnz. rewrite Hnz.
  unfold bind.
  rewrite (update_status_raises _ _ cb) by (fields; assumption).
  eexists. split; [reflexivity | ]. fields. tauto.
Qed.

Lemma upright_frame_raises q m cb :
  is_calibrated m = true -> threshold m <= q ->
  status_callback m = Some cb -> cb (log m) GoodPosture = Raises ->
  exists m',
    on_ratio q m = Raised m' /\
    slouch_timer m' = 0%nat /\
    running m' = running m /\ cap m' = cap m /\
    log m' = EvStatus GoodPosture :: log m.
Proof.
  intros C Hq Hcb Hr. rewrite (on_ratio_calibrated _ _ C).
  unfold monitoring_phase, bind, check_slouch. fold (threshold m).
  destruct (Rlt_dec q (threshold m)) as [Hlt | _]; [lra | ].
  unfold bind, modify.
  rewrite (update_status_raises _ _ cb) by (fields; assumption).
  eexists. split; [reflexivity | ]. fields. tauto.
Qed.

Lemma slouched_frame_raises q m cb :
  is_calibrated m = true -> q < threshold m ->
  (15 < slouch_timer m + 1)%nat ->
  status_callback m = Some cb -> cb (log m) SLOUCHING = Raises ->
  exists m',
    on_ratio q m = Raised m' /\
    slouch_timer m' = (slouch_timer m + 1)%nat /\
    alerts m' = alerts m /\
    running m' = running m /\ cap m' = cap m /\
    log m' = EvStatus SLOUCHING :: log m.
Proof.
  intros C Hq Ht Hcb Hr. rewrite (on_ratio_calibrated _ _ C).
  unfold monitoring_phase, bind, check_slouch. fold (threshold m).
  destruct (Rlt_dec q (threshold m)) as [_ | Hn]; [ | lra].
  unfold bind, modify, get. fields.
  apply Nat.ltb_lt in Ht. rewrite Ht.
  rewrite (update_status_raises _ _ cb) by (fields; assumption).
  eexists. split; [reflexivity | ]. unfold alerts. fields. tauto.
Qed.

Lemma firing_frame_raises q m wcb :
  is_calibrated m = true -> q < threshold m ->
  (15 <= trigger_frames m)%nat ->
  (trigger_frames m < slouch_timer m + 1)%nat ->
  (forall cb, status_callback m = Some cb -> cb (log m) SLOUCHING = Returns) ->
  warning_callback m = Some wcb ->
  wcb (log (published SLOUCHING m)) = Raises ->
  exists m',
    on_ratio q m = Raised m' /\
    slouch_timer m' = (slouch_timer m + 1)%nat /\
    alerts m' = S (alerts m) /\
    trigger_frames m' = trigger_frames m /\
    running m' = running m /\ cap m' = cap m /\
    log m' = EvWarning :: log (published SLOUCHING m).
Proof.
  intros C Hq H15 Ht Hs Hw Hr. rewrite (on_ratio_calibrated _ _ C).
  unfold monitoring_phase, bind, check_slouch. fold (threshold m).
  destruct (Rlt_dec q (threshold m)) as [_ | Hn]; [ | lra].
  unfold bind, modify, get. fields.
  assert (H15' : (15 <? slouch_timer m + 1)%nat = true)
    by (apply Nat.ltb_lt; lia).
  rewrite H15'.
  assert (E1 : _update_status SLOUCHING (set_slouch_timer (slouch_timer m + 1) m)
               = Done tt (published SLOUCHING
                            (set_slouch_timer (slouch_timer m + 1) m))).
  { unfold _update_status, published. fields.
    destruct (status_callback m) as [cb | ] eqn:Ecb; [ | reflexivity].
    now rewrite (Hs cb eq_refl). }
  rewrite E1.
  unfold trigger_warning, bind, get.
  set (m1 := published SLOUCHING (set_slouch_timer (slouch_timer m + 1) m)).
  assert (T1 : slouch_timer m1 = (slouch_timer m + 1)%nat).
  { subst m1. unfold published. fields. now destruct (status_callback m). }
  assert (G1 : slouch_trigger_time m1 = slouch_trigger_time m).
  { subst m1. unfold published. fields. now destruct (status_callback m). }
  assert (W1 : warning_callback m1 = Some wcb).
  { subst m1. unfold published. fields. destruct (status_callback m); exact Hw. }
  assert (L1 : log m1 = log (published SLOUCHING m)).
  { subst m1. unfold published. fields. now destruct (status_callback m). }
  assert (R1 : running m1 = running m /\ cap m1 = cap m).
  { subst m1. unfold published. fields. now destruct (status_callback m). }
  rewrite T1, G1. fold (trigger_frames m).
  apply Nat.ltb_lt in Ht. rewrite Ht.
  unfold call_warning_callback. rewrite W1, L1, Hr.
  eexists. split; [reflexivity | ]. unfold alerts, trigger_frames. fields.
  rewrite T1, L1, G1. rewrite published_log.
  destruct (status_callback m); cbn [warnings_in]; tauto.
Qed.

Lemma completion_frame_raises q m cb :
  is_calibrated m = false -> calibration_limit m <> 0%nat ->
  (calibration_limit m <= calibration_frames m + 1)%nat ->
  status_callback m = Some cb ->
  cb (log m)
     (Calibrating
        (py_int (INR (calibration_frames m + 1) / INR (calibration_limit m)
                 * 100))) = Returns ->
  cb (EvStatus
        (Calibrating
           (py_int (INR (calibration_frames m + 1) / INR (calibration_limit m)
                    * 100))) :: log m) Monitoring = Raises ->
  exists m',
    on_ratio q m = Raised m' /\
    is_calibrated m' = true /\
    baseline_ratio m' = (avg_ratio m + q) / INR (calibration_limit m) /\
    current_status m' = Monitoring /\
    running m' = running m /\ cap m' = cap m /\
    log m' =
      EvStatus Monitoring
      :: EvStatus
           (Calibrating
              (py_int (INR (calibration_frames m + 1)
                       / INR (calibration_limit m) * 100)))
      :: log m.
Proof.
  intros C Hnz Hlim Hcb Hr0 Hr1. rewrite (on_ratio_calibrating _ _ C).
  unfold calibration_phase. fields.
  apply Nat.eqb_neq in Hnz. rewrite Hnz.
  unfold bind, get, modify. unfold _update_status at 1. fields.
  rewrite Hcb, Hr0. fields.
  apply Nat.leb_le in Hlim. rewrite Hlim.
  rewrite (update_status_raises _ _ cb) by (fields; assumption).
  eexists. split; [reflexivity | ]. fields. tauto.
Qed.

Lemma read_failure_raises rest cf m cb :
  (max_consecutive_failures <= cf + 1)%nat ->
  status_callback m = Some cb -> cb (log m) ErrorCameraReadFailed = Raises ->
  exists m',
    while_loop (ReadFailure :: rest) cf m = Raised m' /\
    running m' = running m /\ cap m' = cap m /\
    log m' = EvStatus ErrorCameraReadFailed :: log m.
Proof.
  intros Hcf Hcb Hr. cbn [while_loop].
  apply Nat.leb_le in Hcf. rewrite Hcf.
  rewrite (update_status_raises _ _ cb Hcb Hr).
  eexists. split; [reflexivity | ]. fields. tauto.
Qed.

Lemma session_setup_entered camera m m1 :
  session_setup camera m = Done true m1 ->
  steady m m1 /\
  cap m1 = fst (open_camera camera (seq 0 3) None 0) /\
  cap_unusable (cap m1) = false /\
  running m1 = running m /\
  calibration_frames m1 = 0%nat /\
  is_calibrated m1 = false /\
  baseline_ratio m1 = baseline_ratio m /\
  log m1 = log (published CalibratingStart m).
Proof.
  unfold session_setup, bind, modify, get. fields.
  destruct (cap_unusable _) eqn:Ec.
  - destruct (_update_status _ _); discriminate.
  - unfold _update_status, published. fields.
    destruct (status_callback m) as [cb | ] eqn:Es.
    + destruct (cb _ _); [ | discriminate].
      unfold ret. intros H. inversion H; subst m1. fields.
      unfold steady. fields. rewrite Es. tauto.
    + unfold ret. intros H. inversion H; subst m1. fields.
      unfold steady. fields. rewrite Es. tauto.
Qed.

Lemma monitor_loop_raises camera frames m m1 m' :
  session_setup camera m = Done true m1 ->
  while_loop frames 0 m1 = Raised m' ->
  _monitor_loop camera frames m = Raised m'.
Proof.
  intros E E'. unfold _monitor_loop.
  rewrite (bind_done _ _ _ _ _ E). now apply bind_raised.
Qed.

Lemma session_setup_enters camera m cb :
  status_callback m = Some cb -> cb (log m) CalibratingStart = Returns ->
  cap_unusable (fst (open_camera camera (seq 0 3) None 0)) = false ->
  exists m1, session_setup camera m = Done true m1.
Proof.
  intros Hcb Hr Hc. unfold session_setup, bind, modify, get. fields.
  rewrite Hc. unfold _update_status. fields. rewrite Hcb, Hr.
  eexists. reflexivity.
Qed.

(** A calibration on [limit] frames of ratio [good] followed by [n]
    frames of ratio [bad] that stay within the trigger: no alert fires,
    and the run is the same whatever warning callback is registered. *)
Lemma calibrate_then_slouch_run m1 good bad n cb :
  quiet m1 -> calibration_limit m1 <> 0%nat ->
  warning_callback m1 = Some cb ->
  is_calibrated m1 = false -> calibration_frames m1 = 0%nat ->
  avg_ratio m1 = 0 ->
  0 <= good -> 0 <= bad -> bad < good * SENSITIVITY m1 ->
  (slouch_timer m1 + n <= trigger_frames m1)%nat ->
  exists m3,
    while_loop (repeat (frame_with_ratio good) (calibration_limit m1)
                ++ repeat (frame_with_ratio bad) n) 0 m1 = Done tt m3 /\
    steady m1 m3 /\
    is_calibrated m3 = true /\
    baseline_ratio m3 = good /\
    slouch_timer m3 = (slouch_timer m1 + n)%nat /\
    alerts m3 = alerts m1 /\
    forall w,
      while_loop (repeat (frame_with_ratio good) (calibration_limit m1)
                  ++ repeat (frame_with_ratio bad) n) 0 (rewire w m1)
      = Done tt (rewire w m3).
Proof.
  intros Q1 Hnz W1 C1 F1 V1 Hg Hb Hlt Ht.
  destruct (calibration_completes
              (repeat (frame_with_ratio good) (calibration_limit m1))
              m1 (repeat good (calibration_limit m1)) 0%nat Q1 C1)
    as (m2 & E2 & S2 & C2 & B2 & T2 & A2 & _).
  { now apply ratios_of_repeat. }
  { destruct (calibration_limit m1); [congruence | discriminate]. }
  { rewrite repeat_length, F1. reflexivity. }
  assert (Hbase : baseline_ratio m2 = good).
  { rewrite B2, V1, Rsum_repeat. field. apply not_0_INR. exact Hnz. }
  assert (Q2 : quiet m2) by (eapply steady_quiet; eauto).
  assert (Hthr : bad < threshold m2).
  { unfold threshold. rewrite Hbase.
    destruct S2 as (_ & _ & _ & -> & _). exact Hlt. }
  destruct (slouched_run (repeat (frame_with_ratio bad) n) m2 0%nat Q2 C2)
    as (m3 & E3 & K3 & T3 & A3 & _).
  { now apply slouched_repeat. }
  { rewrite (steady_trigger _ _ S2), T2. lia. }
  rewrite repeat_length, (steady_trigger _ _ S2), T2 in T3, A3.
  rewrite Nat.mod_small in T3 by lia. rewrite Nat.div_small in A3 by lia.
  assert (A3' : alerts m3 = alerts m2).
  { rewrite A3. unfold warning_calls. destruct (warning_callback m2); lia. }
  assert (W2 : warning_callback m2 = Some cb).
  { destruct S2 as (-> & _). exact W1. }
  assert (Hnz2 : calibration_limit m2 <> 0%nat).
  { destruct S2 as (_ & _ & -> & _). exact Hnz. }
  exists m3. split.
  { rewrite while_loop_app by apply images_repeat.
    rewrite (bind_done _ _ _ _ _ E2). exact E3. }
  split; [eapply steady_trans; [exact S2 | apply K3] | ].
  split; [exact (kept_calibrated _ _ K3 C2) | ].
  split; [destruct K3 as (_ & _ & _ & _ & ->); exact Hbase | ].
  split; [exact T3 | ]. split; [congruence | ].
  intros w. rewrite while_loop_app by apply images_repeat.
  rewrite (bind_done _ _ _ _ _
             (while_loop_rewire _ w 0%nat m1 m2 cb Q1 Hnz W1 E2 A2)).
  exact (while_loop_rewire _ w 0%nat m2 m3 cb Q2 Hnz2 W2 E3 A3').
Qed.

(** Counterexample to C2 as stated: the warning callback of the monitor
    raises.  The monitor calibrates on 90 frames of ratio 1 and reads
    frames of ratio 1/2 (threshold 0.85).  The 91st of them calls the
    callback, the exception leaves the loop before the reset of line 201,
    and the counter is left at 91, above the trigger of 90; the 92nd frame
    is never read. *)
Lemma alert_that_raises_keeps_counter :
  exists m',
    _monitor_loop camera_ready
      (repeat (frame_with_ratio 1) 90 ++ repeat (frame_with_ratio (1 / 2)) 92)
      (set_running true broken_alert_monitor) = Raised m' /\
    trigger_frames m' = 90%nat /\
    alerts m' = 1%nat /\
    slouch_timer m' = 91%nat.
Proof.
  destruct (begin_session_ready ui_monitor quiet_ui_monitor) as (m1 & E1 & A1).
  pose proof (begin_session_entered _ _ _ E1)
    as (S1 & _ & F1 & V1 & C1 & _ & T1 & _).
  assert (Q1 : quiet m1)
    by (eapply steady_quiet; [exact S1 | exact quiet_ui_monitor]).
  pose proof S1 as (Hw & Hst & Hl & Hs & Htt).
  change (calibration_limit ui_monitor) with 90%nat in Hl.
  change (SENSITIVITY ui_monitor) with (85 / 100) in Hs.
  change (warning_callback ui_monitor) with (Some warn_ok) in Hw.
  change (status_callback ui_monitor) with (Some status_ok) in Hst.
  change (slouch_timer ui_monitor) with 0%nat in T1.
  change (alerts ui_monitor) with 0%nat in A1.
  pose proof (steady_trigger _ _ S1) as Htr.
  change (trigger_frames ui_monitor) with 90%nat in Htr.
  destruct (calibrate_then_slouch_run m1 1 (1 / 2) 90 warn_ok Q1)
    as (m3 & _ & S3 & C3 & B3 & T3 & A3 & Run);
    try assumption; try lra; try (rewrite Hl; discriminate);
    try (rewrite Hs; lra); try (rewrite T1, Htr; lia).
  rewrite Hl in Run. rewrite T1 in T3. cbn [Nat.add] in T3.
  pose proof (steady_trigger _ _ S3) as Htr3. rewrite Htr in Htr3.
  pose proof S3 as (Hw3 & Hst3 & _ & Hs3 & _).
  rewrite Hw in Hw3. rewrite Hst in Hst3. rewrite Hs in Hs3.
  set (n3 := rewire (Some warn_broken) m3).
  destruct (firing_frame_raises (1 / 2) n3 warn_broken)
    as (m' & E' & T' & A' & G' & _); subst n3; fields; trivial.
  { unfold threshold. fields. rewrite B3, Hs3. lra. }
  { unfold trigger_frames in *. fields. rewrite Htr3. lia. }
  { unfold trigger_frames in *. fields. rewrite Htr3, T3. lia. }
  { intros cb Hcb. rewrite Hst3 in Hcb. inversion Hcb. reflexivity. }
  exists m'. split.
  - unfold begin_session, bind, modify in E1.
    apply (monitor_loop_raises camera_ready _ _
             (rewire (Some warn_broken) m1)).
    + change (set_running true broken_alert_monitor)
        with (rewire (Some warn_broken) (set_running true ui_monitor)).
      rewrite session_setup_rewire, E1. reflexivity.
    + change 92%nat with (90 + 2)%nat. rewrite repeat_app, app_assoc.
      rewrite while_loop_app.
      * rewrite (bind_done _ _ _ _ _ (Run (Some warn_broken))).
        apply (while_loop_frame_raises _ (1 / 2));
          [apply frame_with_ratio_ok; lra | exact E'].
      * apply Forall_app. split; apply images_repeat.
  - unfold trigger_frames in *. fields. unfold alerts in *. fields.
    rewrite G', Htr3, A', T', T3, A3, A1. repeat split; reflexivity.
Qed.

(** Counterexample to C3 as stated: the status callback raises on the
    progress reports of the calibration.  The camera opens and
    "Calibrating..." is published.  The first frame is counted, its
    progress report "Calibrating: 1%" raises, and the exception leaves
    [_monitor_loop]: the second frame is never processed, and the thread
    is gone while [running] is still set and the camera handle is still
    held. *)
Lemma callback_exception_ends_loop :
  exists m',
    _monitor_loop camera_ready [frame_with_ratio 1; frame_with_ratio 1]
      (set_running true flaky_ui_monitor) = Raised m' /\
    log m' = [EvStatus (Calibrating 1); EvStatus CalibratingStart] /\
    calibration_frames m' = 1%nat /\
    running m' = true /\
    cap m' = Some (camera_ready 0).
Proof.
  assert (E1 : exists m1,
             session_setup camera_ready (set_running true flaky_ui_monitor)
             = Done true m1 /\
             log m1 = [EvStatus CalibratingStart] /\
             running m1 = true /\ cap m1 = Some (camera_ready 0) /\
             is_calibrated m1 = false /\ calibration_frames m1 = 0%nat /\
             calibration_limit m1 = 90%nat /\
             status_callback m1 = Some status_flaky).
  { eexists. split; [reflexivity | ]. cbn. tauto. }
  destruct E1 as (m1 & E1 & L1 & R1 & P1 & C1 & F1 & Hl & Hcb).
  destruct (calibration_frame_raises 1 m1 status_flaky C1)
    as (m' & E' & F' & _ & _ & _ & R' & P' & St' & L'); trivial.
  { rewrite Hl. discriminate. }
  exists m'. split.
  - apply (monitor_loop_raises _ _ _ m1 m' E1).
    apply (while_loop_frame_raises _ 1);
      [apply frame_with_ratio_ok; lra | exact E'].
  - rewrite L', St', L1, F', F1, R', R1, P', P1, Hl.
    rewrite progress_percent. repeat split; reflexivity.
Qed.

(** C3 (as amended). An exception raised inside a user-supplied callback
    is not caught at the call site.  It leaves [_update_status]; on the
    frame on which a callback raises (at the progress report of the
    calibration, at "Monitoring", "Good posture", "SLOUCHING!", at the
    warning, or at "Error: Camera read failed") it leaves the acquisition
    loop, whatever frames follow, and with it [_monitor_loop], whose
    cleanup is skipped; a warning callback that raises leaves the slouch
    counter as it was, above the trigger.  The loop runs to its end
    whenever the callbacks return. *)
Theorem callback_exception_propagates :
  forall m,
    (forall cb s,
        status_callback m = Some cb -> cb (log m) s = Raises ->
        exists m', _update_status s m = Raised m' /\ current_status m' = s) /\
    (forall cb,
        warning_callback m = Some cb -> cb (log m) = Raises ->
        (trigger_frames m < slouch_timer m)%nat ->
        exists m', trigger_warning m = Raised m' /\
                   slouch_timer m' = slouch_timer m) /\
    (forall cb f q rest cf,
        status_callback m = Some cb -> frame_ratio f = Some q ->
        is_calibrated m = false -> calibration_limit m <> 0%nat ->
        cb (log m)
           (Calibrating
              (py_int (INR (calibration_frames m + 1)
                       / INR (calibration_limit m) * 100))) = Raises ->
        exists m',
          while_loop (f :: rest) cf m = Raised m' /\
          calibration_frames m' = (calibration_frames m + 1)%nat /\
          is_calibrated m' = false /\
          baseline_ratio m' = baseline_ratio m /\
          log m' = EvStatus (current_status m') :: log m /\
          current_status m' <> Stopped) /\
    (forall cb f q rest cf,
        status_callback m = Some cb -> frame_ratio f = Some q ->
        is_calibrated m = false -> calibration_limit m <> 0%nat ->
        (calibration_limit m <= calibration_frames m + 1)%nat ->
        cb (log m)
           (Calibrating
              (py_int (INR (calibration_frames m + 1)
                       / INR (calibration_limit m) * 100))) = Returns ->
        cb (EvStatus
              (Calibrating
                 (py_int (INR (calibration_frames m + 1)
                          / INR (calibration_limit m) * 100))) :: log m)
           Monitoring = Raises ->
        exists m',
          while_loop (f :: rest) cf m = Raised m' /\
          is_calibrated m' = true /\
          current_status m' = Monitoring) /\
    (forall cb f q rest cf,
        status_callback m = Some cb -> frame_ratio f = Some q ->
        is_calibrated m = true -> threshold m <= q ->
        cb (log m) GoodPosture = Raises ->
        exists m',
          while_loop (f :: rest) cf m = Raised m' /\
          log m' = EvStatus GoodPosture :: log m) /\
    (forall cb f q rest cf,
        status_callback m = Some cb -> frame_ratio f = Some q ->
        is_calibrated m = true -> q < threshold m ->
        (15 < slouch_timer m + 1)%nat ->
        cb (log m) SLOUCHING = Raises ->
        exists m',
          while_loop (f :: rest) cf m = Raised m' /\
          slouch_timer m' = (slouch_timer m + 1)%nat /\
          log m' = EvStatus SLOUCHING :: log m) /\
    (forall wcb f q rest cf,
        warning_callback m = Some wcb -> frame_ratio f = Some q ->
        is_calibrated m = true -> q < threshold m ->
        (15 <= trigger_frames m)%nat ->
        (trigger_frames m < slouch_timer m + 1)%nat ->
        (forall cb, status_callback m = Some cb ->
                    cb (log m) SLOUCHING = Returns) ->
        wcb (log (published SLOUCHING m)) = Raises ->
        exists m',
          while_loop (f :: rest) cf m = Raised m' /\
          slouch_timer m' = (slouch_timer m + 1)%nat /\
          alerts m' = S (alerts m)) /\
    (forall cb rest cf,
        status_callback m = Some cb ->
        (max_consecutive_failures <= cf + 1)%nat ->
        cb (log m) ErrorCameraReadFailed = Raises ->
        exists m',
          while_loop (ReadFailure :: rest) cf m = Raised m' /\
          running m' = running m /\ cap m' = cap m) /\
    (forall frames rest cf m',
        while_loop frames cf m = Raised m' ->
        while_loop (frames ++ rest) cf m = Raised m') /\
    (forall camera frames m1 m',
        session_setup camera m = Done true m1 ->
        while_loop frames 0 m1 = Raised m' ->
        _monitor_loop camera frames m = Raised m') /\
    (forall camera cb f q rest,
        status_callback m = Some cb -> frame_ratio f = Some q ->
        calibration_limit m <> 0%nat ->
        cap_unusable (fst (open_camera camera (seq 0 3) None 0)) = false ->
        cb (log m) CalibratingStart = Returns ->
        cb (EvStatus CalibratingStart :: log m)
           (Calibrating (py_int (INR 1 / INR (calibration_limit m) * 100)))
        = Raises ->
        exists m',
          _monitor_loop camera (f :: rest) m = Raised m' /\
          calibration_frames m' = 1%nat /\
          running m' = running m /\
          cap m' = fst (open_camera camera (seq 0 3) None 0) /\
          current_status m' <> Stopped) /\
    (quiet m -> calibration_limit m <> 0%nat ->
     forall camera frames,
     exists m', _monitor_loop camera frames m = Done tt m').
Proof.
  intros m. repeat apply conj.
  - intros cb s Hcb Hr. rewrite (update_status_raises s m cb Hcb Hr).
    eexists. split; reflexivity.
  - intros cb Hcb Hr Ht. unfold trigger_warning, bind, get.
    fold (trigger_frames m). apply Nat.ltb_lt in Ht. rewrite Ht.
    unfold call_warning_callback. rewrite Hcb, Hr.
    eexists. split; reflexivity.
  - intros cb f q rest cf Hcb Hf C Hnz Hr.
    destruct (calibration_frame_raises q m cb C Hnz Hcb Hr)
      as (m' & E & F & _ & C' & B & _ & _ & St & L).
    exists m'. split; [exact (while_loop_frame_raises _ _ _ _ _ _ Hf E) | ].
    repeat split; trivial. rewrite St. discriminate.
  - intros cb f q rest cf Hcb Hf C Hnz Hlim Hr0 Hr1.
    destruct (completion_frame_raises q m cb C Hnz Hlim Hcb Hr0 Hr1)
      as (m' & E & C' & _ & St & _).
    exists m'. split; [exact (while_loop_frame_raises _ _ _ _ _ _ Hf E) | ].
    split; [exact C' | exact St].
  - intros cb f q rest cf Hcb Hf C Hq Hr.
    destruct (upright_frame_raises q m cb C Hq Hcb Hr)
      as (m' & E & _ & _ & _ & L).
    exists m'. split; [exact (while_loop_frame_raises _ _ _ _ _ _ Hf E) | ].
    exact L.
  - intros cb f q rest cf Hcb Hf C Hq Ht Hr.
    destruct (slouched_frame_raises q m cb C Hq Ht Hcb Hr)
      as (m' & E & T & _ & _ & _ & L).
    exists m'. split; [exact (while_loop_frame_raises _ _ _ _ _ _ Hf E) | ].
    tauto.
  - intros wcb f q rest cf Hw Hf C Hq H15 Ht Hs Hr.
    destruct (firing_frame_raises q m wcb C Hq H15 Ht Hs Hw Hr)
      as (m' & E & T & A & _).
    exists m'. split; [exact (while_loop_frame_raises _ _ _ _ _ _ Hf E) | ].
    tauto.
  - intros cb rest cf Hcb Hcf Hr.
    destruct (read_failure_raises rest cf m cb Hcf Hcb Hr)
      as (m' & E & R & P & _).
    exists m'. tauto.
  - intros frames rest cf m'. apply while_loop_raised.
  - intros camera frames m1 m'. apply monitor_loop_raises.
  - intros camera cb f q rest Hcb Hf Hnz Hc Hr0 Hr1.
    destruct (session_setup_enters camera m cb Hcb Hr0 Hc) as (m1 & E1).
    pose proof (session_setup_entered _ _ _ E1)
      as (S1 & P1 & _ & R1 & F1 & C1 & _ & L1).
    pose proof S1 as (_ & Hcb1 & Hl1 & _).
    rewrite published_log, Hcb in L1.
    destruct (calibration_frame_raises q m1 cb C1)
      as (m' & E' & F' & _ & _ & _ & R' & P' & St' & _).
    { rewrite Hl1. exact Hnz. }
    { rewrite Hcb1. exact Hcb. }
    { rewrite L1, F1, Hl1. exact Hr1. }
    exists m'. split.
    + apply (monitor_loop_raises _ _ _ m1 m' E1).
      exact (while_loop_frame_raises _ _ _ _ _ _ Hf E').
    + rewrite F', F1, R', R1, P', P1, St'. repeat split. discriminate.
  - intros Q Hnz camera frames. now apply monitor_loop_quiet.
Qed.

Lemma callback_exception_propagates_witness :
  (exists m',
      _update_status Monitoring broken_ui_monitor = Raised m' /\
      current_status m' = Monitoring) /\
  (exists m',
      while_loop [frame_with_ratio (1 / 2); frame_with_ratio 1] 0
        (rewire (Some warn_broken) (set_slouch_timer 90 calibrated_monitor))
      = Raised m' /\ slouch_timer m' = 91%nat /\ alerts m' = 1%nat) /\
  (exists m',
      while_loop [frame_with_ratio 1; frame_with_ratio 1] 0 flaky_ui_monitor
      = Raised m' /\ calibration_frames m' = 1%nat) /\
  (exists m',
      _monitor_loop camera_ready [frame_with_ratio 1; frame_with_ratio 1]
        flaky_ui_monitor = Raised m' /\
      calibration_frames m' = 1%nat /\
      cap m' = Some (camera_ready 0)).
Proof.
  destruct (callback_exception_propagates flaky_ui_monitor)
    as (_ & _ & Hcal & _ & _ & _ & _ & _ & _ & _ & Hloop & _).
  destruct (callback_exception_propagates broken_ui_monitor) as (Hs & _).
  destruct (callback_exception_propagates
              (rewire (Some warn_broken)
                 (set_slouch_timer 90 calibrated_monitor)))
    as (_ & _ & _ & _ & _ & _ & Hfire & _).
  split; [ | split; [ | split]].
  - exact (Hs status_broken Monitoring eq_refl eq_refl).
  - destruct (Hfire warn_broken (frame_with_ratio (1 / 2)) (1 / 2)
                [frame_with_ratio 1] 0%nat eq_refl) as (m' & E & T & A).
    + apply frame_with_ratio_ok. lra.
    + reflexivity.
    + unfold threshold. cbn. lra.
    + cbn. lia.
    + cbn. lia.
    + intros cb H. inversion H. reflexivity.
    + reflexivity.
    + exists m'. split; [exact E | ]. split; [exact T | exact A].
  - destruct (Hcal status_flaky (frame_with_ratio 1) 1 [frame_with_ratio 1]
                0%nat eq_refl) as (m' & E & F & _).
    + apply frame_with_ratio_ok. lra.
    + reflexivity.
    + discriminate.
    + reflexivity.
    + exists m'. split; [exact E | exact F].
  - destruct (Hloop camera_ready status_flaky (frame_with_ratio 1) 1
                [frame_with_ratio 1] eq_refl) as (m' & E & F & _ & P & _).
    + apply frame_with_ratio_ok. lra.
    + discriminate.
    + reflexivity.
    + reflexivity.
    + reflexivity.
    + exists m'. split; [exact E | ]. split; [exact F | exact P].
Defined.

(** Counterexample to C5 as stated: a first session calibrates on 90
    frames of ratio 1 and is stopped.  The second [start()] resets the
    frame count, the sum and the flag (lines 125-128), not the baseline:
    after 89 frames of ratio 1/2 [is_calibrated] is false and
    [baseline_ratio] is still 1. *)
Lemma restart_keeps_stale_baseline :
  exists m1 m2 m3,
    session camera_ready (repeat (frame_with_ratio 1) 90) ui_monitor
    = Done tt m1 /\
    baseline_ratio m1 = 1 /\
    begin_session camera_ready m1 = Done true m2 /\
    while_loop (repeat (frame_with_ratio (1 / 2)) 89) 0 m2 = Done tt m3 /\
    calibration_frames m3 = 89%nat /\
    is_calibrated m3 = false /\
    baseline_ratio m3 = 1.
Proof.
  destruct (session_calibrate_then_slouch ui_monitor 1 (1 / 2) 0
              quiet_ui_monitor)
    as (m1 & E1 & S1 & _ & _ & B1 & _);
    try (cbn; lra); try (cbn; lia); try reflexivity; try discriminate.
  change (calibration_limit ui_monitor) with 90%nat in E1.
  cbn [repeat] in E1. rewrite app_nil_r in E1.
  assert (Q1 : quiet m1)
    by (eapply steady_quiet; [exact S1 | exact quiet_ui_monitor]).
  destruct (begin_session_ready m1 Q1) as (m2 & E2 & _).
  pose proof (begin_session_entered _ _ _ E2)
    as (S2 & _ & F2 & _ & C2 & B2 & _).
  assert (Q2 : quiet m2) by (eapply steady_quiet; [exact S2 | exact Q1]).
  assert (Hl : calibration_limit m2 = 90%nat).
  { destruct S2 as (_ & _ & -> & _). destruct S1 as (_ & _ & -> & _).
    reflexivity. }
  destruct (calibration_run (repeat (frame_with_ratio (1 / 2)) 89) m2
              (repeat (1 / 2) 89) 0%nat Q2 C2)
    as (m3 & E3 & _ & F3 & _ & C3 & B3 & _).
  { apply ratios_of_repeat. lra. }
  { rewrite repeat_length, F2, Hl. lia. }
  exists m1, m2, m3. rewrite F3, F2, repeat_length, B3, B2, B1.
  repeat split; assumption.
Qed.

(** ** The user interfaces *)

Lemma py_in_needs_char c needle hay :
  occurs c hay = false -> py_in (String.String c needle) hay = false.
Proof.
  induction hay as [ | a hay IH]; intros H; cbn [py_in String.prefix].
  - reflexivity.
  - cbn [occurs] in H. apply orb_false_iff in H. destruct H as (Hc & Hrest).
    destruct (Ascii.ascii_dec c a) as [-> | _].
    + now rewrite Ascii.eqb_refl in Hc.
    + cbn [orb]. now apply IH.
Qed.

Lemma occurs_append c s t :
  occurs c (String.append s t) = occurs c s || occurs c t.
Proof.
  induction s as [ | a s IH]; cbn [String.append occurs]; [reflexivity | ].
  now rewrite IH, orb_assoc.
Qed.

Lemma occurs_letter_in_number (c : Ascii.ascii) (p : Z) :
  occurs c "-0123456789"%string = false ->
  occurs c (DecimalString.NilZero.string_of_int (Z.to_int p)) = false.
Proof.
  intros H. cbn [occurs] in H.
  repeat (apply orb_false_iff in H; destruct H as (? & H)).
  assert (Hu : forall d, occurs c (DecimalString.NilEmpty.string_of_uint d) = false).
  { induction d; cbn [DecimalString.NilEmpty.string_of_uint occurs];
      rewrite ?IHd; auto using orb_false_intro. }
  assert (Hz : forall d, occurs c (DecimalString.NilZero.string_of_uint d) = false).
  { intros d. destruct d; try apply Hu. cbn. auto using orb_false_intro. }
  destruct (Z.to_int p) as [d | d]; cbn [DecimalString.NilZero.string_of_int].
  - apply Hz.
  - cbn [occurs]. rewrite Hz. auto using orb_false_intro.
Qed.

Lemma progress_text_has_no (c : Ascii.ascii) (p : Z) :
  occurs c "Calibrating: %-0123456789"%string = false ->
  occurs c (status_text (Calibrating p)) = false.
Proof.
  intros H. cbn [status_text]. rewrite !occurs_append.
  rewrite occurs_letter_in_number.
  - cbn [occurs] in *.
    repeat (apply orb_false_iff in H; destruct H as (? & H)).
    repeat (apply orb_false_intro; try assumption).
  - cbn [occurs] in *.
    repeat (apply orb_false_iff in H; destruct H as (? & H)).
    repeat (apply orb_false_intro; try assumption).
Qed.

(** X13. The menu-bar title for every status the monitor publishes: "P!"
    for the slouching status, "P~" during calibration (whatever the
    percentage), "P?" for the two camera errors, and "P" for
    "Good posture", "Monitoring", "Stopped" and "Idle". *)
Theorem menu_bar_title_of_status :
  forall s,
    MenuBar.update_status (status_text s) =
      match s with
      | SLOUCHING => "P!"
      | CalibratingStart | Calibrating _ => "P~"
      | ErrorCameraAccessDenied | ErrorCameraReadFailed => "P?"
      | GoodPosture | Monitoring | Stopped | Idle => "P"
      end%string.
Proof.
  intros s. destruct s; try reflexivity.
  unfold MenuBar.update_status.
  rewrite py_in_needs_char by (apply progress_text_has_no; reflexivity).
  reflexivity.
Qed.

(** X14. The status label of the window for every status the monitor
    publishes.  "Monitoring", the status published when the calibration
    completes, is shown as "Idle", like "Stopped". *)
Theorem gui_label_of_status :
  forall s running w,
    Gui.status_label (Gui.on_status_update running (status_text s) w) =
      match s with
      | SLOUCHING => Gui.LabelSlouching
      | CalibratingStart | Calibrating _ => Gui.LabelCalibrating
      | GoodPosture => Gui.LabelGood
      | ErrorCameraAccessDenied | ErrorCameraReadFailed => Gui.LabelError
      | Monitoring | Stopped | Idle => Gui.LabelIdle
      end.
Proof.
  intros s running w. destruct s; try reflexivity.
  unfold Gui.on_status_update. cbn [Gui.status_label].
  rewrite py_in_needs_char by (apply progress_text_has_no; reflexivity).
  reflexivity.
Qed.

(** X15. The buttons of the window change only on a "Stopped" or an
    error status that arrives while the monitor is not running: then
    Start is enabled and Stop disabled.  Any status that arrives while
    [running] is still set, and any other status, leaves them alone. *)
Theorem gui_buttons_on_status :
  forall s running w,
    let w' := Gui.on_status_update running (status_text s) w in
    (running = true ->
     Gui.start_button_enabled w' = Gui.start_button_enabled w /\
     Gui.stop_button_enabled w' = Gui.stop_button_enabled w /\
     Gui.details_text w' = Gui.details_text w) /\
    (running = false ->
     match s with
     | Stopped | ErrorCameraAccessDenied | ErrorCameraReadFailed =>
         Gui.start_button_enabled w' = true /\
         Gui.stop_button_enabled w' = false
     | _ =>
         Gui.start_button_enabled w' = Gui.start_button_enabled w /\
         Gui.stop_button_enabled w' = Gui.stop_button_enabled w
     end).
Proof.
  intros s running w. cbn zeta. split.
  - intros ->. unfold Gui.on_status_update. cbn [negb].
    destruct (py_in "Stopped" (status_text s) || py_in "Error" (status_text s));
      cbn; tauto.
  - intros ->. destruct s; try (cbn; tauto).
    unfold Gui.on_status_update.
    rewrite (py_in_needs_char "S"%char "topped"%string)
      by (apply progress_text_has_no; reflexivity).
    rewrite (py_in_needs_char "E"%char "rror"%string)
      by (apply progress_text_has_no; reflexivity).
    cbn. tauto.
Qed.

(** X18. The preview has no retry: the first failed read closes it.
    While no read fails and 'q' is not pressed, one overlay is shown per
    frame; nothing that comes after a failed read is shown. *)
Theorem preview_closes_on_first_failed_read :
  forall baseline c shown key rest,
    isOpened c = true ->
    Forall (fun e => fst e <> ReadFailure /\ snd e = false) shown ->
    Preview.show_camera_preview baseline c (shown ++ (ReadFailure, key) :: rest)
    = Preview.show_camera_preview baseline c shown /\
    length (Preview.show_camera_preview baseline c shown) = length shown.
Proof.
  intros baseline c shown key rest Ho H.
  unfold Preview.show_camera_preview. rewrite Ho. cbn [negb].
  induction H as [ | [f q] shown (Hf & Hq) _ IH]; [split; reflexivity | ].
  cbn [fst snd] in *. subst q.
  destruct f as [ | h w lms]; [congruence | ].
  cbn [app Preview.preview_loop length]. destruct IH as (-> & ->).
  split; reflexivity.
Qed.

Lemma preview_closes_on_first_failed_read_witness :
  Preview.show_camera_preview None (camera_ready 0)
    ([(Image 240 320 None, false)] ++ (ReadFailure, false)
       :: [(Image 240 320 None, false)])
  = Preview.show_camera_preview None (camera_ready 0)
      [(Image 240 320 None, false)].
Proof.
  apply (preview_closes_on_first_failed_read None (camera_ready 0)
           [(Image 240 320 None, false)] false [(Image 240 320 None, false)]).
  - reflexivity.
  - repeat constructor. discriminate.
Defined.

(** X19. The preview thread of the window accepts a camera only on an
    attempt that both opens and delivers the test frame: whatever handle
    it keeps passed both checks, and it keeps none exactly when no
    attempt did (an attempt that raises counts as failed). *)
Theorem camera_thread_accepts_only_verified :
  forall camera attempts,
    (forall c, CameraThread.open_camera camera attempts None = Some c ->
               passes c = true /\
               exists attempt, In attempt attempts /\ camera attempt = Some c) /\
    (CameraThread.open_camera camera attempts None = None <->
     forall attempt c, In attempt attempts -> camera attempt = Some c ->
                       passes c = false).
Proof.
  intros camera attempts.
  induction attempts as [ | a attempts (IHs & IHn)];
    cbn [CameraThread.open_camera].
  - split; [discriminate | ]. split; [intros _ ? ? [] | reflexivity].
  - unfold passes in *. destruct (camera a) as [c0 | ] eqn:Ea.
    + destruct (isOpened c0) eqn:Eo; [destruct (test_read c0) eqn:Er | ].
      * split.
        -- intros c H. inversion H; subst c. rewrite Eo, Er.
           split; [reflexivity | ]. exists a. split; [now left | exact Ea].
        -- split; [discriminate | ].
           intros H. specialize (H a c0 (or_introl eq_refl) Ea).
           rewrite Eo, Er in H. discriminate.
      * split.
        -- intros c H. destruct (IHs c H) as (Hp & a' & Hin & Hc).
           split; [exact Hp | ]. exists a'. split; [now right | exact Hc].
        -- rewrite IHn. split.
           ++ intros H a' c [<- | Hin] Hc.
              ** rewrite Ea in Hc. inversion Hc; subst c.
                 now rewrite Eo, Er.
              ** now apply (H a').
           ++ intros H a' c Hin. apply H. now right.
      * split.
        -- intros c H. destruct (IHs c H) as (Hp & a' & Hin & Hc).
           split; [exact Hp | ]. exists a'. split; [now right | exact Hc].
        -- rewrite IHn. split.
           ++ intros H a' c [<- | Hin] Hc.
              ** rewrite Ea in Hc. inversion Hc; subst c. now rewrite Eo.
              ** now apply (H a').
           ++ intros H a' c Hin. apply H. now right.
    + split.
      * intros c H. destruct (IHs c H) as (Hp & a' & Hin & Hc).
        split; [exact Hp | ]. exists a'. split; [now right | exact Hc].
      * rewrite IHn. split.
        -- intros H a' c [<- | Hin] Hc; [congruence | now apply (H a')].
        -- intros H a' c Hin. apply H. now right.
Qed.

Lemma camera_thread_accepts_only_verified_witness :
  CameraThread.open_camera (fun n => Some (camera_mute n)) (seq 0 5) None
  = None.
Proof.
  destruct (camera_thread_accepts_only_verified
              (fun n => Some (camera_mute n)) (seq 0 5)) as (_ & Hnone).
  apply Hnone. intros attempt c _ H. inversion H. reflexivity.
Defined.

(** X21. The window preview shows the monitor's verdict while the
    monitor runs: "SLOUCHING", "CALIBRATING...", "GOOD POSTURE" or
    "ERROR" by the monitor's status, whatever the frame at hand shows.
    On the statuses "Monitoring", "Stopped" and "Idle", and whenever the
    monitor is not running, it classifies the frame itself against its
    own baseline. *)
Theorem preview_overlay_follows_monitor :
  forall mon baseline r,
    (running mon = true ->
     CameraThread.status_overlay (Some mon) baseline r =
       match current_status mon with
       | SLOUCHING => Some ("SLOUCHING"%string, (0, 0, 255)%nat)
       | CalibratingStart | Calibrating _ =>
           Some ("CALIBRATING..."%string, (0, 165, 255)%nat)
       | GoodPosture => Some ("GOOD POSTURE"%string, (0, 255, 0)%nat)
       | ErrorCameraAccessDenied | ErrorCameraReadFailed =>
           Some ("ERROR"%string, (0, 0, 255)%nat)
       | Monitoring | Stopped | Idle =>
           CameraThread.status_overlay None baseline r
       end) /\
    (running mon = false ->
     CameraThread.status_overlay (Some mon) baseline r
     = CameraThread.status_overlay None baseline r).
Proof.
  intros mon baseline r. split; intros Hr;
    unfold CameraThread.status_overlay; rewrite Hr; [ | reflexivity].
  destruct (current_status mon) as [ | | | p | | | | | ]; try reflexivity.
  rewrite (py_in_needs_char "S"%char "LOUCHING"%string)
    by (apply progress_text_has_no; reflexivity).
  rewrite (py_in_needs_char "S"%char "LOUCH"%string)
    by (apply progress_text_has_no; reflexivity).
  reflexivity.
Qed.

Lemma preview_overlay_follows_monitor_witness :
  CameraThread.status_overlay (Some calibrated_monitor) None 2 = None.
Proof.
  destruct (preview_overlay_follows_monitor calibrated_monitor None 2)
    as (Hrun & _).
  rewrite Hrun by reflexivity. reflexivity.
Defined.

Lemma gui_buttons_on_status_witness :
  Gui.start_button_enabled
    (Gui.on_status_update true (status_text ErrorCameraAccessDenied)
       (Gui.mkWindow false true Gui.LabelIdle [])) = false.
Proof.
  destruct (gui_buttons_on_status ErrorCameraAccessDenied true
              (Gui.mkWindow false true Gui.LabelIdle [])) as (Hrun & _).
  destruct (Hrun eq_refl) as (-> & _). reflexivity.
Defined.
